(** * nwhl_pbp_scraper: play-by-play conversion, shallow embedding

    The development follows [nwhl_pbp_scraper.py]:

    - [PyValues]  : decoded JSON values, Python exceptions and the built-in
                    operations the script applies to them;
    - [Frames]    : the handful of pandas operations the script calls, on a
                    table made of a column list and positional rows;
    - [Scraper]   : [convert_pbp_dict], [pull_player_names] and [main],
                    statement by statement;
    - [Run]       : [get_pbp_dict] and the input and the three writes of
                    [main], over a site to ask and the files on disk;
    - [Samples]   : a small game used to run the definitions;
    - the vocabulary of the properties, then the properties themselves:
      the event row of one play, the play table of [convert_pbp_dict],
      the joins and the tables of [main].

    Modelling conventions.  JSON numbers are integers ([Z]); the only
    floating value is the missing marker [PyNaN].  Strings are byte strings.
    [main] takes the decoded record and returns the three tables it hands
    to [to_csv]; [Run.main] puts the request before it and the three files
    after it, the site being a function from URLs to answers and a file
    being the table it was written from (the HTTP exchange and the text of
    the CSV are not modelled).  A raised exception ends the run: it is the
    [Raise] result of [convert_pbp_dict] and of [main]. *)

From Stdlib Require Import List String Ascii ZArith Bool Lia Arith.
From Stdlib Require Import Sorted Permutation DecimalString.
Import ListNotations.

Open Scope string_scope.
Open Scope list_scope.
Open Scope Z_scope.

(* ===================================================================== *)
(** ** Python values and exceptions *)
(* ===================================================================== *)

Module PyValues.

(** The values [req.json()] can return, plus [PyNaN] for [float('nan')]. *)
#[warnings="-register-all"]
Inductive pyval : Type :=
| PyNone
| PyBool (b : bool)
| PyInt (z : Z)
| PyNaN
| PyStr (s : string)
| PyList (l : list pyval)
| PyDict (d : list (string * pyval)).

Inductive exn : Type :=
| KeyError | IndexError | TypeError | AttributeError | ValueError.

Inductive result (A : Type) : Type :=
| Ok (a : A)
| Raise (e : exn).

Arguments Ok {A} a.
Arguments Raise {A} e.

Definition bind {A B} (c : result A) (k : A -> result B) : result B :=
  match c with
  | Ok a => k a
  | Raise e => Raise e
  end.

Definition exn_eqb (a b : exn) : bool :=
  match a, b with
  | KeyError, KeyError | IndexError, IndexError | TypeError, TypeError
  | AttributeError, AttributeError | ValueError, ValueError => true
  | _, _ => false
  end.

(** [try: c  except e: h] *)
Definition try_except {A} (c : result A) (e : exn) (h : result A) : result A :=
  match c with
  | Ok a => Ok a
  | Raise e' => if exn_eqb e' e then h else Raise e'
  end.

(** *** Strings *)

(** [str.isspace] on the ASCII range. *)
Definition is_space (c : ascii) : bool :=
  let n := nat_of_ascii c in
  (((9 <=? n) && (n <=? 13)) || ((28 <=? n) && (n <=? 32)))%nat.

Fixpoint lstrip (s : string) : string :=
  match s with
  | String c r => if is_space c then lstrip r else s
  | EmptyString => EmptyString
  end.

Fixpoint rstrip (s : string) : string :=
  match s with
  | String c r =>
      match rstrip r with
      | EmptyString => if is_space c then EmptyString else String c EmptyString
      | r' => String c r'
      end
  | EmptyString => EmptyString
  end.

Definition strip (s : string) : string := rstrip (lstrip s).

Definition lower_ascii (c : ascii) : ascii :=
  let n := nat_of_ascii c in
  if ((65 <=? n) && (n <=? 90))%nat then ascii_of_nat (n + 32) else c.

Fixpoint lower (s : string) : string :=
  match s with
  | String c r => String (lower_ascii c) (lower r)
  | EmptyString => EmptyString
  end.

(** [needle in hay] for two strings. *)
Fixpoint str_contains (needle hay : string) : bool :=
  String.prefix needle hay ||
  match hay with
  | String _ r => str_contains needle r
  | EmptyString => false
  end.

(** [s.split(sep)] for a one-character separator. *)
Fixpoint split_on (sep : ascii) (s : string) : list string :=
  match s with
  | EmptyString => [EmptyString]
  | String c r =>
      if Ascii.eqb c sep then EmptyString :: split_on sep r
      else match split_on sep r with
           | w :: ws => String c w :: ws
           | [] => [String c EmptyString]
           end
  end.

Definition digit_of (c : ascii) : option Z :=
  let n := nat_of_ascii c in
  if ((48 <=? n) && (n <=? 57))%nat then Some (Z.of_nat (n - 48)) else None.

(** The digit part of an integer literal: decimal digits, single
    underscores allowed between two digits. *)
Fixpoint int_digits (acc : Z) (after_digit : bool) (s : string) : option Z :=
  match s with
  | EmptyString => if after_digit then Some acc else None
  | String c r =>
      match digit_of c with
      | Some d => int_digits (10 * acc + d) true r
      | None =>
          if Ascii.eqb c "_" && after_digit then int_digits acc false r
          else None
      end
  end.

(** [int(s)] for a string [s]: surrounding whitespace, an optional sign,
    then the digits; anything else is a [ValueError]. *)
Definition py_int (s : string) : result Z :=
  let t := strip s in
  let parsed :=
    match t with
    | String "+" r => int_digits 0 false r
    | String "-" r => option_map Z.opp (int_digits 0 false r)
    | _ => int_digits 0 false t
    end in
  match parsed with
  | Some z => Ok z
  | None => Raise ValueError
  end.

Definition str_of_Z (z : Z) : string := NilZero.string_of_int (Z.to_int z).

Fixpoint join (sep : string) (l : list string) : string :=
  match l with
  | [] => EmptyString
  | [x] => x
  | x :: r => (x ++ sep ++ join sep r)%string
  end.

(** *** Built-in operations on values *)

Fixpoint dict_get (k : string) (d : list (string * pyval)) : option pyval :=
  match d with
  | [] => None
  | (k', v) :: r => if String.eqb k k' then Some v else dict_get k r
  end.

(** [bool(v)] *)
Definition truthy (v : pyval) : bool :=
  match v with
  | PyNone => false
  | PyBool b => b
  | PyInt z => negb (z =? 0)
  | PyNaN => true
  | PyStr s => negb (String.eqb s EmptyString)
  | PyList l => match l with [] => false | _ => true end
  | PyDict d => match d with [] => false | _ => true end
  end.

(** [v[k]] for a string key [k]. *)
Definition py_getitem (v : pyval) (k : string) : result pyval :=
  match v with
  | PyDict d =>
      match dict_get k d with
      | Some x => Ok x
      | None => Raise KeyError
      end
  | _ => Raise TypeError
  end.

(** [v[0]] *)
Definition py_first (v : pyval) : result pyval :=
  match v with
  | PyList (x :: _) => Ok x
  | PyList [] => Raise IndexError
  | PyStr (String c _) => Ok (PyStr (String c EmptyString))
  | PyStr EmptyString => Raise IndexError
  | PyDict _ => Raise KeyError
  | _ => Raise TypeError
  end.

(** [v[:n]] *)
Definition py_slice_to (n : nat) (v : pyval) : result pyval :=
  match v with
  | PyStr s => Ok (PyStr (substring 0 n s))
  | PyList l => Ok (PyList (firstn n l))
  | _ => Raise TypeError
  end.

(** [v == s] for a string literal [s]. *)
Definition py_eq_str (v : pyval) (s : string) : bool :=
  match v with
  | PyStr t => String.eqb t s
  | _ => false
  end.

(** [v.strip()]: only strings have the method. *)
Definition py_strip (v : pyval) : result string :=
  match v with
  | PyStr s => Ok (strip s)
  | _ => Raise AttributeError
  end.

(** [v.split(':')] *)
Definition py_split_colon (v : pyval) : result (list string) :=
  match v with
  | PyStr s => Ok (split_on ":" s)
  | _ => Raise AttributeError
  end.

(** [v.get(k, default)]: only dictionaries have the method. *)
Definition py_get (v : pyval) (k : string) (default : pyval) : result pyval :=
  match v with
  | PyDict d =>
      match dict_get k d with
      | Some x => Ok x
      | None => Ok default
      end
  | _ => Raise AttributeError
  end.

(** [s in v] for a string literal [s]. *)
Definition py_contains (s : string) (v : pyval) : result bool :=
  match v with
  | PyStr hay => Ok (str_contains s hay)
  | PyList l => Ok (existsb (fun x => py_eq_str x s) l)
  | PyDict d => Ok (existsb (fun kv => String.eqb (fst kv) s) d)
  | _ => Raise TypeError
  end.

(** [for x in v] *)
Definition py_iter (v : pyval) : result (list pyval) :=
  match v with
  | PyList l => Ok l
  | PyDict d => Ok (map (fun kv => PyStr (fst kv)) d)
  | PyStr s => Ok (map (fun c => PyStr (String c EmptyString)) (list_ascii_of_string s))
  | _ => Raise TypeError
  end.

(** [str(v)], as ['{}'.format(v)] renders it.  Strings nested in a list or
    an object are quoted the plain way (no embedded quote or escape). *)
Fixpoint py_repr (v : pyval) : string :=
  match v with
  | PyNone => "None"
  | PyBool true => "True"
  | PyBool false => "False"
  | PyInt z => str_of_Z z
  | PyNaN => "nan"
  | PyStr s => ("'" ++ s ++ "'")%string
  | PyList l => ("[" ++ join ", " (map py_repr l) ++ "]")%string
  | PyDict d =>
      ("{" ++ join ", "
                (map (fun kv => "'" ++ fst kv ++ "': " ++ py_repr (snd kv)) d)
           ++ "}")%string
  end.

Definition py_str (v : pyval) : string :=
  match v with
  | PyStr s => s
  | _ => py_repr v
  end.

Definition is_null (v : pyval) : bool :=
  match v with
  | PyNone | PyNaN => true
  | _ => false
  end.

End PyValues.

Export PyValues.

Declare Scope py_scope.
Delimit Scope py_scope with py.
Notation "x <- c ;; k" := (bind c (fun x => k))
  (at level 61, c at next level, right associativity) : py_scope.
Notation "v .[ k ]" := (py_getitem v k)
  (at level 1, left associativity, format "v .[ k ]") : py_scope.
Open Scope py_scope.

(* ===================================================================== *)
(** ** Tables *)
(* ===================================================================== *)

(** The pandas calls of the script, on a table given by its column labels
    and its rows, each row holding one cell per column, in column order.
    Column types are not modelled: a cell keeps the Python value it was
    built from.  Identifier and sort-key columns are numeric in the data
    the script reads; where pandas would compare an all-string column the
    model has no order and raises [TypeError]. *)

Module Frames.

Record frame : Type := mkFrame {
  columns : list string;
  rows : list (list pyval)
}.

Definition has_column (c : string) (cols : list string) : bool :=
  existsb (String.eqb c) cols.

(** The cell of row [r] under the first column labelled [c]. *)
Fixpoint row_get (cols : list string) (r : list pyval) (c : string)
  : option pyval :=
  match cols, r with
  | c' :: cs, v :: vs => if String.eqb c c' then Some v else row_get cs vs c
  | _, _ => None
  end.

(** Apply [f] to the cell under the first column labelled [c]. *)
Fixpoint row_update (cols : list string) (r : list pyval) (c : string)
         (f : pyval -> pyval) : list pyval :=
  match cols, r with
  | c' :: cs, v :: vs =>
      if String.eqb c c' then f v :: vs else v :: row_update cs vs c f
  | _, _ => r
  end.

(** [pd.DataFrame(data, columns=cols)] for a list of rows that each hold
    one value per label (every [event_row] does: [parse_play_length]). *)
Definition DataFrame (data : list (list pyval)) (cols : list string) : frame :=
  mkFrame cols data.

(** Labels of a list of records, in order of first appearance. *)
Fixpoint add_keys (seen : list string) (d : list (string * pyval))
  : list string :=
  match d with
  | [] => seen
  | (k, _) :: r =>
      add_keys (if has_column k seen then seen else seen ++ [k]) r
  end.

Fixpoint record_keys (seen : list string) (l : list pyval)
  : result (list string) :=
  match l with
  | [] => Ok seen
  | PyDict d :: r => record_keys (add_keys seen d) r
  | _ :: _ => Raise ValueError
  end.

Definition record_row (cols : list string) (v : pyval) : list pyval :=
  match v with
  | PyDict d =>
      map (fun c => match dict_get c d with Some x => x | None => PyNaN end)
          cols
  | _ => []
  end.

(** [pd.DataFrame.from_dict(v)] for a JSON array of objects: one row per
    object, one column per key, [NaN] where an object lacks the key.
    Other layouts are outside the model and raise. *)
Definition from_dict (v : pyval) : result frame :=
  match v with
  | PyList l =>
      cols <- record_keys [] l ;;
      Ok (mkFrame cols (map (record_row cols) l))
  | _ => Raise ValueError
  end.

(** [df.fillna(0)] *)
Definition fill0 (v : pyval) : pyval :=
  if is_null v then PyInt 0 else v.

Definition fillna0 (df : frame) : frame :=
  mkFrame (columns df) (map (map fill0) (rows df)).

(** [df.loc[i, c]] under the default integer index. *)
Definition loc (df : frame) (i : nat) (c : string) : result pyval :=
  match nth_error (rows df) i with
  | Some r =>
      match row_get (columns df) r c with
      | Some v => Ok v
      | None => Raise KeyError
      end
  | None => Raise KeyError
  end.

(** [df[c] = v] for a scalar [v]: overwrite the column, or append it. *)
Definition set_scalar (df : frame) (c : string) (v : pyval) : frame :=
  if has_column c (columns df)
  then mkFrame (columns df)
               (map (fun r => row_update (columns df) r c (fun _ => v)) (rows df))
  else mkFrame (columns df ++ [c]) (map (fun r => r ++ [v]) (rows df)).

(** The integer value of a numeric cell. *)
Definition num_of (v : pyval) : option Z :=
  match v with
  | PyInt z => Some z
  | PyBool b => Some (Z.b2z b)
  | _ => None
  end.

(** The literals [to_numeric] reads as integers: an optional sign and
    decimal digits, blanks around them ignored.  (A literal with a fraction
    or an exponent, which pandas reads as a float, has no value among the
    integers of this model and is not recognised.) *)
Fixpoint plain_digits (acc : Z) (seen : bool) (s : string) : option Z :=
  match s with
  | EmptyString => if seen then Some acc else None
  | String c r =>
      match digit_of c with
      | Some d => plain_digits (10 * acc + d) true r
      | None => None
      end
  end.

Definition numeric_literal (s : string) : option Z :=
  match strip s with
  | String "+" r => plain_digits 0 false r
  | String "-" r => option_map Z.opp (plain_digits 0 false r)
  | t => plain_digits 0 false t
  end.

(** One cell of [pd.to_numeric(col, errors='coerce')]: numbers stay, a
    string is read as a number, whatever cannot be read becomes [NaN]. *)
Definition to_numeric_coerce (v : pyval) : pyval :=
  match v with
  | PyInt _ | PyBool _ | PyNaN => v
  | PyStr s =>
      match numeric_literal s with
      | Some z => PyInt z
      | None => PyNaN
      end
  | PyNone | PyList _ | PyDict _ => PyNaN
  end.

(** [df[c] = f(df[c])], cell by cell. *)
Definition map_column (df : frame) (c : string) (f : pyval -> pyval)
  : result frame :=
  if has_column c (columns df)
  then Ok (mkFrame (columns df)
                   (map (fun r => row_update (columns df) r c f) (rows df)))
  else Raise KeyError.

(** *** Sorting *)

Fixpoint lex_leb (a b : list Z) : bool :=
  match a, b with
  | x :: a', y :: b' => (x <? y) || ((x =? y) && lex_leb a' b')
  | _, _ => true
  end.

Section StableSort.
Context {A : Type} (key : A -> list Z).

Fixpoint insert_by (x : A) (l : list A) : list A :=
  match l with
  | [] => [x]
  | y :: r =>
      if lex_leb (key x) (key y) then x :: l else y :: insert_by x r
  end.

(** Each element is put in front of the first later element that is not
    smaller, so equal keys keep the order they came in. *)
Fixpoint stable_sort (l : list A) : list A :=
  match l with
  | [] => []
  | x :: r => insert_by x (stable_sort r)
  end.
End StableSort.

Fixpoint all_some {A} (l : list (option A)) : option (list A) :=
  match l with
  | [] => Some []
  | Some x :: r => option_map (cons x) (all_some r)
  | None :: _ => None
  end.

(** The numeric sort key of a row under the columns [by]. *)
Definition key_of (cols : list string) (by_ : list string) (r : list pyval)
  : option (list Z) :=
  all_some (map (fun c => match row_get cols r c with
                          | Some v => num_of v
                          | None => None
                          end) by_).

Definition key_or_nil (cols by_ : list string) (r : list pyval) : list Z :=
  match key_of cols by_ r with
  | Some k => k
  | None => []
  end.

(** [df.sort_values(by=by_)]: ascending, lexicographic on the listed
    columns; with several columns pandas sorts stably. *)
Definition sort_values (df : frame) (by_ : list string) : result frame :=
  if forallb (fun c => has_column c (columns df)) by_
  then
    if forallb (fun r => match key_of (columns df) by_ r with
                         | Some _ => true
                         | None => false
                         end) (rows df)
    then Ok (mkFrame (columns df)
                     (stable_sort (key_or_nil (columns df) by_) (rows df)))
    else Raise TypeError
  else Raise KeyError.

(** *** Column selection, merge, rename *)

(** All cells of [r] under a column labelled [c]. *)
Fixpoint row_pick (cols : list string) (r : list pyval) (c : string)
  : list pyval :=
  match cols, r with
  | c' :: cs, v :: vs =>
      if String.eqb c c' then v :: row_pick cs vs c else row_pick cs vs c
  | _, _ => []
  end.

(** [df[names]] *)
Definition select (df : frame) (names : list string) : result frame :=
  if forallb (fun c => has_column c (columns df)) names
  then Ok (mkFrame
             (flat_map (fun c => filter (String.eqb c) (columns df)) names)
             (map (fun r => flat_map (row_pick (columns df) r) names) (rows df)))
  else Raise KeyError.

(** Join keys are equal when they are the same number, or both missing. *)
Definition key_match (a b : pyval) : bool :=
  match num_of a, num_of b with
  | Some x, Some y => x =? y
  | None, None => is_null a && is_null b
  | _, _ => false
  end.

Definition suffixed (others : list string) (sfx : string) (c : string)
  : string :=
  if has_column c others then (c ++ sfx)%string else c.

Definition matches_of (left_cols : list string) (right : frame)
           (left_on right_on : string) (l : list pyval) : list (list pyval) :=
  filter (fun r =>
            match row_get left_cols l left_on, row_get (columns right) r right_on with
            | Some a, Some b => key_match a b
            | _, _ => false
            end) (rows right).

Definition join_row (left_cols : list string) (right : frame)
           (left_on right_on : string) (l : list pyval) : list (list pyval) :=
  match matches_of left_cols right left_on right_on l with
  | [] => [l ++ map (fun _ => PyNaN) (columns right)]
  | ms => map (fun r => l ++ r) ms
  end.

(** [left.merge(right, how='left', left_on=left_on, right_on=right_on)]:
    every left row, in order, once per matching right row, or once with
    [NaN] in the right columns; a label on both sides gets [_x] on the left
    and [_y] on the right.  A label the suffixes repeat is let through, as
    pandas did when the script was written (later versions refuse it). *)
Definition merge_left (left right : frame) (left_on right_on : string)
  : result frame :=
  if has_column left_on (columns left) && has_column right_on (columns right)
  then Ok (mkFrame
             (map (suffixed (columns right) "_x") (columns left)
                  ++ map (suffixed (columns left) "_y") (columns right))
             (flat_map (join_row (columns left) right left_on right_on)
                       (rows left)))
  else Raise KeyError.

(** [df.rename(columns={old: new})] *)
Definition rename (df : frame) (old new : string) : frame :=
  mkFrame (map (fun c => if String.eqb c old then new else c) (columns df))
          (rows df).

(** [col.str.strip()], cell by cell: [NaN] for anything but a string
    (the accessor's refusal of a column that holds no string at all is not
    modelled). *)
Definition str_strip (v : pyval) : pyval :=
  match v with
  | PyStr s => PyStr (strip s)
  | _ => PyNaN
  end.

(** [a + b] on two cells of string columns: [NaN] where a side is missing. *)
Definition str_add (a b : pyval) : pyval :=
  match a, b with
  | PyStr x, PyStr y => PyStr (x ++ y)%string
  | _, _ => PyNaN
  end.

(** [df[c] = g(row)], the new cell computed from the row itself. *)
Definition set_computed (df : frame) (c : string)
           (g : list pyval -> pyval) : frame :=
  if has_column c (columns df)
  then mkFrame (columns df)
               (map (fun r => row_update (columns df) r c (fun _ => g r)) (rows df))
  else mkFrame (columns df ++ [c]) (map (fun r => r ++ [g r]) (rows df)).

End Frames.

Export Frames.

(* ===================================================================== *)
(** ** The script *)
(* ===================================================================== *)

Module Scraper.

(** [l[i]] on the list that [split] returned. *)
Definition list_item (l : list string) (i : nat) : result string :=
  match nth_error l i with
  | Some s => Ok s
  | None => Raise IndexError
  end.

(** [play['special_tags'] and play['special_tags'][0] == "ends_time_interval"],
    as the two [if] statements test it. *)
Definition ends_time_interval (play : pyval) : result bool :=
  tags <- play.["special_tags"] ;;
  if truthy tags then
    tags' <- play.["special_tags"] ;;
    head <- py_first tags' ;;
    Ok (py_eq_str head "ends_time_interval")
  else Ok false.

(** The [try] block and its [except AttributeError] handler. *)
Definition clock_seconds (play : pyval) : result pyval :=
  try_except
    (clock <- play.["clock_time_string"] ;;
     time <- py_split_colon clock ;;
     t0 <- list_item time 0 ;;
     m <- py_int t0 ;;
     let minutes := m * 60 in
     t1 <- list_item time 1 ;;
     seconds <- py_int t1 ;;
     Ok (PyInt (minutes + seconds)))
    AttributeError
    (Ok (PyInt 0)).

(** "calculates seconds elapsed in each period" *)
Definition seconds_elapsed (play : pyval) : result pyval :=
  period_end <- ends_time_interval play ;;
  if period_end then Ok (PyInt 1200)
  else
    play_type <- play.["play_type"] ;;
    if py_eq_str play_type "Shootout" then Ok (PyInt 0)
    else clock_seconds play.

(** "gets pbp event" *)
Definition event (play : pyval) : result pyval :=
  period_end <- ends_time_interval play ;;
  if period_end then Ok (PyStr "Period End")
  else play.["play_type"].

(** "gets pbp event description" *)
Definition event_description (play : pyval) : result pyval :=
  d <- play.["play_by_play_string"] ;;
  s <- py_strip d ;;
  if String.eqb (lower s) "penalty" then
    d1 <- play.["play_by_play_string"] ;;
    s1 <- py_strip d1 ;;
    summary <- play.["play_summary"] ;;
    details <- summary.["details"] ;;
    Ok (PyStr (s1 ++ " " ++ py_str details)%string)
  else
    d2 <- play.["play_by_play_string"] ;;
    s2 <- py_strip d2 ;;
    Ok (PyStr s2).

(** [play['play_summary'].get(k, default)] *)
Definition summary_get (play : pyval) (k : string) (default : pyval)
  : result pyval :=
  summary <- play.["play_summary"] ;;
  py_get summary k default.

(** [play['play_actions'][0].get(k)] *)
Definition action_get (play : pyval) (k : string) : result pyval :=
  actions <- play.["play_actions"] ;;
  action <- py_first actions ;;
  py_get action k PyNone.

(** "event players": the three participant cells, in the order they are
    appended. *)
Definition event_players (play : pyval) : result (list pyval) :=
  d <- play.["play_by_play_string"] ;;
  is_goal <- py_contains "Goal" d ;;
  if is_goal then
    p1 <- summary_get play "scorer_id" PyNone ;;
    p2 <- summary_get play "assist_1_id" PyNone ;;
    p3 <- summary_get play "assist_2_id" PyNone ;;
    Ok [p1; p2; p3]
  else
    p1 <- play.["primary_player_id"] ;;
    p2 <- summary_get play "loser_id" PyNone ;;
    p3 <- summary_get play "assist_2_id" (PyInt 0) ;;
    Ok [p1; p2; p3].

(** The body of the [for play in pbp_list] loop: the [event_row] of one
    play. *)
Definition parse_play (play : pyval) : result (list pyval) :=
  let event_row := [] in
  play_index <- play.["play_index"] ;;
  let event_row := event_row ++ [play_index] in
  created_at <- play.["created_at"] ;;
  date <- py_slice_to 10 created_at ;;
  let event_row := event_row ++ [date] in
  clock <- play.["clock_time_string"] ;;
  let event_row := event_row ++ [clock] in
  secs <- seconds_elapsed play ;;
  let event_row := event_row ++ [secs] in
  game_id <- play.["game_id"] ;;
  let event_row := event_row ++ [game_id] in
  ev <- event play ;;
  let event_row := event_row ++ [ev] in
  description <- event_description play ;;
  let event_row := event_row ++ [description] in
  period <- play.["time_interval"] ;;
  let event_row := event_row ++ [period] in
  players <- event_players play ;;
  let event_row := event_row ++ players in
  team <- play.["team_id"] ;;
  let event_row := event_row ++ [team] in
  x <- summary_get play "x_coord" PyNone ;;
  let event_row := event_row ++ [x] in
  y <- summary_get play "y_coord" PyNone ;;
  let event_row := event_row ++ [y] in
  away_goalie <- action_get play "away_team_goalie" ;;
  let event_row := event_row ++ [away_goalie] in
  home_goalie <- action_get play "home_team_goalie" ;;
  let event_row := event_row ++ [home_goalie] in
  away_score <- action_get play "away_team_score" ;;
  let event_row := event_row ++ [away_score] in
  home_score <- action_get play "home_team_score" ;;
  let event_row := event_row ++ [home_score] in
  Ok event_row.

(** The loop: the first play that raises ends the run. *)
Fixpoint parse_plays (pbp_list : list pyval) : result (list (list pyval)) :=
  match pbp_list with
  | [] => Ok []
  | play :: rest =>
      event_row <- parse_play play ;;
      parsed <- parse_plays rest ;;
      Ok (event_row :: parsed)
  end.

Definition cols : list string :=
  ["event_index"; "date"; "time"; "seconds_elapsed"; "game_id";
   "event"; "event_description"; "period";
   "event_p1"; "event_p2"; "event_p3"; "event_team"; "x_coord"; "y_coord";
   "away_goalie"; "home_goalie"; "away_score"; "home_score"].

Definition sort_by : list string := ["period"; "seconds_elapsed"; "event_index"].

Definition convert_pbp_dict (pbp_dict : pyval)
  : result (frame * frame * frame) :=
  roster <- pbp_dict.["roster_player"] ;;
  player_df <- from_dict roster ;;
  teams <- pbp_dict.["team_instance"] ;;
  team_df <- from_dict teams ;;
  pbp_list <- pbp_dict.["plays"] ;;
  plays <- py_iter pbp_list ;;
  parsed_plays_list <- parse_plays plays ;;
  let pbp_df := DataFrame parsed_plays_list cols in
  let pbp_df := fillna0 pbp_df in
  home_name <- loc team_df 0 "name" ;;
  let pbp_df := set_scalar pbp_df "home_team" home_name in
  home_id <- loc team_df 0 "team_id" ;;
  let pbp_df := set_scalar pbp_df "home_team_id" home_id in
  away_name <- loc team_df 1 "name" ;;
  let pbp_df := set_scalar pbp_df "away_team" away_name in
  away_id <- loc team_df 1 "team_id" ;;
  let pbp_df := set_scalar pbp_df "away_team_id" away_id in
  pbp_df <- map_column pbp_df "event_p1" to_numeric_coerce ;;
  pbp_df <- map_column pbp_df "event_p2" to_numeric_coerce ;;
  pbp_df <- map_column pbp_df "event_p3" to_numeric_coerce ;;
  pbp_df <- map_column pbp_df "away_goalie" to_numeric_coerce ;;
  pbp_df <- map_column pbp_df "home_goalie" to_numeric_coerce ;;
  pbp_df <- sort_values pbp_df sort_by ;;
  Ok (pbp_df, player_df, team_df).

(** The [full_name] cell of one player row. *)
Definition full_name (player_cols : list string) (r : list pyval) : pyval :=
  let first_name := match row_get player_cols r "first_name" with
                    | Some v => v | None => PyNaN end in
  let last_name := match row_get player_cols r "last_name" with
                   | Some v => v | None => PyNaN end in
  str_add (str_add (str_strip first_name) (PyStr " ")) (str_strip last_name).

(** [pull_player_names] assigns the [full_name] column on the table it was
    given, so the caller's [player_df] changes too: the function returns
    the play table and the player table as it leaves it. *)
Definition pull_player_names (pbp_df player_df : frame) (id_column : string)
  : result (frame * frame) :=
  if has_column "first_name" (columns player_df)
     && has_column "last_name" (columns player_df)
  then
    let player_df :=
      set_computed player_df "full_name" (full_name (columns player_df)) in
    right <- select player_df ["id"; "full_name"] ;;
    pbp_df <- merge_left pbp_df right id_column "id" ;;
    let pbp_df := rename pbp_df "full_name" (id_column ++ "_name")%string in
    Ok (pbp_df, player_df)
  else Raise KeyError.

Definition player_id_columns : list string :=
  ["event_p1"; "event_p2"; "event_p3"; "away_goalie"; "home_goalie"].

(** [for column in player_id_columns] *)
Fixpoint name_loop (id_columns : list string) (pbp_df player_df : frame)
  : result (frame * frame) :=
  match id_columns with
  | [] => Ok (pbp_df, player_df)
  | column :: rest =>
      st <- pull_player_names pbp_df player_df column ;;
      name_loop rest (fst st) (snd st)
  end.

Definition output_columns : list string :=
  ["event_index"; "date"; "time"; "seconds_elapsed"; "game_id"; "event";
   "event_description"; "period"; "event_p1"; "event_p1_name";
   "event_p2"; "event_p2_name"; "event_p3"; "event_p3_name"; "event_team";
   "x_coord"; "y_coord"; "away_goalie"; "away_goalie_name"; "home_goalie";
   "home_goalie_name"; "away_score"; "home_score"; "home_team_id"; "home_team";
   "away_team_id"; "away_team"].

(** [main], from the decoded record to the three tables written out as
    [<game_id>_pbp_df.txt], [<game_id>_player_df.txt] and
    [<game_id>_team_df.txt]. *)
Definition main (pbp_dict : pyval) : result (frame * frame * frame) :=
  converted <- convert_pbp_dict pbp_dict ;;
  let '(pbp_df, player_df, team_df) := converted in
  st <- name_loop player_id_columns pbp_df player_df ;;
  let '(pbp_df, player_df) := st in
  pbp_df <- select pbp_df output_columns ;;
  Ok (pbp_df, player_df, team_df).

End Scraper.

Export Scraper.

(* ===================================================================== *)
(** ** The request and the files *)
(* ===================================================================== *)

Module Run.

(** A file as [to_csv] is asked to write it: the table, the separator and
    whether the index column goes with it.  (The text of the file is not
    modelled.) *)
Record csv : Type := mkCsv {
  table : frame;
  sep : string;
  index : bool
}.

(** The files written so far, the latest first. *)
Definition disk : Type := list (string * csv).

Fixpoint read (path : string) (fs : disk) : option csv :=
  match fs with
  | [] => None
  | (p, f) :: r => if String.eqb path p then Some f else read path r
  end.

(** [pd.DataFrame.to_csv(df, path, sep=sep, index=index)] *)
Definition to_csv (df : frame) (path : string) (sep : string) (index : bool)
           (fs : disk) : disk :=
  (path, mkCsv df sep index) :: fs.

Section Site.

(** What the site answers to a request for a URL: the decoded body
    ([req.json()]) or the exception raised on the way. *)
Variable site : string -> result pyval.

Definition get_pbp_dict (game_id : string) : result pyval :=
  let url :=
    ("https://www.nwhl.zone/game/get_play_by_plays?id=" ++ game_id)%string in
  pbp_dict <- site url ;;
  Ok pbp_dict.

(** [main] with the game id typed in and the files on disk: the outcome of
    the run and the files after it. *)
Definition main (game_id : string) (fs : disk) : result unit * disk :=
  match (pbp_dict <- get_pbp_dict game_id ;; Scraper.main pbp_dict) with
  | Ok (pbp_df, player_df, team_df) =>
      let fs := to_csv pbp_df (game_id ++ "_pbp_df.txt")%string "|" false fs in
      let fs := to_csv player_df (game_id ++ "_player_df.txt")%string "|" false fs in
      let fs := to_csv team_df (game_id ++ "_team_df.txt")%string "|" false fs in
      (Ok tt, fs)
  | Raise e => (Raise e, fs)
  end.

End Site.

End Run.

(* ===================================================================== *)
(** ** Sample records *)
(* ===================================================================== *)

Module Samples.

Definition first_action : pyval :=
  PyDict [("away_team_goalie", PyInt 30); ("home_team_goalie", PyInt 31);
          ("away_team_score", PyInt 0); ("home_team_score", PyInt 0)].

(** A faceoff, with its clock and its action list left open. *)
Definition faceoff_fields_at (clock : pyval) (actions : list pyval)
  : list (string * pyval) :=
  [("play_index", PyInt 1); ("created_at", PyStr "2019-10-05T19:03:11Z");
   ("clock_time_string", clock); ("special_tags", PyList []);
   ("play_type", PyStr "Faceoff"); ("game_id", PyInt 18507472);
   ("play_by_play_string", PyStr " Faceoff won by #10 ");
   ("time_interval", PyInt 1); ("primary_player_id", PyInt 10);
   ("team_id", PyInt 7);
   ("play_summary", PyDict [("loser_id", PyInt 11)]);
   ("play_actions", PyList actions)].

Definition faceoff_at (clock : pyval) (actions : list pyval) : pyval :=
  PyDict (faceoff_fields_at clock actions).

Definition faceoff_fields : list (string * pyval) :=
  faceoff_fields_at (PyStr "05:23") [first_action].

Definition penalty_without_details : pyval :=
  PyDict [("play_index", PyInt 4); ("created_at", PyStr "2019-10-05T19:30:00Z");
          ("clock_time_string", PyStr "03:10"); ("special_tags", PyList []);
          ("play_type", PyStr "Penalty"); ("game_id", PyInt 18507472);
          ("play_by_play_string", PyStr "Penalty");
          ("time_interval", PyInt 2); ("primary_player_id", PyInt 10);
          ("team_id", PyInt 7);
          ("play_summary", PyDict []);
          ("play_actions", PyList [first_action])].

Definition faceoff : pyval := PyDict faceoff_fields.

Definition faceoff_row : list pyval :=
  [PyInt 1; PyStr "2019-10-05"; PyStr "05:23"; PyInt 323; PyInt 18507472;
   PyStr "Faceoff"; PyStr "Faceoff won by #10"; PyInt 1; PyInt 10; PyInt 11;
   PyInt 0; PyInt 7; PyNone; PyNone; PyInt 30; PyInt 31; PyInt 0; PyInt 0].

Definition goal : pyval :=
  PyDict [("play_index", PyInt 2); ("created_at", PyStr "2019-10-05T19:12:40Z");
          ("clock_time_string", PyStr "12:00"); ("special_tags", PyNone);
          ("play_type", PyStr "Goal"); ("game_id", PyInt 18507472);
          ("play_by_play_string", PyStr "Goal scored by #20");
          ("time_interval", PyInt 1); ("primary_player_id", PyInt 20);
          ("team_id", PyInt 7);
          ("play_summary", PyDict [("scorer_id", PyInt 20); ("assist_1_id", PyInt 21)]);
          ("play_actions",
           PyList [PyDict [("away_team_goalie", PyInt 30); ("home_team_goalie", PyInt 31);
                           ("away_team_score", PyInt 0); ("home_team_score", PyInt 1)]])].

Definition goal_row : list pyval :=
  [PyInt 2; PyStr "2019-10-05"; PyStr "12:00"; PyInt 720; PyInt 18507472;
   PyStr "Goal"; PyStr "Goal scored by #20"; PyInt 1; PyInt 20; PyInt 21;
   PyNone; PyInt 7; PyNone; PyNone; PyInt 30; PyInt 31; PyInt 0; PyInt 1].

Definition period_end : pyval :=
  PyDict [("play_index", PyInt 3); ("created_at", PyStr "2019-10-05T19:25:02Z");
          ("clock_time_string", PyStr "00:00");
          ("special_tags", PyList [PyStr "ends_time_interval"]);
          ("play_type", PyStr "Shootout"); ("game_id", PyInt 18507472);
          ("play_by_play_string", PyStr "End of period");
          ("time_interval", PyInt 1); ("primary_player_id", PyNone);
          ("team_id", PyNone);
          ("play_summary", PyDict []);
          ("play_actions",
           PyList [PyDict [("away_team_goalie", PyInt 30); ("home_team_goalie", PyInt 31);
                           ("away_team_score", PyInt 0); ("home_team_score", PyInt 1)]])].

Definition roster : pyval :=
  PyList [PyDict [("id", PyInt 10); ("first_name", PyStr " Ann "); ("last_name", PyStr "Lee")];
          PyDict [("id", PyInt 20); ("first_name", PyStr "Bea"); ("last_name", PyStr "Roy ")];
          PyDict [("id", PyInt 30); ("first_name", PyStr "Cy"); ("last_name", PyStr "Orr")]].

Definition teams : pyval :=
  PyList [PyDict [("name", PyStr "Whale"); ("team_id", PyInt 7)];
          PyDict [("name", PyStr "Riveters"); ("team_id", PyInt 8)]].

Definition game_fields (plays : list pyval) : list (string * pyval) :=
  [("plays", PyList plays); ("roster_player", roster);
   ("team_instance", teams)].

Definition game (plays : list pyval) : pyval := PyDict (game_fields plays).

Definition no_tables : frame * frame * frame :=
  (mkFrame [] [], mkFrame [] [], mkFrame [] []).

(** The tables of the sample game, computed. *)
Definition converted_tables : frame * frame * frame :=
  Eval vm_compute in
    match convert_pbp_dict (game [goal; faceoff]) with
    | Ok t => t
    | Raise _ => no_tables
    end.

Definition written_tables : frame * frame * frame :=
  Eval vm_compute in
    match main (game [goal; faceoff]) with
    | Ok t => t
    | Raise _ => no_tables
    end.

Definition pbp_table : frame := Eval vm_compute in fst (fst converted_tables).
Definition player_table : frame := Eval vm_compute in snd (fst converted_tables).
Definition team_table : frame := Eval vm_compute in snd converted_tables.
Definition pbp_written : frame := Eval vm_compute in fst (fst written_tables).
Definition player_written : frame := Eval vm_compute in snd (fst written_tables).

(** A penalty whose description needs trimming and is in capitals. *)
Definition penalty : pyval :=
  PyDict [("play_index", PyInt 5); ("created_at", PyStr "2019-10-05T19:41:07Z");
          ("clock_time_string", PyStr "07:45"); ("special_tags", PyList []);
          ("play_type", PyStr "Penalty"); ("game_id", PyInt 18507472);
          ("play_by_play_string", PyStr " PENALTY ");
          ("time_interval", PyInt 2); ("primary_player_id", PyInt 20);
          ("team_id", PyInt 7);
          ("play_summary", PyDict [("details", PyStr "Tripping, 2 min")]);
          ("play_actions", PyList [first_action])].

(** Its event row. *)
Definition penalty_row : list pyval :=
  [PyInt 5; PyStr "2019-10-05"; PyStr "07:45"; PyInt 465; PyInt 18507472;
   PyStr "Penalty"; PyStr "PENALTY Tripping, 2 min"; PyInt 2; PyInt 20; PyNone;
   PyInt 0; PyInt 7; PyNone; PyNone; PyInt 30; PyInt 31; PyInt 0; PyInt 0].

(** The fields of the sample goal. *)
Definition goal_fields : list (string * pyval) :=
  Eval vm_compute in
    match goal with
    | PyDict d => d
    | _ => []
    end.

End Samples.

(* ===================================================================== *)
(** ** Vocabulary of the properties *)
(* ===================================================================== *)

(** The notions the statements below are written in: the relation between
    a play and its event row, plays that differ in one field, the frames
    between the steps of [convert_pbp_dict] and of [main], and the order
    of the play table. *)

(** *** Clock texts *)

(** The character of the decimal digit [d]. *)
Definition digit_char (d : nat) : ascii := ascii_of_nat (48 + d).

(** The clock text [MM:SS] of [m] minutes and [s] seconds. *)
Definition mmss (m s : nat) : string :=
  String (digit_char (m / 10)) (String (digit_char (m mod 10))
    (String ":"
      (String (digit_char (s / 10)) (String (digit_char (s mod 10)) EmptyString)))).

(** *** One play and its event row *)

(** The steps behind a produced [event_row], one premise per [append]. *)
Inductive produces (play : pyval) : list pyval -> Prop :=
| Produces idx created date clock secs gid ev desc period p1 p2 p3
           team x y ag hg asc hsc :
    play.["play_index"] = Ok idx ->
    play.["created_at"] = Ok created ->
    py_slice_to 10 created = Ok date ->
    play.["clock_time_string"] = Ok clock ->
    seconds_elapsed play = Ok secs ->
    play.["game_id"] = Ok gid ->
    event play = Ok ev ->
    event_description play = Ok desc ->
    play.["time_interval"] = Ok period ->
    event_players play = Ok [p1; p2; p3] ->
    play.["team_id"] = Ok team ->
    summary_get play "x_coord" PyNone = Ok x ->
    summary_get play "y_coord" PyNone = Ok y ->
    action_get play "away_team_goalie" = Ok ag ->
    action_get play "home_team_goalie" = Ok hg ->
    action_get play "away_team_score" = Ok asc ->
    action_get play "home_team_score" = Ok hsc ->
    produces play [idx; date; clock; secs; gid; ev; desc; period;
                   p1; p2; p3; team; x; y; ag; hg; asc; hsc].

Definition get_or (k : string) (d : list (string * pyval)) (default : pyval)
  : pyval :=
  match dict_get k d with
  | Some x => x
  | None => default
  end.

(** [d] with key [k] bound to [v]. *)
Fixpoint dict_set (k : string) (v : pyval) (d : list (string * pyval))
  : list (string * pyval) :=
  match d with
  | [] => [(k, v)]
  | (k', v') :: r =>
      if String.eqb k k' then (k, v) :: r else (k', v') :: dict_set k v r
  end.

(** [d] without key [k]. *)
Fixpoint dict_remove (k : string) (d : list (string * pyval))
  : list (string * pyval) :=
  match d with
  | [] => []
  | (k', v') :: r =>
      if String.eqb k k' then dict_remove k r else (k', v') :: dict_remove k r
  end.

(** A cell is kept, or replaced by the null or the zero sentinel. *)
Definition kept_or_sentinel (a b : pyval) : Prop :=
  b = a \/ b = PyNone \/ b = PyInt 0.

(** The step [f] succeeds on [play'] wherever it did on [play], with a
    kept or sentinel value. *)
Definition absorbs (play play' : pyval) (f : pyval -> result pyval) : Prop :=
  forall v, f play = Ok v ->
            exists v', f play' = Ok v' /\ kept_or_sentinel v v'.

(** The step [f] gives the same result on both plays. *)
Definition same_step (play play' : pyval) {A} (f : pyval -> result A) : Prop :=
  f play' = f play.

(** The per-play defects the conversion absorbs: a null clock, a missing
    summary field among those read with [.get], a missing field of the
    first action. *)
Inductive soft_defect : pyval -> pyval -> Prop :=
| NullClock d :
    soft_defect (PyDict d) (PyDict (dict_set "clock_time_string" PyNone d))
| MissingSummaryField d summary k :
    dict_get "play_summary" d = Some (PyDict summary) ->
    In k ["scorer_id"; "assist_1_id"; "assist_2_id"; "loser_id";
          "x_coord"; "y_coord"] ->
    soft_defect (PyDict d)
                (PyDict (dict_set "play_summary" (PyDict (dict_remove k summary)) d))
| MissingActionField d action rest k :
    dict_get "play_actions" d = Some (PyList (PyDict action :: rest)) ->
    soft_defect (PyDict d)
                (PyDict (dict_set "play_actions"
                                  (PyList (PyDict (dict_remove k action) :: rest)) d)).

(** *** Sort keys *)

Definition key_eqb (a b : list Z) : bool :=
  if list_eq_dec Z.eq_dec a b then true else false.

(** Order of two elements by their keys. *)
Definition key_le {A : Type} (key : A -> list Z) (x y : A) : Prop :=
  lex_leb (key x) (key y) = true.

(** Every key has [n] components. *)
Definition keyed {A : Type} (key : A -> list Z) (n : nat) (l : list A) : Prop :=
  Forall (fun x => List.length (key x) = n) l.

(** *** The tables between the steps *)

Definition team_columns : list string :=
  ["home_team"; "home_team_id"; "away_team"; "away_team_id"].

Definition pbp_columns : list string := cols ++ team_columns.

(** What the statements between the loop and the sort do to one event
    row: fill the nulls, append the four team cells, coerce the five
    identifier cells. *)
Definition finish_row (home_name home_id away_name away_id : pyval)
           (event_row : list pyval) : list pyval :=
  row_update pbp_columns
    (row_update pbp_columns
       (row_update pbp_columns
          (row_update pbp_columns
             (row_update pbp_columns
                ((((map fill0 event_row ++ [home_name]) ++ [home_id])
                    ++ [away_name]) ++ [away_id])
                "event_p1" to_numeric_coerce)
             "event_p2" to_numeric_coerce)
          "event_p3" to_numeric_coerce)
       "away_goalie" to_numeric_coerce)
    "home_goalie" to_numeric_coerce.

Definition row_key : list pyval -> list Z := key_or_nil pbp_columns sort_by.

Definition has_key (r : list pyval) : bool :=
  match key_of pbp_columns sort_by r with
  | Some _ => true
  | None => false
  end.

(** The steps behind a successful [convert_pbp_dict]. *)
Inductive converted (pbp_dict : pyval) : frame -> frame -> frame -> Prop :=
| Converted roster player_df teams team_df pbp_list plays parsed
            home_name home_id away_name away_id :
    pbp_dict.["roster_player"] = Ok roster ->
    from_dict roster = Ok player_df ->
    pbp_dict.["team_instance"] = Ok teams ->
    from_dict teams = Ok team_df ->
    pbp_dict.["plays"] = Ok pbp_list ->
    py_iter pbp_list = Ok plays ->
    parse_plays plays = Ok parsed ->
    loc team_df 0 "name" = Ok home_name ->
    loc team_df 0 "team_id" = Ok home_id ->
    loc team_df 1 "name" = Ok away_name ->
    loc team_df 1 "team_id" = Ok away_id ->
    forallb has_key
            (map (finish_row home_name home_id away_name away_id) parsed) = true ->
    converted pbp_dict
      (mkFrame pbp_columns
         (stable_sort row_key
            (map (finish_row home_name home_id away_name away_id) parsed)))
      player_df team_df.

(** One cell per column in every row, no repeated label. *)
Definition well_formed (df : frame) : Prop :=
  NoDup (columns df)
  /\ Forall (fun r => List.length r = List.length (columns df)) (rows df).

(** The player table once [pull_player_names] has assigned [full_name]. *)
Definition with_full_name (player_df : frame) : frame :=
  set_computed player_df "full_name" (full_name (columns player_df)).

Definition id_cell (player_cols : list string) (p : list pyval) : pyval :=
  match row_get player_cols p "id" with
  | Some v => v
  | None => PyNaN
  end.

(** [player_df[['id', 'full_name']]] *)
Definition directory (player_df : frame) : frame :=
  mkFrame ["id"; "full_name"]
          (map (fun p => [id_cell (columns player_df) p;
                          full_name (columns player_df) p])
               (rows player_df)).

Definition named_row (player_df : frame) (p : list pyval) : list pyval :=
  if has_column "full_name" (columns player_df)
  then row_update (columns player_df) p "full_name"
                  (fun _ => full_name (columns player_df) p)
  else p ++ [full_name (columns player_df) p].

(** The columns of the play table after one [pull_player_names]. *)
Definition enrich_columns (left_cols : list string) (c : string) : list string :=
  map (fun x => if String.eqb x "full_name" then (c ++ "_name")%string else x)
      (map (suffixed ["id"; "full_name"] "_x") left_cols
           ++ map (suffixed left_cols "_y") ["id"; "full_name"]).

(** The play table after one [pull_player_names] against the directory. *)
Definition enrich (dir : frame) (pbp_df : frame) (c : string) : frame :=
  mkFrame (enrich_columns (columns pbp_df) c)
          (flat_map (join_row (columns pbp_df) dir c "id") (rows pbp_df)).

Definition player_columns_ok (pl : frame) : Prop :=
  has_column "first_name" (columns pl) = true
  /\ has_column "last_name" (columns pl) = true
  /\ has_column "id" (columns pl) = true.

(** The play table just before the final column selection. *)
Definition enriched_columns : list string :=
  Eval vm_compute in fold_left enrich_columns player_id_columns pbp_columns.

(** [pbp_df[output_columns]] on one enriched row. *)
Definition project (r : list pyval) : list pyval :=
  flat_map (row_pick enriched_columns r) output_columns.

(** The steps behind a successful [main]. *)
Inductive ran (pbp_dict : pyval) : frame -> frame -> frame -> Prop :=
| Ran pbp_df player_df team_df :
    converted pbp_dict pbp_df player_df team_df ->
    player_columns_ok player_df ->
    ran pbp_dict
        (mkFrame output_columns
           (map project
              (rows (fold_left (enrich (directory player_df))
                               player_id_columns pbp_df))))
        (with_full_name player_df) team_df.

(** The right-hand cells a left join appends to a row whose key is [key]:
    one list per matching directory row, or one list of [NaN]. *)
Definition tails_of (dir : frame) (key : option pyval) : list (list pyval) :=
  match filter (fun r => match key, row_get (columns dir) r "id" with
                         | Some a, Some b => key_match a b
                         | _, _ => false
                         end) (rows dir) with
  | [] => [map (fun _ => PyNaN) (columns dir)]
  | ms => ms
  end.

(** The cells appended to row [l] by the joins on the columns [cs], in
    order. *)
Inductive extends (dir : frame) (base : list string) (l : list pyval)
  : list string -> list pyval -> Prop :=
| extends_nil : extends dir base l [] []
| extends_cons c cs t ts :
    In t (tails_of dir (row_get base l c)) ->
    extends dir base l cs ts ->
    extends dir base l (c :: cs) (t ++ ts).

Definition plain_label (x : string) : Prop := x <> "id" /\ x <> "full_name".

(** What the left join attaches for a key: the identifier and full name of
    a player whose [id] matches, or [NaN] twice when there is none. *)
Definition offers (pl : frame) (key : option pyval) (i n : pyval) : Prop :=
  (exists a p,
      key = Some a /\ In p (rows pl)
      /\ key_match a (id_cell (columns pl) p) = true
      /\ i = id_cell (columns pl) p /\ n = full_name (columns pl) p)
  \/ ((forall a p, key = Some a -> In p (rows pl) ->
                   key_match a (id_cell (columns pl) p) = false)
      /\ i = PyNaN /\ n = PyNaN).

(** *** Order of the play table *)

(** The numbers a row is sorted by: period, elapsed seconds, event index. *)
Definition number_at (cols : list string) (r : list pyval) (c : string)
  : option Z :=
  match row_get cols r c with
  | Some v => num_of v
  | None => None
  end.

Definition sort_triple (cols : list string) (r : list pyval)
  : option (Z * Z * Z) :=
  match number_at cols r "period", number_at cols r "seconds_elapsed",
        number_at cols r "event_index" with
  | Some p, Some s, Some i => Some (p, s, i)
  | _, _, _ => None
  end.

Definition triple_le (a b : Z * Z * Z) : Prop :=
  let '(p, s, i) := a in
  let '(p', s', i') := b in
  p < p' \/ (p = p' /\ (s < s' \/ (s = s' /\ i <= i'))).

(** Row [r1] may come before row [r2] in ascending
    [(period, seconds_elapsed, event_index)] order. *)
Definition ordered (cols : list string) (r1 r2 : list pyval) : Prop :=
  exists t1 t2,
    sort_triple cols r1 = Some t1 /\ sort_triple cols r2 = Some t2
    /\ triple_le t1 t2.

Definition index_number (r : list pyval) : option Z :=
  number_at pbp_columns r "event_index".

(** Order of two rows by the cells they had before any join. *)
Definition ordered_base (x y : list pyval) : Prop :=
  ordered pbp_columns (firstn (List.length pbp_columns) x)
                      (firstn (List.length pbp_columns) y).

Definition base_row (x : list pyval) : Prop :=
  ordered_base x x /\ (List.length pbp_columns <= List.length x)%nat.

(** Each identifier column is present when its join is made. *)
Fixpoint columns_present (cs : list string) (cols : list string) : bool :=
  match cs with
  | [] => true
  | c :: cs' => has_column c cols && columns_present cs' (enrich_columns cols c)
  end.

(** *** Texts *)

(** The first and the last character of a text, if it has any. *)
Definition first_char (s : string) : option ascii :=
  match s with
  | String c _ => Some c
  | EmptyString => None
  end.



(** Made of whitespace only. *)
Definition blank (s : string) : bool :=
  forallb is_space (list_ascii_of_string s).

(** *** Keys of a play *)

(** The keys every play is subscripted with, whatever it holds. *)
Definition required_keys : list string :=
  ["play_index"; "created_at"; "clock_time_string"; "special_tags"; "game_id";
   "play_by_play_string"; "time_interval"; "play_summary"; "team_id";
   "play_actions"].

(** *** Cells read from records *)

(** What a table read from records holds for a value of a record: the
    value itself, or a null when the value is null (a column of numbers
    holds its nulls as [NaN]). *)
Definition carried (v cell : pyval) : Prop :=
  if is_null v then is_null cell = true else cell = v.

(** *** Counting the joined rows *)

(** The players of the roster whose [id] answers to a join key. *)
Definition matching (pl : frame) (key : pyval) : list (list pyval) :=
  filter (fun p => key_match key (id_cell (columns pl) p)) (rows pl).

(** The copies one left join makes of a converted row: one per matching
    player, one when no player matches. *)
Definition copies_at (pl : frame) (l : list pyval) (c : string) : nat :=
  match row_get pbp_columns l c with
  | Some key => Nat.max 1 (List.length (matching pl key))
  | None => 1%nat
  end.

(** The copies of a converted row after the five joins. *)
Definition copies (pl : frame) (l : list pyval) : nat :=
  fold_right (fun c n => (copies_at pl l c * n)%nat) 1%nat player_id_columns.

(** No two of the keys match each other. *)
Fixpoint unique_keys (ids : list pyval) : bool :=
  match ids with
  | [] => true
  | a :: r => negb (existsb (key_match a) r) && unique_keys r
  end.

Definition unique_ids (pl : frame) : bool :=
  unique_keys (map (id_cell (columns pl)) (rows pl)).

(* ===================================================================== *)
(** ** Reasoning about raising computations *)
(* ===================================================================== *)

Lemma bind_ok {A B} (c : result A) (k : A -> result B) (b : B) :
  bind c k = Ok b -> exists a, c = Ok a /\ k a = Ok b.
Proof.
  destruct c as [a|e]; simpl; intros H; [eauto | discriminate].
Qed.

(** Split a successful chain of binds into its steps. *)
Ltac bind_inv H :=
  let a := fresh "v" in
  let Ha := fresh "Hstep" in
  apply bind_ok in H; destruct H as (a & Ha & H).

(** *** The sample game converts and runs *)

Lemma game_converts :
  convert_pbp_dict (Samples.game [Samples.goal; Samples.faceoff])
  = Ok (Samples.pbp_table, Samples.player_table, Samples.team_table).
Proof. vm_compute. reflexivity. Qed.

Lemma game_runs :
  main (Samples.game [Samples.goal; Samples.faceoff])
  = Ok (Samples.pbp_written, Samples.player_written, Samples.team_table).
Proof. vm_compute. reflexivity. Qed.

(** *** Digits and clock strings *)

Ltac ten_cases d H :=
  do 10 (destruct d as [|d]; [try reflexivity | ]); exfalso; lia.

Lemma digit_of_char d : (d < 10)%nat -> digit_of (digit_char d) = Some (Z.of_nat d).
Proof. intros H. ten_cases d H. Qed.

Lemma digit_char_space d : (d < 10)%nat -> is_space (digit_char d) = false.
Proof. intros H. ten_cases d H. Qed.

Lemma digit_char_colon d : (d < 10)%nat -> Ascii.eqb (digit_char d) ":" = false.
Proof. intros H. ten_cases d H. Qed.

Lemma digit_char_plus d :
  (d < 10)%nat ->
  forall (X : Type) (a b c : X),
    match digit_char d with
    | "+"%char => a
    | "-"%char => b
    | _ => c
    end = c.
Proof. intros H X a b c. ten_cases d H. Qed.

Lemma py_int_two_digits a b :
  (a < 10)%nat -> (b < 10)%nat ->
  py_int (String (digit_char a) (String (digit_char b) EmptyString))
  = Ok (Z.of_nat (10 * a + b)).
Proof.
  intros Ha Hb. unfold py_int, strip.
  cbn [lstrip]. rewrite (digit_char_space a Ha).
  cbn [rstrip]. rewrite (digit_char_space b Hb).
  rewrite (digit_char_plus a Ha). cbn [int_digits].
  rewrite (digit_of_char a Ha), (digit_of_char b Hb).
  f_equal. lia.
Qed.

Lemma split_mmss m s :
  (m < 100)%nat -> (s < 100)%nat ->
  split_on ":" (mmss m s)
  = [String (digit_char (m / 10)) (String (digit_char (m mod 10)) EmptyString);
     String (digit_char (s / 10)) (String (digit_char (s mod 10)) EmptyString)].
Proof.
  intros Hm Hs.
  assert (m / 10 < 10)%nat by (apply Nat.Div0.div_lt_upper_bound; lia).
  assert (s / 10 < 10)%nat by (apply Nat.Div0.div_lt_upper_bound; lia).
  assert (m mod 10 < 10)%nat by (apply Nat.mod_upper_bound; lia).
  assert (s mod 10 < 10)%nat by (apply Nat.mod_upper_bound; lia).
  unfold mmss. cbn [split_on].
  rewrite !digit_char_colon by assumption. reflexivity.
Qed.

(* ===================================================================== *)
(** ** One play: the event row *)
(* ===================================================================== *)

Lemma event_players_three play l :
  event_players play = Ok l -> exists p1 p2 p3, l = [p1; p2; p3].
Proof.
  unfold event_players. intros H.
  bind_inv H. bind_inv H.
  destruct v0; repeat bind_inv H; injection H as <-; eauto.
Qed.

Lemma parse_play_produces play row :
  parse_play play = Ok row <-> produces play row.
Proof.
  split.
  - unfold parse_play. intros H.
    do 9 bind_inv H.
    bind_inv H.
    destruct (event_players_three _ _ Hstep8) as (p1 & p2 & p3 & ->).
    repeat bind_inv H. injection H as <-.
    cbn [app]. econstructor; eassumption.
  - intros H. destruct H. unfold parse_play.
    repeat match goal with
           | E : ?c = Ok _ |- context [bind ?c _] => rewrite E; cbn [bind]
           end.
    reflexivity.
Qed.

Lemma produces_length play row : produces play row -> List.length row = 18%nat.
Proof. intros H. destruct H. reflexivity. Qed.

Lemma parse_play_length play row :
  parse_play play = Ok row -> List.length row = List.length cols.
Proof. intros H. apply parse_play_produces in H. now apply produces_length in H. Qed.

(** *** The period-end test *)

Lemma ends_time_interval_falsy play tags :
  play.["special_tags"] = Ok tags -> truthy tags = false ->
  ends_time_interval play = Ok false.
Proof.
  intros Ht Hf. unfold ends_time_interval. rewrite Ht. cbn [bind].
  rewrite Hf. reflexivity.
Qed.

Lemma ends_time_interval_tagged play rest :
  play.["special_tags"] = Ok (PyList (PyStr "ends_time_interval" :: rest)) ->
  ends_time_interval play = Ok true.
Proof.
  intros Ht. unfold ends_time_interval. rewrite Ht. reflexivity.
Qed.

(** C10.  When [special_tags] is [None] or the empty list, the test
    [play['special_tags'] and play['special_tags'][0] == ...] is false
    without indexing the tags, so nothing is raised by it; the elapsed
    seconds are then decided by the Shootout / clock branches and the event
    is the raw play type. *)
Theorem empty_tags_fall_through (play tags : pyval) :
  play.["special_tags"] = Ok tags ->
  tags = PyNone \/ tags = PyList [] ->
  ends_time_interval play = Ok false
  /\ seconds_elapsed play
     = (play_type <- play.["play_type"] ;;
        if py_eq_str play_type "Shootout" then Ok (PyInt 0)
        else clock_seconds play)
  /\ event play = play.["play_type"].
Proof.
  intros Ht Hnull.
  assert (He : ends_time_interval play = Ok false).
  { apply (ends_time_interval_falsy play tags Ht).
    destruct Hnull as [-> | ->]; reflexivity. }
  unfold seconds_elapsed, event. rewrite He. cbn [bind]. auto.
Qed.

Lemma empty_tags_fall_through_witness :
  ends_time_interval Samples.goal = Ok false
  /\ seconds_elapsed Samples.goal
     = (play_type <- Samples.goal.["play_type"] ;;
        if py_eq_str play_type "Shootout" then Ok (PyInt 0)
        else clock_seconds Samples.goal)
  /\ event Samples.goal = Samples.goal.["play_type"].
Proof.
  apply (empty_tags_fall_through Samples.goal PyNone).
  - reflexivity.
  - left. reflexivity.
Defined.

(** C2.  A play whose [special_tags] list starts with
    ["ends_time_interval"] gets 1200 elapsed seconds and the event
    ["Period End"], whatever its clock string and play type; both steps
    succeed, and the cells of the event row hold these values. *)
Theorem period_end_row (play : pyval) (rest : list pyval) :
  play.["special_tags"] = Ok (PyList (PyStr "ends_time_interval" :: rest)) ->
  seconds_elapsed play = Ok (PyInt 1200)
  /\ event play = Ok (PyStr "Period End")
  /\ forall row, parse_play play = Ok row ->
       row_get cols row "seconds_elapsed" = Some (PyInt 1200)
       /\ row_get cols row "event" = Some (PyStr "Period End").
Proof.
  intros Ht.
  pose proof (ends_time_interval_tagged play rest Ht) as He.
  assert (Hs : seconds_elapsed play = Ok (PyInt 1200))
    by (unfold seconds_elapsed; rewrite He; reflexivity).
  assert (Hev : event play = Ok (PyStr "Period End"))
    by (unfold event; rewrite He; reflexivity).
  repeat split; try assumption.
  - apply parse_play_produces in H. destruct H. cbn. congruence.
  - apply parse_play_produces in H. destruct H. cbn. congruence.
Qed.

Lemma period_end_row_witness :
  seconds_elapsed Samples.period_end = Ok (PyInt 1200)
  /\ event Samples.period_end = Ok (PyStr "Period End")
  /\ forall row, parse_play Samples.period_end = Ok row ->
       row_get cols row "seconds_elapsed" = Some (PyInt 1200)
       /\ row_get cols row "event" = Some (PyStr "Period End").
Proof.
  apply (period_end_row Samples.period_end []). reflexivity.
Defined.

(** *** Elapsed seconds from the clock *)

Lemma clock_seconds_mmss play m s :
  play.["clock_time_string"] = Ok (PyStr (mmss m s)) ->
  (m < 100)%nat -> (s < 100)%nat ->
  clock_seconds play = Ok (PyInt (Z.of_nat m * 60 + Z.of_nat s)).
Proof.
  intros Hc Hm Hs. unfold clock_seconds. rewrite Hc.
  cbn [bind py_split_colon]. rewrite (split_mmss m s Hm Hs).
  cbn [list_item nth_error bind].
  assert (m / 10 < 10)%nat by (apply Nat.Div0.div_lt_upper_bound; lia).
  assert (s / 10 < 10)%nat by (apply Nat.Div0.div_lt_upper_bound; lia).
  assert (m mod 10 < 10)%nat by (apply Nat.mod_upper_bound; lia).
  assert (s mod 10 < 10)%nat by (apply Nat.mod_upper_bound; lia).
  rewrite !py_int_two_digits by assumption.
  cbn [bind try_except]. do 2 f_equal.
  rewrite <- (Nat.div_mod_eq m 10), <- (Nat.div_mod_eq s 10). reflexivity.
Qed.

Lemma row_seconds play row secs :
  parse_play play = Ok row -> seconds_elapsed play = Ok secs ->
  row_get cols row "seconds_elapsed" = Some secs.
Proof.
  intros H Hs. apply parse_play_produces in H. destruct H. cbn. congruence.
Qed.

(** C3.  Without the period-end tag: a play of type ["Shootout"] has 0
    elapsed seconds whatever its clock string; any other play whose clock
    is a well-formed [MM:SS] has [minutes * 60 + seconds].  The cell of the
    event row holds the value computed. *)
Theorem elapsed_seconds_without_period_end (play : pyval) :
  ends_time_interval play = Ok false ->
  (forall play_type,
      play.["play_type"] = Ok play_type ->
      py_eq_str play_type "Shootout" = true ->
      seconds_elapsed play = Ok (PyInt 0))
  /\ (forall play_type m s,
        play.["play_type"] = Ok play_type ->
        py_eq_str play_type "Shootout" = false ->
        play.["clock_time_string"] = Ok (PyStr (mmss m s)) ->
        (m < 100)%nat -> (s < 100)%nat ->
        seconds_elapsed play = Ok (PyInt (Z.of_nat m * 60 + Z.of_nat s)))
  /\ (forall row secs,
        parse_play play = Ok row -> seconds_elapsed play = Ok secs ->
        row_get cols row "seconds_elapsed" = Some secs).
Proof.
  intros He. split; [| split].
  - intros pt Hpt Hshoot. unfold seconds_elapsed.
    rewrite He. cbn [bind]. rewrite Hpt. cbn [bind]. now rewrite Hshoot.
  - intros pt m s Hpt Hshoot Hc Hm Hs. unfold seconds_elapsed.
    rewrite He. cbn [bind]. rewrite Hpt. cbn [bind]. rewrite Hshoot.
    now apply clock_seconds_mmss.
  - intros row secs. apply row_seconds.
Qed.

Lemma elapsed_seconds_without_period_end_witness :
  (forall play_type,
      Samples.faceoff.["play_type"] = Ok play_type ->
      py_eq_str play_type "Shootout" = true ->
      seconds_elapsed Samples.faceoff = Ok (PyInt 0))
  /\ (forall play_type m s,
        Samples.faceoff.["play_type"] = Ok play_type ->
        py_eq_str play_type "Shootout" = false ->
        Samples.faceoff.["clock_time_string"] = Ok (PyStr (mmss m s)) ->
        (m < 100)%nat -> (s < 100)%nat ->
        seconds_elapsed Samples.faceoff = Ok (PyInt (Z.of_nat m * 60 + Z.of_nat s)))
  /\ (forall row secs,
        parse_play Samples.faceoff = Ok row ->
        seconds_elapsed Samples.faceoff = Ok secs ->
        row_get cols row "seconds_elapsed" = Some secs).
Proof.
  apply (elapsed_seconds_without_period_end Samples.faceoff). reflexivity.
Defined.

(** The sample faceoff at 05:23 and a shootout attempt with a clock. *)
Example faceoff_323 :
  Samples.faceoff.["clock_time_string"] = Ok (PyStr (mmss 5 23))
  /\ seconds_elapsed Samples.faceoff = Ok (PyInt 323).
Proof. split; reflexivity. Qed.

(** *** Participants *)

Lemma py_get_dict d k default : py_get (PyDict d) k default = Ok (get_or k d default).
Proof. unfold py_get, get_or. now destruct (dict_get k d). Qed.

Lemma py_get_ok v k default x :
  py_get v k default = Ok x -> exists d, v = PyDict d.
Proof. destruct v; try discriminate. eauto. Qed.

Lemma summary_get_ok play k default x :
  summary_get play k default = Ok x ->
  exists d, play.["play_summary"] = Ok (PyDict d) /\ x = get_or k d default.
Proof.
  unfold summary_get. intros H. bind_inv H.
  destruct (py_get_ok _ _ _ _ H) as (d & ->).
  rewrite py_get_dict in H. injection H as <-. eauto.
Qed.

Lemma py_strip_ok v s : py_strip v = Ok s -> exists t, v = PyStr t /\ s = strip t.
Proof. destruct v; try discriminate. intros [= <-]. eauto. Qed.

Lemma event_description_string play desc :
  event_description play = Ok desc ->
  exists t, play.["play_by_play_string"] = Ok (PyStr t).
Proof.
  unfold event_description. intros H. bind_inv H. bind_inv H.
  destruct (py_strip_ok _ _ Hstep0) as (t & -> & _). eauto.
Qed.

(** C1.  The three participant cells of an event row follow the test
    ["Goal" in play['play_by_play_string']]: when it holds they are the
    summary's scorer and two assists; when it fails they are the play's
    primary player, the summary's loser, and the summary's second assist
    with 0 for a missing key.  Neither branch reads the other's fields. *)
Theorem participants_follow_goal_test (play : pyval) (row : list pyval) :
  parse_play play = Ok row ->
  exists desc summary,
    play.["play_by_play_string"] = Ok (PyStr desc)
    /\ play.["play_summary"] = Ok (PyDict summary)
    /\ (str_contains "Goal" desc = true ->
          row_get cols row "event_p1" = Some (get_or "scorer_id" summary PyNone)
          /\ row_get cols row "event_p2" = Some (get_or "assist_1_id" summary PyNone)
          /\ row_get cols row "event_p3" = Some (get_or "assist_2_id" summary PyNone))
    /\ (str_contains "Goal" desc = false ->
          exists primary,
            play.["primary_player_id"] = Ok primary
            /\ row_get cols row "event_p1" = Some primary
            /\ row_get cols row "event_p2" = Some (get_or "loser_id" summary PyNone)
            /\ row_get cols row "event_p3" = Some (get_or "assist_2_id" summary (PyInt 0))).
Proof.
  intros H. apply parse_play_produces in H.
  destruct H as [idx created date clock secs gid ev dsc period p1 p2 p3
                   team x y ag hg asc hsc
                   _ _ _ _ _ _ _ Hdesc _ Hplayers _ Hx _ _ _ _ _].
  destruct (event_description_string _ _ Hdesc) as (desc & Hd).
  destruct (summary_get_ok _ _ _ _ Hx) as (summary & Hsum & _).
  exists desc, summary. split; [assumption | split; [assumption |]].
  unfold event_players in Hplayers. rewrite Hd in Hplayers.
  cbn [bind py_contains] in Hplayers.
  unfold summary_get in Hplayers. rewrite Hsum in Hplayers.
  cbn [bind] in Hplayers. rewrite !py_get_dict in Hplayers.
  cbn [bind] in Hplayers.
  destruct (str_contains "Goal" desc); split; intros Hb; try discriminate.
  - injection Hplayers as <- <- <-. cbn. auto.
  - bind_inv Hplayers. injection Hplayers as <- <- <-.
    exists v. cbn. auto.
Qed.

Lemma participants_follow_goal_test_witness :
  row_get cols Samples.goal_row "event_p1" = Some (PyInt 20)
  /\ row_get cols Samples.goal_row "event_p2" = Some (PyInt 21)
  /\ row_get cols Samples.goal_row "event_p3" = Some PyNone.
Proof.
  destruct (participants_follow_goal_test Samples.goal Samples.goal_row eq_refl)
    as (desc & summary & Hd & Hs & Hgoal & _).
  vm_compute in Hd. injection Hd as <-.
  vm_compute in Hs. injection Hs as <-.
  apply Hgoal. reflexivity.
Defined.

(* ===================================================================== *)
(** ** Plays that differ in one field *)
(* ===================================================================== *)

Lemma dict_get_set_same k v d : dict_get k (dict_set k v d) = Some v.
Proof.
  induction d as [|[k' v'] r IH]; cbn [dict_set dict_get].
  - now rewrite String.eqb_refl.
  - destruct (String.eqb k k') eqn:E; cbn [dict_get]; rewrite ?E, ?String.eqb_refl; auto.
Qed.

Lemma dict_get_set_other k k' v d :
  String.eqb k' k = false -> dict_get k' (dict_set k v d) = dict_get k' d.
Proof.
  intros Hne. induction d as [|[k0 v0] r IH]; cbn [dict_set dict_get].
  - now rewrite Hne.
  - destruct (String.eqb k k0) eqn:E; cbn [dict_get].
    + apply String.eqb_eq in E. subst k0. now rewrite Hne.
    + now rewrite IH.
Qed.

Lemma dict_get_remove_same k d : dict_get k (dict_remove k d) = None.
Proof.
  induction d as [|[k' v'] r IH]; cbn [dict_remove dict_get]; auto.
  destruct (String.eqb k k') eqn:E; cbn [dict_get]; rewrite ?E; auto.
Qed.

Lemma dict_get_remove_other k k' d :
  String.eqb k' k = false -> dict_get k' (dict_remove k d) = dict_get k' d.
Proof.
  intros Hne. induction d as [|[k0 v0] r IH]; cbn [dict_remove dict_get]; auto.
  destruct (String.eqb k k0) eqn:E; cbn [dict_get].
  - apply String.eqb_eq in E. subst k0. now rewrite Hne.
  - now rewrite IH.
Qed.

Lemma getitem_set_same k v d : (PyDict (dict_set k v d)).[k] = Ok v.
Proof. unfold py_getitem. now rewrite dict_get_set_same. Qed.

Lemma getitem_set_other k k' v d :
  String.eqb k' k = false -> (PyDict (dict_set k v d)).[k'] = (PyDict d).[k'].
Proof. intros H. unfold py_getitem. now rewrite dict_get_set_other. Qed.

Lemma getitem_dict d k v : (PyDict d).[k] = Ok v <-> dict_get k d = Some v.
Proof.
  unfold py_getitem. destruct (dict_get k d); split; congruence.
Qed.

Lemma get_or_remove_same k d default : get_or k (dict_remove k d) default = default.
Proof. unfold get_or. now rewrite dict_get_remove_same. Qed.

Lemma get_or_remove_other k k' d default :
  String.eqb k' k = false -> get_or k' (dict_remove k d) default = get_or k' d default.
Proof. intros H. unfold get_or. now rewrite dict_get_remove_other. Qed.

(** A function of the play that does not read key [k] gives the same
    result on the edited play. *)
Ltac untouched :=
  intros;
  unfold seconds_elapsed, event, event_description, event_players;
  unfold clock_seconds, ends_time_interval, summary_get, action_get;
  rewrite ?getitem_set_other by reflexivity; reflexivity.

Lemma kept a : kept_or_sentinel a a.
Proof. now left. Qed.

Lemma get_or_remove_kept k k' d default :
  default = PyNone \/ default = PyInt 0 ->
  kept_or_sentinel (get_or k' d default) (get_or k' (dict_remove k d) default).
Proof.
  intros Hd. destruct (String.eqb k' k) eqn:E.
  - apply String.eqb_eq in E. subst k'. rewrite get_or_remove_same.
    right. exact Hd.
  - rewrite get_or_remove_other by assumption. apply kept.
Qed.

Section Absorb.
Variables play play' : pyval.

Lemma same_absorbs f : same_step play play' f -> absorbs play play' f.
Proof. unfold same_step, absorbs. intros E v Hv. exists v. rewrite E. split; [assumption | apply kept]. Qed.

Hypothesis Hindex : same_step play play' (fun p => p.["play_index"]).
Hypothesis Hcreated : same_step play play' (fun p => p.["created_at"]).
Hypothesis Hclock : absorbs play play' (fun p => p.["clock_time_string"]).
Hypothesis Hsecs : absorbs play play' seconds_elapsed.
Hypothesis Hgame : same_step play play' (fun p => p.["game_id"]).
Hypothesis Hevent : same_step play play' event.
Hypothesis Hdesc : same_step play play' event_description.
Hypothesis Hperiod : same_step play play' (fun p => p.["time_interval"]).
Hypothesis Hplayers :
  forall l, event_players play = Ok l ->
            exists l', event_players play' = Ok l' /\ Forall2 kept_or_sentinel l l'.
Hypothesis Hteam : same_step play play' (fun p => p.["team_id"]).
Hypothesis Hsummary : forall k, absorbs play play' (fun p => summary_get p k PyNone).
Hypothesis Haction : forall k, absorbs play play' (fun p => action_get p k).

Lemma produces_absorbed row :
  produces play row ->
  exists row', produces play' row' /\ Forall2 kept_or_sentinel row row'.
Proof.
  intros H. destruct H as [idx created date clock secs gid ev desc period
                             p1 p2 p3 team x y ag hg asc hsc
                             H1 H2 H3 H4 H5 H6 H7 H8 H9 H10 H11 H12 H13 H14
                             H15 H16 H17].
  destruct (Hclock _ H4) as (clock' & H4' & Kc).
  destruct (Hsecs _ H5) as (secs' & H5' & Ks).
  destruct (Hplayers _ H10) as (l' & H10' & Kp).
  inversion Kp as [|? q1 ? ? K1 Kp1]; subst.
  inversion Kp1 as [|? q2 ? ? K2 Kp2]; subst.
  inversion Kp2 as [|? q3 ? ? K3 Kp3]; subst.
  inversion Kp3; subst.
  destruct (Hsummary _ _ H12) as (x' & H12' & Kx).
  destruct (Hsummary _ _ H13) as (y' & H13' & Ky).
  destruct (Haction _ _ H14) as (ag' & H14' & Kag).
  destruct (Haction _ _ H15) as (hg' & H15' & Khg).
  destruct (Haction _ _ H16) as (asc' & H16' & Kas).
  destruct (Haction _ _ H17) as (hsc' & H17' & Khs).
  exists [idx; date; clock'; secs'; gid; ev; desc; period; q1; q2; q3;
          team; x'; y'; ag'; hg'; asc'; hsc'].
  split.
  - unfold same_step in *.
    econstructor; try eassumption; congruence.
  - repeat (constructor; [first [assumption | apply kept] |]). constructor.
Qed.
End Absorb.

Lemma clock_seconds_not_string d clock :
  (forall s, clock <> PyStr s) ->
  clock_seconds (PyDict (dict_set "clock_time_string" clock d)) = Ok (PyInt 0).
Proof.
  intros Hns. unfold clock_seconds. rewrite getitem_set_same. cbn [bind].
  destruct clock; try reflexivity. now destruct (Hns s).
Qed.

Lemma seconds_elapsed_null_clock d clock :
  (forall s, clock <> PyStr s) ->
  forall v, seconds_elapsed (PyDict d) = Ok v ->
            exists v', seconds_elapsed (PyDict (dict_set "clock_time_string" clock d)) = Ok v'
                       /\ (v' = v \/ v' = PyInt 0).
Proof.
  intros Hns v H. unfold seconds_elapsed in *.
  replace (ends_time_interval (PyDict (dict_set "clock_time_string" clock d)))
    with (ends_time_interval (PyDict d)) by (symmetry; untouched).
  bind_inv H. rewrite Hstep. cbn [bind].
  destruct v0; [eauto |].
  rewrite getitem_set_other by reflexivity.
  bind_inv H. rewrite Hstep0. cbn [bind].
  destruct (py_eq_str v0 "Shootout"); [eauto |].
  rewrite clock_seconds_not_string by assumption. eauto.
Qed.

Lemma null_clock_absorbed d row :
  produces (PyDict d) row ->
  exists row', produces (PyDict (dict_set "clock_time_string" PyNone d)) row'
               /\ Forall2 kept_or_sentinel row row'.
Proof.
  apply produces_absorbed; try (unfold same_step; untouched).
  - unfold absorbs. intros v _. exists PyNone. rewrite getitem_set_same.
    split; [reflexivity | right; now left].
  - unfold absorbs. intros v Hv.
    destruct (seconds_elapsed_null_clock d PyNone) with (v := v)
      as (v' & Hv' & [-> | ->]); try assumption; try discriminate.
    + exists v. split; [assumption | apply kept].
    + exists (PyInt 0). split; [assumption | right; now right].
  - intros l Hl. exists l. split.
    + rewrite <- Hl. untouched.
    + clear Hl. induction l; constructor; auto using kept.
  - intros k. apply same_absorbs. unfold same_step. untouched.
  - intros k. apply same_absorbs. unfold same_step. untouched.
Qed.

Lemma summary_get_known d summary k default :
  dict_get "play_summary" d = Some (PyDict summary) ->
  summary_get (PyDict d) k default = Ok (get_or k summary default).
Proof.
  intros H. unfold summary_get, py_getitem. rewrite H. cbn [bind].
  apply py_get_dict.
Qed.

Lemma action_get_known d action rest k :
  dict_get "play_actions" d = Some (PyList (PyDict action :: rest)) ->
  action_get (PyDict d) k = Ok (get_or k action PyNone).
Proof.
  intros H. unfold action_get, py_getitem. rewrite H. cbn [bind py_first].
  apply py_get_dict.
Qed.

Lemma event_description_without_field d summary k :
  dict_get "play_summary" d = Some (PyDict summary) ->
  String.eqb "details" k = false ->
  event_description (PyDict (dict_set "play_summary" (PyDict (dict_remove k summary)) d))
  = event_description (PyDict d).
Proof.
  intros Hs Hk. unfold event_description.
  rewrite !getitem_set_other by reflexivity. rewrite getitem_set_same.
  replace ((PyDict d).["play_summary"]) with (Ok (PyDict summary))
    by (symmetry; now apply getitem_dict).
  destruct ((PyDict d).["play_by_play_string"]) as [v|]; [| reflexivity].
  cbn [bind]. destruct (py_strip v) as [t|]; [| reflexivity].
  cbn [bind]. destruct (String.eqb (lower t) "penalty"); [| reflexivity].
  cbn [bind]. unfold py_getitem. now rewrite dict_get_remove_other.
Qed.

Lemma event_players_without_field d summary k l :
  dict_get "play_summary" d = Some (PyDict summary) ->
  event_players (PyDict d) = Ok l ->
  exists l',
    event_players (PyDict (dict_set "play_summary" (PyDict (dict_remove k summary)) d))
    = Ok l'
    /\ Forall2 kept_or_sentinel l l'.
Proof.
  intros Hs. unfold event_players.
  rewrite !getitem_set_other by reflexivity.
  rewrite !(summary_get_known d summary) by assumption.
  rewrite !(summary_get_known _ (dict_remove k summary))
    by apply dict_get_set_same.
  intros H. bind_inv H. rewrite Hstep. cbn [bind].
  bind_inv H. rewrite Hstep0. cbn [bind] in *.
  destruct v0.
  - injection H as <-. eexists. split; [reflexivity |].
    repeat (constructor; [apply get_or_remove_kept; auto |]). constructor.
  - bind_inv H. injection H as <-. rewrite Hstep1. cbn [bind].
    eexists. split; [reflexivity |].
    constructor; [apply kept |].
    repeat (constructor; [apply get_or_remove_kept; auto |]). constructor.
Qed.

Lemma summary_field_absorbed d summary k row :
  dict_get "play_summary" d = Some (PyDict summary) ->
  In k ["scorer_id"; "assist_1_id"; "assist_2_id"; "loser_id"; "x_coord"; "y_coord"] ->
  produces (PyDict d) row ->
  exists row',
    produces (PyDict (dict_set "play_summary" (PyDict (dict_remove k summary)) d)) row'
    /\ Forall2 kept_or_sentinel row row'.
Proof.
  intros Hs Hk.
  apply produces_absorbed; try (unfold same_step; untouched);
    try (apply same_absorbs; unfold same_step; untouched).
  - unfold same_step. apply event_description_without_field; [assumption |].
    cbn [In] in Hk.
    repeat (destruct Hk as [<- | Hk]; [reflexivity |]). contradiction.
  - intros l. now apply event_players_without_field.
  - intros k0 v. rewrite (summary_get_known d summary) by assumption.
    intros [= <-]. eexists. split.
    + apply summary_get_known. apply dict_get_set_same.
    + apply get_or_remove_kept. auto.
  - intros k0. apply same_absorbs. unfold same_step. untouched.
Qed.

Lemma action_field_absorbed d action rest k row :
  dict_get "play_actions" d = Some (PyList (PyDict action :: rest)) ->
  produces (PyDict d) row ->
  exists row',
    produces (PyDict (dict_set "play_actions"
                               (PyList (PyDict (dict_remove k action) :: rest)) d)) row'
    /\ Forall2 kept_or_sentinel row row'.
Proof.
  intros Ha.
  apply produces_absorbed; try (unfold same_step; untouched);
    try (apply same_absorbs; unfold same_step; untouched).
  - intros l Hl. exists l. split.
    + rewrite <- Hl. untouched.
    + clear Hl. induction l; constructor; auto using kept.
  - intros k0. apply same_absorbs. unfold same_step. untouched.
  - intros k0 v. rewrite (action_get_known d action rest) by assumption.
    intros [= <-]. eexists. split.
    + apply (action_get_known _ (dict_remove k action) rest).
      apply dict_get_set_same.
    + apply get_or_remove_kept. auto.
Qed.

Lemma soft_defect_row play play' row :
  soft_defect play play' -> parse_play play = Ok row ->
  exists row', parse_play play' = Ok row' /\ Forall2 kept_or_sentinel row row'.
Proof.
  intros Hd H. apply parse_play_produces in H.
  assert (exists row', produces play' row' /\ Forall2 kept_or_sentinel row row')
    as (row' & Hp & Hk).
  { destruct Hd.
    - now apply null_clock_absorbed.
    - now apply summary_field_absorbed.
    - now apply action_field_absorbed. }
  exists row'. split; [now apply parse_play_produces | assumption].
Qed.

(* ===================================================================== *)
(** ** The stable sort *)
(* ===================================================================== *)

Lemma lex_leb_refl a : lex_leb a a = true.
Proof.
  induction a as [|x a IH]; cbn [lex_leb]; auto.
  rewrite Z.eqb_refl, IH. apply orb_true_r.
Qed.

Lemma lex_leb_total a b : lex_leb a b = false -> lex_leb b a = true.
Proof.
  revert b. induction a as [|x a IH]; intros [|y b]; cbn [lex_leb];
    try discriminate.
  intros H. apply orb_false_iff in H. destruct H as [Hlt H].
  apply Z.ltb_ge in Hlt.
  destruct (Z.eqb_spec x y) as [-> | Hne].
  - cbn [andb] in H. rewrite Z.eqb_refl, (IH _ H). apply orb_true_r.
  - apply orb_true_iff. left. apply Z.ltb_lt. lia.
Qed.

Lemma lex_leb_trans a b c :
  List.length a = List.length b -> List.length b = List.length c ->
  lex_leb a b = true -> lex_leb b c = true -> lex_leb a c = true.
Proof.
  revert b c. induction a as [|x a IH]; intros [|y b] [|z c];
    cbn [lex_leb List.length]; try discriminate; auto.
  intros [= Hab] [= Hbc] H1 H2.
  apply orb_true_iff in H1. apply orb_true_iff in H2. apply orb_true_iff.
  destruct H1 as [H1 | H1]; destruct H2 as [H2 | H2];
    rewrite ?andb_true_iff, ?Z.ltb_lt, ?Z.eqb_eq in *.
  - left. lia.
  - left. lia.
  - left. lia.
  - right. destruct H1 as [-> H1], H2 as [-> H2]. split; [reflexivity |].
    now apply (IH b c).
Qed.

Lemma lex_leb_antisym a b :
  List.length a = List.length b ->
  lex_leb a b = true -> lex_leb b a = true -> a = b.
Proof.
  revert b. induction a as [|x a IH]; intros [|y b];
    cbn [lex_leb List.length]; try discriminate; auto.
  intros [= Hab] H1 H2.
  apply orb_true_iff in H1. apply orb_true_iff in H2.
  rewrite ?andb_true_iff, ?Z.ltb_lt, ?Z.eqb_eq in *.
  destruct H1 as [H1 | [-> H1]]; destruct H2 as [H2 | [E H2]]; try lia.
  f_equal. now apply IH.
Qed.

(** On triples [lex_leb] is the lexicographic order. *)
Lemma lex_leb_triple p s i p' s' i' :
  lex_leb [p; s; i] [p'; s'; i'] = true
  <-> p < p' \/ (p = p' /\ (s < s' \/ (s = s' /\ i <= i'))).
Proof.
  cbn [lex_leb].
  rewrite !orb_true_iff, !andb_true_iff, !orb_true_iff, !andb_true_iff,
    !Z.ltb_lt, !Z.eqb_eq.
  intuition lia.
Qed.

Section SortFacts.
Context {A : Type} (key : A -> list Z) (n : nat).

Lemma insert_by_perm x l : Permutation (insert_by key x l) (x :: l).
Proof.
  induction l as [|y r IH]; cbn [insert_by]; [reflexivity |].
  destruct (lex_leb (key x) (key y)); [reflexivity |].
  rewrite IH. apply perm_swap.
Qed.

Lemma stable_sort_perm l : Permutation (stable_sort key l) l.
Proof.
  induction l as [|x r IH]; cbn [stable_sort]; [reflexivity |].
  rewrite insert_by_perm. now constructor.
Qed.

Lemma keyed_perm l l' : Permutation l l' -> (keyed key n) l -> (keyed key n) l'.
Proof. intros Hp H. unfold keyed. now rewrite <- Hp. Qed.

Lemma insert_by_sorted x l :
  List.length (key x) = n -> (keyed key n) l ->
  StronglySorted (key_le key) l -> StronglySorted (key_le key) (insert_by key x l).
Proof.
  intros Hx Hk Hs. induction Hs as [|y r Hs IH Hy]; cbn [insert_by].
  - repeat constructor.
  - apply Forall_cons_iff in Hk. destruct Hk as (Hky & Hkr).
    destruct (lex_leb (key x) (key y)) eqn:E.
    + constructor; [now constructor |].
      constructor; [exact E |].
      rewrite Forall_forall in *. intros z Hz.
      apply (lex_leb_trans _ (key y)).
      * now rewrite Hky.
      * rewrite Hky. symmetry. now apply Hkr.
      * exact E.
      * now apply Hy.
    + constructor; [now apply IH |].
      rewrite (insert_by_perm x r). constructor; [| assumption].
      now apply lex_leb_total.
Qed.

Lemma stable_sort_sorted l :
  (keyed key n) l -> StronglySorted (key_le key) (stable_sort key l).
Proof.
  induction l as [|x r IH]; intros Hk; cbn [stable_sort]; [constructor |].
  apply Forall_cons_iff in Hk. destruct Hk as (Hx & Hr).
  apply insert_by_sorted; auto.
  apply (keyed_perm r); [symmetry; apply stable_sort_perm | assumption].
Qed.

(** Stability: the rows of any one key come out in the order they went in. *)
Lemma insert_by_filter k x l :
  filter (fun r => key_eqb (key r) k) (insert_by key x l)
  = filter (fun r => key_eqb (key r) k) (x :: l).
Proof.
  induction l as [|y r IH]; cbn [insert_by]; [reflexivity |].
  destruct (lex_leb (key x) (key y)) eqn:E; [reflexivity |].
  cbn [filter] in *. rewrite IH.
  unfold key_eqb.
  destruct (list_eq_dec Z.eq_dec (key x) k) as [Hx | Hx];
    destruct (list_eq_dec Z.eq_dec (key y) k) as [Hy | Hy]; try reflexivity.
  rewrite Hx, Hy, lex_leb_refl in E. discriminate.
Qed.

Lemma stable_sort_stable k l :
  filter (fun r => key_eqb (key r) k) (stable_sort key l)
  = filter (fun r => key_eqb (key r) k) l.
Proof.
  induction l as [|x r IH]; cbn [stable_sort]; [reflexivity |].
  rewrite insert_by_filter. cbn [filter]. now rewrite IH.
Qed.

(** With pairwise distinct keys there is one sorted arrangement. *)
Lemma sorted_perm_unique l1 l2 :
  (keyed key n) l1 -> NoDup (map key l1) ->
  StronglySorted (key_le key) l1 -> StronglySorted (key_le key) l2 ->
  Permutation l1 l2 -> l1 = l2.
Proof.
  revert l2. induction l1 as [|x r1 IH]; intros l2 Hk Hnd Hs1 Hs2 Hp.
  - apply Permutation_nil in Hp. now subst.
  - destruct l2 as [|y r2].
    { symmetry in Hp. now apply Permutation_nil in Hp. }
    inversion Hs1 as [|? ? Hs1' Hx]; subst.
    inversion Hs2 as [|? ? Hs2' Hy]; subst.
    inversion Hnd as [|? ? Hnotin Hnd']; subst.
    apply Forall_cons_iff in Hk. destruct Hk as (Hkx & Hkr).
    assert (x = y) as ->.
    { assert (Hin1 : In x (y :: r2))
        by (apply (Permutation_in _ Hp); now left).
      assert (Hin2 : In y (x :: r1))
        by (apply (Permutation_in _ (Permutation_sym Hp)); now left).
      destruct Hin1 as [-> | Hin1]; [reflexivity |].
      destruct Hin2 as [-> | Hin2]; [reflexivity |].
      exfalso. apply Hnotin.
      rewrite Forall_forall in Hx, Hy, Hkr.
      assert (key x = key y) as ->.
      { apply lex_leb_antisym.
        - rewrite Hkx. symmetry. now apply Hkr.
        - now apply Hx.
        - now apply Hy. }
      now apply in_map. }
    f_equal. apply IH; auto.
    now apply Permutation_cons_inv in Hp.
Qed.

Lemma stable_sort_unique l l' :
  (keyed key n) l -> NoDup (map key l) ->
  Permutation l' l -> StronglySorted (key_le key) l' ->
  l' = stable_sort key l.
Proof.
  intros Hk Hnd Hp Hs.
  apply sorted_perm_unique.
  - apply (keyed_perm l); [now symmetry | assumption].
  - apply (Permutation_NoDup (l := map key l)); [| assumption].
    apply Permutation_map. now symmetry.
  - assumption.
  - now apply stable_sort_sorted.
  - rewrite Hp. symmetry. apply stable_sort_perm.
Qed.
End SortFacts.

(* ===================================================================== *)
(** ** The play table of [convert_pbp_dict] *)
(* ===================================================================== *)

Ltac frame_cbn :=
  cbn [columns rows has_column existsb forallb andb sort_by cols String.eqb
       Ascii.eqb Bool.eqb orb app bind].

Ltac frame_cbn_in H :=
  cbn [columns rows has_column existsb forallb andb sort_by cols String.eqb
       Ascii.eqb Bool.eqb orb app bind] in H.

Lemma convert_pbp_dict_converted pbp_dict pbp_df player_df team_df :
  convert_pbp_dict pbp_dict = Ok (pbp_df, player_df, team_df)
  <-> converted pbp_dict pbp_df player_df team_df.
Proof.
  split.
  - unfold convert_pbp_dict. intros H. do 11 bind_inv H.
    unfold DataFrame, fillna0, set_scalar in H. frame_cbn_in H.
    unfold map_column in H. frame_cbn_in H. rewrite !map_map in H.
    unfold sort_values in H. frame_cbn_in H.
    match type of H with
    | bind (if ?c then _ else _) _ = _ =>
        change c with (forallb has_key (map (finish_row v6 v7 v8 v9) v5)) in H;
        destruct (forallb has_key (map (finish_row v6 v7 v8 v9) v5)) eqn:Hkeys;
        [| discriminate]
    end.
    cbn [bind] in H. injection H as <- <- <-.
    econstructor; eassumption.
  - intros H. destruct H. unfold convert_pbp_dict.
    repeat match goal with
           | E : ?c = Ok _ |- context [bind ?c _] => rewrite E; cbn [bind]
           end.
    unfold DataFrame, fillna0, set_scalar. frame_cbn.
    unfold map_column. frame_cbn. rewrite !map_map.
    unfold sort_values. frame_cbn.
    match goal with
    | |- bind (if ?c then _ else _) _ = _ =>
        change c with
          (forallb has_key (map (finish_row home_name home_id away_name away_id) parsed))
    end.
    rewrite H10. reflexivity.
Qed.

(* ===================================================================== *)
(** ** Rows and columns *)
(* ===================================================================== *)

Lemma has_column_In c l : has_column c l = true <-> In c l.
Proof.
  unfold has_column. rewrite existsb_exists. split.
  - intros (x & Hx & E). apply String.eqb_eq in E. now subst.
  - intros H. exists c. split; [assumption | apply String.eqb_refl].
Qed.

Lemma has_column_not_In c l : has_column c l = false <-> ~ In c l.
Proof.
  rewrite <- has_column_In. destruct (has_column c l); split; congruence.
Qed.

Lemma row_get_app_other l : forall r c k v,
  List.length r = List.length l -> String.eqb k c = false ->
  row_get (l ++ [c]) (r ++ [v]) k = row_get l r k.
Proof.
  induction l as [|c' l IH]; intros [|x r] c k v Hlen Hne;
    cbn [List.length] in Hlen; try discriminate.
  - cbn. now rewrite Hne.
  - cbn [app row_get]. destruct (String.eqb k c'); [reflexivity |].
    apply IH; [now injection Hlen | assumption].
Qed.

Lemma row_get_app_new l : forall r c v,
  List.length r = List.length l -> ~ In c l ->
  row_get (l ++ [c]) (r ++ [v]) c = Some v.
Proof.
  induction l as [|c' l IH]; intros [|x r] c v Hlen Hnin;
    cbn [List.length] in Hlen; try discriminate.
  - cbn. now rewrite String.eqb_refl.
  - cbn [app row_get].
    destruct (String.eqb_spec c c') as [-> | Hne].
    + exfalso. apply Hnin. now left.
    + apply IH; [now injection Hlen |]. intros Hin. apply Hnin. now right.
Qed.

Lemma row_get_update_other l : forall r c k f,
  String.eqb k c = false ->
  row_get l (row_update l r c f) k = row_get l r k.
Proof.
  induction l as [|c' l IH]; intros [|x r] c k f Hne; try reflexivity.
  cbn [row_update]. destruct (String.eqb c c') eqn:E.
  - cbn [row_get]. apply String.eqb_eq in E. subst c'. now rewrite Hne.
  - cbn [row_get]. destruct (String.eqb k c'); [reflexivity |]. now apply IH.
Qed.

Lemma row_get_update_same l : forall r c f,
  List.length r = List.length l -> In c l ->
  exists old, row_get l r c = Some old
              /\ row_get l (row_update l r c f) c = Some (f old).
Proof.
  induction l as [|c' l IH]; intros [|x r] c f Hlen Hin;
    cbn [List.length] in Hlen; try discriminate; [destruct Hin |].
  cbn [row_update row_get]. destruct (String.eqb c c') eqn:E.
  - exists x. cbn [row_get]. rewrite ?E. now split.
  - cbn [row_get]. rewrite ?E. apply IH; [now injection Hlen |].
    destruct Hin as [-> | Hin]; [| assumption].
    now rewrite String.eqb_refl in E.
Qed.

Lemma row_update_same l : forall r c v,
  row_get l r c = Some v -> row_update l r c (fun _ => v) = r.
Proof.
  induction l as [|c' l IH]; intros [|x r] c v H; try reflexivity.
  cbn [row_get] in H. cbn [row_update].
  destruct (String.eqb c c'); [now injection H as -> |].
  f_equal. now apply IH.
Qed.

Lemma row_update_length l : forall r c f,
  List.length (row_update l r c f) = List.length r.
Proof.
  induction l as [|c' l IH]; intros [|x r] c f; try reflexivity.
  cbn [row_update]. destruct (String.eqb c c'); cbn [List.length]; auto.
Qed.

Lemma filter_eqb_NoDup c l :
  NoDup l -> In c l -> filter (String.eqb c) l = [c].
Proof.
  induction 1 as [|x l Hnin Hnd IH]; intros Hin; [destruct Hin |].
  cbn [filter]. destruct (String.eqb_spec c x) as [-> | Hne].
  - f_equal. clear IH Hin.
    induction l as [|y l IH]; [reflexivity |].
    cbn [filter]. destruct (String.eqb_spec x y) as [-> | _].
    + exfalso. apply Hnin. now left.
    + apply IH.
      * intros H. apply Hnin. now right.
      * now inversion Hnd.
  - apply IH. destruct Hin as [-> | Hin]; [contradiction | assumption].
Qed.

Lemma row_pick_none l : forall r c, ~ In c l -> row_pick l r c = [].
Proof.
  induction l as [|c' l IH]; intros [|x r] c Hnin; try reflexivity.
  cbn [row_pick]. destruct (String.eqb_spec c c') as [-> | _].
  - exfalso. apply Hnin. now left.
  - apply IH. intros H. apply Hnin. now right.
Qed.

Lemma row_pick_NoDup l : forall r c,
  NoDup l -> In c l -> List.length r = List.length l ->
  exists v, row_get l r c = Some v /\ row_pick l r c = [v].
Proof.
  induction l as [|c' l IH]; intros [|x r] c Hnd Hin Hlen;
    cbn [List.length] in Hlen; try discriminate; [destruct Hin |].
  inversion Hnd as [|? ? Hnin Hnd']; subst.
  cbn [row_get row_pick]. destruct (String.eqb_spec c c') as [-> | Hne].
  - exists x. split; [reflexivity |]. now rewrite row_pick_none.
  - apply IH; [assumption | | now injection Hlen].
    destruct Hin as [-> | Hin]; [contradiction | assumption].
Qed.

(** *** Tables read from JSON *)

Lemma add_keys_NoDup d : forall seen, NoDup seen -> NoDup (add_keys seen d).
Proof.
  induction d as [|[k v] d IH]; intros seen Hnd; cbn [add_keys]; auto.
  apply IH. destruct (has_column k seen) eqn:E; [assumption |].
  apply has_column_not_In in E.
  apply NoDup_rev in Hnd. rewrite <- (rev_involutive (seen ++ [k])).
  apply NoDup_rev. rewrite rev_app_distr. cbn [rev app].
  constructor; [| assumption]. now rewrite <- in_rev.
Qed.

Lemma record_keys_NoDup l : forall seen cols,
  NoDup seen -> record_keys seen l = Ok cols -> NoDup cols.
Proof.
  induction l as [|v l IH]; intros seen cs Hnd H; cbn [record_keys] in H.
  - now injection H as <-.
  - destruct v; try discriminate. apply (IH _ _ (add_keys_NoDup d seen Hnd) H).
Qed.

Lemma record_keys_dicts l : forall seen cols,
  record_keys seen l = Ok cols -> Forall (fun v => exists d, v = PyDict d) l.
Proof.
  induction l as [|v l IH]; intros seen cs H; cbn [record_keys] in H.
  - constructor.
  - destruct v; try discriminate. constructor; eauto.
Qed.

Lemma from_dict_well_formed v df : from_dict v = Ok df -> well_formed df.
Proof.
  unfold from_dict. destruct v; try discriminate. intros H. bind_inv H.
  injection H as <-. split; cbn [columns rows].
  - apply (record_keys_NoDup l [] v); [constructor | assumption].
  - apply Forall_map. apply record_keys_dicts in Hstep.
    apply (Forall_impl _ (P := fun v => exists d, v = PyDict d));
      [| assumption].
    intros x (d & ->). cbn [record_row]. apply length_map.
Qed.

(* ===================================================================== *)
(** ** Name enrichment *)
(* ===================================================================== *)

Lemma with_full_name_rows pl :
  rows (with_full_name pl) = map (named_row pl) (rows pl).
Proof.
  unfold with_full_name, set_computed, named_row.
  destruct (has_column "full_name" (columns pl)); reflexivity.
Qed.

Lemma with_full_name_columns pl :
  columns (with_full_name pl)
  = if has_column "full_name" (columns pl) then columns pl
    else columns pl ++ ["full_name"].
Proof.
  unfold with_full_name, set_computed.
  destruct (has_column "full_name" (columns pl)); reflexivity.
Qed.

Lemma with_full_name_has pl : has_column "full_name" (columns (with_full_name pl)) = true.
Proof.
  rewrite with_full_name_columns.
  destruct (has_column "full_name" (columns pl)) eqn:E; [assumption |].
  apply has_column_In, in_or_app. right. now left.
Qed.

Lemma with_full_name_keeps pl c :
  has_column c (columns pl) = true ->
  has_column c (columns (with_full_name pl)) = true.
Proof.
  rewrite with_full_name_columns. intros H.
  destruct (has_column "full_name" (columns pl)); [assumption |].
  apply has_column_In, in_or_app. left. now apply has_column_In.
Qed.

Lemma NoDup_snoc (c : string) l : NoDup l -> ~ In c l -> NoDup (l ++ [c]).
Proof.
  intros Hnd Hnin. apply NoDup_rev in Hnd.
  rewrite <- (rev_involutive (l ++ [c])). apply NoDup_rev.
  rewrite rev_app_distr. cbn [rev app]. constructor; [| assumption].
  now rewrite <- in_rev.
Qed.

Lemma with_full_name_well_formed pl :
  well_formed pl -> well_formed (with_full_name pl).
Proof.
  intros [Hnd Hlen]. unfold well_formed.
  rewrite with_full_name_rows, with_full_name_columns. unfold named_row.
  destruct (has_column "full_name" (columns pl)) eqn:E.
  - split; [assumption |]. apply Forall_map.
    apply (Forall_impl _ (P := fun r => List.length r = List.length (columns pl)));
      [| assumption].
    intros r Hr. now rewrite row_update_length.
  - split; [apply NoDup_snoc; [assumption | now apply has_column_not_In] |].
    apply Forall_map.
    apply (Forall_impl _ (P := fun r => List.length r = List.length (columns pl)));
      [| assumption].
    intros r Hr. rewrite !length_app, Hr. reflexivity.
Qed.

Lemma named_row_get_other pl p k :
  List.length p = List.length (columns pl) ->
  String.eqb k "full_name" = false ->
  row_get (columns (with_full_name pl)) (named_row pl p) k
  = row_get (columns pl) p k.
Proof.
  intros Hlen Hne. rewrite with_full_name_columns. unfold named_row.
  destruct (has_column "full_name" (columns pl)).
  - now apply row_get_update_other.
  - now apply row_get_app_other.
Qed.

Lemma named_row_get_full pl p :
  List.length p = List.length (columns pl) ->
  row_get (columns (with_full_name pl)) (named_row pl p) "full_name"
  = Some (full_name (columns pl) p).
Proof.
  intros Hlen. rewrite with_full_name_columns. unfold named_row.
  destruct (has_column "full_name" (columns pl)) eqn:E.
  - apply has_column_In in E.
    destruct (row_get_update_same (columns pl) p "full_name"
                (fun _ => full_name (columns pl) p) Hlen E) as (old & _ & H).
    exact H.
  - apply row_get_app_new; [assumption | now apply has_column_not_In].
Qed.

Lemma named_row_full_name pl p :
  List.length p = List.length (columns pl) ->
  full_name (columns (with_full_name pl)) (named_row pl p)
  = full_name (columns pl) p.
Proof.
  intros Hlen. unfold full_name.
  now rewrite !named_row_get_other by (assumption || reflexivity).
Qed.

Lemma named_row_id pl p :
  List.length p = List.length (columns pl) ->
  id_cell (columns (with_full_name pl)) (named_row pl p)
  = id_cell (columns pl) p.
Proof.
  intros Hlen. unfold id_cell.
  now rewrite named_row_get_other by (assumption || reflexivity).
Qed.

(** Assigning [full_name] a second time changes nothing. *)
Lemma with_full_name_idempotent pl :
  well_formed pl -> with_full_name (with_full_name pl) = with_full_name pl.
Proof.
  intros [Hnd Hlen].
  unfold with_full_name at 1. unfold set_computed.
  rewrite with_full_name_has.
  destruct (with_full_name pl) as [cs rs] eqn:E. cbn [columns rows].
  f_equal.
  assert (Hrs : rs = rows (with_full_name pl)) by now rewrite E.
  assert (Hcs : cs = columns (with_full_name pl)) by now rewrite E.
  rewrite Hrs, Hcs, with_full_name_rows.
  rewrite map_map. apply map_ext_in. intros p Hp.
  rewrite Forall_forall in Hlen. specialize (Hlen p Hp).
  apply row_update_same.
  rewrite named_row_full_name by assumption.
  now apply named_row_get_full.
Qed.

Lemma directory_with_full_name pl :
  well_formed pl -> directory (with_full_name pl) = directory pl.
Proof.
  intros [Hnd Hlen]. unfold directory. f_equal.
  rewrite with_full_name_rows, map_map. apply map_ext_in. intros p Hp.
  rewrite Forall_forall in Hlen. specialize (Hlen p Hp).
  now rewrite named_row_id, named_row_full_name.
Qed.

Lemma select_directory pl :
  well_formed pl -> has_column "id" (columns pl) = true ->
  select (with_full_name pl) ["id"; "full_name"] = Ok (directory pl).
Proof.
  intros Hwf Hid.
  pose proof (with_full_name_well_formed pl Hwf) as [Hnd' Hlen'].
  pose proof (with_full_name_keeps pl "id" Hid) as Hid'.
  pose proof (with_full_name_has pl) as Hfn'.
  unfold select. cbn [forallb]. rewrite Hid', Hfn'. cbn [andb flat_map].
  rewrite !filter_eqb_NoDup by (assumption || now apply has_column_In).
  unfold directory. cbn [app]. do 2 f_equal.
  rewrite with_full_name_rows. rewrite map_map. apply map_ext_in.
  intros p Hp. destruct Hwf as [Hnd Hlen].
  rewrite Forall_forall in Hlen, Hlen'. specialize (Hlen p Hp).
  assert (Hlp : List.length (named_row pl p)
                = List.length (columns (with_full_name pl))).
  { apply Hlen'. rewrite with_full_name_rows. now apply in_map. }
  destruct (row_pick_NoDup _ (named_row pl p) "id" Hnd'
              (proj1 (has_column_In _ _) Hid') Hlp) as (vi & Hgi & ->).
  destruct (row_pick_NoDup _ (named_row pl p) "full_name" Hnd'
              (proj1 (has_column_In _ _) Hfn') Hlp) as (vf & Hgf & ->).
  rewrite named_row_get_other in Hgi by (assumption || reflexivity).
  rewrite named_row_get_full in Hgf by assumption.
  injection Hgf as <-. unfold id_cell. rewrite Hgi. reflexivity.
Qed.

Lemma with_full_name_had pl c :
  String.eqb c "full_name" = false ->
  has_column c (columns (with_full_name pl)) = true ->
  has_column c (columns pl) = true.
Proof.
  rewrite with_full_name_columns. intros Hne H.
  destruct (has_column "full_name" (columns pl)); [assumption |].
  apply has_column_In in H. apply has_column_In.
  apply in_app_or in H. destruct H as [H | [<- | []]]; [assumption |].
  now rewrite String.eqb_refl in Hne.
Qed.

Lemma player_columns_ok_named pl :
  player_columns_ok pl -> player_columns_ok (with_full_name pl).
Proof.
  intros (H1 & H2 & H3). repeat split; now apply with_full_name_keeps.
Qed.

Lemma pull_player_names_enrich pbp pl c :
  well_formed pl -> player_columns_ok pl ->
  has_column c (columns pbp) = true ->
  pull_player_names pbp pl c
  = Ok (enrich (directory pl) pbp c, with_full_name pl).
Proof.
  intros Hwf (H1 & H2 & H3) Hc. unfold pull_player_names.
  rewrite H1, H2. cbn [andb].
  change (set_computed pl "full_name" (full_name (columns pl)))
    with (with_full_name pl).
  rewrite (select_directory pl Hwf H3). cbn [bind].
  unfold merge_left. rewrite Hc. reflexivity.
Qed.

Lemma pull_player_names_inv pbp pl c pbp' pl' :
  well_formed pl ->
  pull_player_names pbp pl c = Ok (pbp', pl') ->
  player_columns_ok pl
  /\ has_column c (columns pbp) = true
  /\ pbp' = enrich (directory pl) pbp c
  /\ pl' = with_full_name pl.
Proof.
  intros Hwf H.
  assert (Hok : player_columns_ok pl /\ has_column c (columns pbp) = true).
  { unfold pull_player_names in H.
    destruct (has_column "first_name" (columns pl)) eqn:H1; [| discriminate].
    destruct (has_column "last_name" (columns pl)) eqn:H2; [| discriminate].
    cbn [andb] in H.
    change (set_computed pl "full_name" (full_name (columns pl)))
      with (with_full_name pl) in H.
    assert (H3 : has_column "id" (columns pl) = true).
    { apply with_full_name_had; [reflexivity |].
      unfold select in H. cbn [forallb] in H.
      destruct (has_column "id" (columns (with_full_name pl))); [reflexivity |].
      discriminate. }
    rewrite (select_directory pl Hwf H3) in H. cbn [bind] in H.
    unfold merge_left in H.
    destruct (has_column c (columns pbp)); [| discriminate].
    repeat split; assumption. }
  destruct Hok as (Hpl & Hc).
  rewrite (pull_player_names_enrich pbp pl c Hwf Hpl Hc) in H.
  injection H as <- <-. auto.
Qed.

Lemma name_loop_inv cs : forall c pbp pl pbp' pl',
  well_formed pl ->
  name_loop (c :: cs) pbp pl = Ok (pbp', pl') ->
  player_columns_ok pl
  /\ pl' = with_full_name pl
  /\ pbp' = fold_left (enrich (directory pl)) (c :: cs) pbp.
Proof.
  induction cs as [|c2 cs IH]; intros c pbp pl pbp' pl' Hwf H.
  - cbn [name_loop] in H. bind_inv H. destruct v as [pbp1 pl1].
    cbn [fst snd] in H. injection H as <- <-.
    destruct (pull_player_names_inv _ _ _ _ _ Hwf Hstep) as (Hok & _ & -> & ->).
    auto.
  - change (name_loop (c :: c2 :: cs) pbp pl)
      with (st <- pull_player_names pbp pl c ;;
            name_loop (c2 :: cs) (fst st) (snd st)) in H.
    bind_inv H. destruct v as [pbp1 pl1]. cbn [fst snd] in H.
    destruct (pull_player_names_inv _ _ _ _ _ Hwf Hstep) as (Hok & _ & -> & ->).
    apply IH in H; [| now apply with_full_name_well_formed].
    destruct H as (_ & -> & ->).
    rewrite with_full_name_idempotent, directory_with_full_name by assumption.
    auto.
Qed.

Lemma enrich_fold_columns dir cs : forall pbp,
  columns (fold_left (enrich dir) cs pbp)
  = fold_left enrich_columns cs (columns pbp).
Proof.
  induction cs as [|c cs IH]; intros pbp; cbn [fold_left]; [reflexivity |].
  now rewrite IH.
Qed.

Lemma converted_well_formed d pbp pl tm :
  converted d pbp pl tm -> well_formed pl /\ columns pbp = pbp_columns.
Proof.
  intros H. destruct H. split; [| reflexivity].
  eapply from_dict_well_formed; eassumption.
Qed.

Lemma enriched_columns_eq :
  fold_left enrich_columns player_id_columns pbp_columns = enriched_columns.
Proof. vm_compute. reflexivity. Qed.

Lemma output_columns_present :
  forallb (fun c => has_column c enriched_columns) output_columns = true.
Proof. vm_compute. reflexivity. Qed.

Lemma output_columns_selected :
  flat_map (fun c => filter (String.eqb c) enriched_columns) output_columns
  = output_columns.
Proof. vm_compute. reflexivity. Qed.

Lemma select_enriched rs :
  select (mkFrame enriched_columns rs) output_columns
  = Ok (mkFrame output_columns (map project rs)).
Proof.
  unfold select. cbn [columns rows].
  rewrite output_columns_present, output_columns_selected.
  unfold project. reflexivity.
Qed.

Lemma main_ran pbp_dict pbp_out player_out team_out :
  main pbp_dict = Ok (pbp_out, player_out, team_out)
  -> ran pbp_dict pbp_out player_out team_out.
Proof.
  unfold main. intros H. bind_inv H. destruct v as [[pbp pl] tm].
  apply convert_pbp_dict_converted in Hstep.
  destruct (converted_well_formed _ _ _ _ Hstep) as (Hwf & Hcols).
  bind_inv H. destruct v as [pbp5 pl5].
  apply (name_loop_inv _ "event_p1") in Hstep0; [| assumption].
  destruct Hstep0 as (Hok & -> & ->).
  bind_inv H. injection H as <- <- <-.
  fold player_id_columns in Hstep0.
  destruct (fold_left (enrich (directory pl)) player_id_columns pbp)
    as [cs rs] eqn:E.
  assert (cs = enriched_columns) as ->.
  { change cs with (columns (mkFrame cs rs)). rewrite <- E.
    rewrite enrich_fold_columns, Hcols. apply enriched_columns_eq. }
  rewrite select_enriched in Hstep0. injection Hstep0 as <-.
  replace rs with (rows (fold_left (enrich (directory pl)) player_id_columns pbp))
    by now rewrite E.
  now constructor.
Qed.

(** *** Rows of the enriched table *)

Lemma join_row_tails left_cols dir c l :
  join_row left_cols dir c "id" l
  = map (app l) (tails_of dir (row_get left_cols l c)).
Proof.
  unfold join_row, matches_of, tails_of.
  destruct (filter _ (rows dir)); reflexivity.
Qed.

Lemma tails_of_nonempty dir key : tails_of dir key <> [].
Proof.
  unfold tails_of. destruct (filter _ (rows dir)) eqn:E; discriminate.
Qed.

Lemma enrich_columns_prefix base extra c :
  Forall plain_label base ->
  exists extra', enrich_columns (base ++ extra) c = base ++ extra'.
Proof.
  intros Hplain. unfold enrich_columns.
  rewrite !map_app, <- app_assoc. eexists. f_equal.
  rewrite map_map. rewrite <- (map_id base) at 2.
  apply map_ext_in. intros x Hx. rewrite Forall_forall in Hplain.
  destruct (Hplain x Hx) as [Hid Hfn].
  unfold suffixed. cbn [has_column existsb].
  apply String.eqb_neq in Hid. apply String.eqb_neq in Hfn.
  rewrite Hid, Hfn. cbn [orb]. now rewrite Hfn.
Qed.

Lemma row_get_prefix base : forall extra r c,
  In c base -> (List.length base <= List.length r)%nat ->
  row_get (base ++ extra) r c = row_get base (firstn (List.length base) r) c.
Proof.
  induction base as [|c' base IH]; intros extra r c Hin Hlen; [destruct Hin |].
  destruct r as [|x r]; cbn [List.length] in Hlen; [lia |].
  cbn [app List.length firstn row_get].
  destruct (String.eqb_spec c c') as [-> | Hne]; [reflexivity |].
  apply IH; [| lia]. destruct Hin as [-> | Hin]; [contradiction | assumption].
Qed.

Lemma firstn_app_left {A} n (l t : list A) :
  (n <= List.length l)%nat -> firstn n (l ++ t) = firstn n l.
Proof.
  intros H. rewrite firstn_app.
  replace (n - List.length l)%nat with 0%nat by lia.
  cbn [firstn]. apply app_nil_r.
Qed.

Lemma enriched_rows dir base :
  Forall plain_label base ->
  forall cs extra rs r,
    (forall c, In c cs -> In c base) ->
    (forall r0, In r0 rs -> (List.length base <= List.length r0)%nat) ->
    (In r (rows (fold_left (enrich dir) cs (mkFrame (base ++ extra) rs)))
     <-> exists r0 ts,
        In r0 rs
        /\ extends dir base (firstn (List.length base) r0) cs ts
        /\ r = r0 ++ ts).
Proof.
  intros Hplain. induction cs as [|c cs IH]; intros extra rs r Hcs Hlen.
  - cbn [fold_left rows]. split.
    + intros Hin. exists r, []. rewrite app_nil_r.
      repeat split; [assumption | constructor].
    + intros (r0 & ts & Hin & Hext & ->). inversion Hext.
      now rewrite app_nil_r.
  - cbn [fold_left]. unfold enrich at 2. cbn [columns rows].
    destruct (enrich_columns_prefix base extra c Hplain) as (extra' & ->).
    rewrite IH; clear IH.
    + split.
      * intros (r1 & ts & Hin & Hext & ->).
        apply in_flat_map in Hin. destruct Hin as (r0 & Hr0 & Hin).
        rewrite join_row_tails, in_map_iff in Hin.
        destruct Hin as (t & <- & Ht).
        rewrite row_get_prefix in Ht by (auto using in_eq).
        rewrite firstn_app_left in Hext by auto.
        exists r0, (t ++ ts). rewrite app_assoc.
        repeat split; [assumption | now constructor].
      * intros (r0 & ts & Hin & Hext & ->).
        inversion Hext as [|? ? t ts' Ht Hext']; subst.
        exists (r0 ++ t), ts'. rewrite app_assoc.
        repeat split.
        -- apply in_flat_map. exists r0. split; [assumption |].
           rewrite join_row_tails, in_map_iff. exists t.
           split; [reflexivity |].
           rewrite row_get_prefix by (auto using in_eq). assumption.
        -- rewrite firstn_app_left by auto. assumption.
    + intros c' Hc'. apply Hcs. now right.
    + intros r1 Hin. apply in_flat_map in Hin.
      destruct Hin as (r0 & Hr0 & Hin).
      rewrite join_row_tails, in_map_iff in Hin.
      destruct Hin as (t & <- & _). rewrite length_app.
      specialize (Hlen r0 Hr0). lia.
Qed.

(** What the directory offers for a key: a matching player's identifier
    and full name, or two [NaN] when no player matches. *)
Lemma tails_directory pl key t :
  In t (tails_of (directory pl) key) ->
  (exists a p,
      key = Some a /\ In p (rows pl)
      /\ key_match a (id_cell (columns pl) p) = true
      /\ t = [id_cell (columns pl) p; full_name (columns pl) p])
  \/ ((forall a p, key = Some a -> In p (rows pl) ->
                   key_match a (id_cell (columns pl) p) = false)
      /\ t = [PyNaN; PyNaN]).
Proof.
  unfold tails_of.
  destruct (filter _ (rows (directory pl))) as [|m ms] eqn:E.
  - intros [<- | []]. right. split; [| reflexivity].
    intros a p -> Hp.
    assert (Hin : In [id_cell (columns pl) p; full_name (columns pl) p]
                     (rows (directory pl)))
      by (unfold directory; cbn [rows]; apply in_map_iff; exists p; now split).
    destruct (key_match a (id_cell (columns pl) p)) eqn:Hm; [| reflexivity].
    exfalso.
    assert (Hf : In [id_cell (columns pl) p; full_name (columns pl) p] [])
      by (rewrite <- E; apply filter_In; split; [assumption |];
          cbn; exact Hm).
    destruct Hf.
  - intros Hin. rewrite <- E in Hin. apply filter_In in Hin.
    destruct Hin as (Hin & Hm). left.
    unfold directory in Hin. cbn [rows] in Hin.
    apply in_map_iff in Hin. destruct Hin as (p & <- & Hp).
    destruct key as [a|]; [| discriminate].
    exists a, p. cbn in Hm. auto.
Qed.

(** *** Rows of the converted table *)

Lemma parse_plays_produces plays : forall parsed,
  parse_plays plays = Ok parsed ->
  Forall2 (fun play er => produces play er) plays parsed.
Proof.
  induction plays as [|play plays IH]; intros parsed H; cbn [parse_plays] in H.
  - injection H as <-. constructor.
  - bind_inv H. bind_inv H. injection H as <-.
    constructor; [now apply parse_play_produces | now apply IH].
Qed.

Lemma parse_plays_raise l1 play l2 e :
  (forall p, In p l1 -> exists er, parse_play p = Ok er) ->
  parse_play play = Raise e ->
  parse_plays (l1 ++ play :: l2) = Raise e.
Proof.
  intros Hok He. induction l1 as [|p l1 IH]; cbn [app parse_plays].
  - now rewrite He.
  - destruct (Hok p (in_eq _ _)) as (er & ->). cbn [bind].
    rewrite IH; [reflexivity |]. intros q Hq. apply Hok. now right.
Qed.

Lemma finish_row_cells h hid a aid c1 c2 c3 c4 c5 c6 c7 c8 c9 c10 c11 c12
      c13 c14 c15 c16 c17 c18 :
  finish_row h hid a aid
    [c1; c2; c3; c4; c5; c6; c7; c8; c9; c10; c11; c12; c13; c14; c15; c16;
     c17; c18]
  = [fill0 c1; fill0 c2; fill0 c3; fill0 c4; fill0 c5; fill0 c6; fill0 c7;
     fill0 c8; to_numeric_coerce (fill0 c9); to_numeric_coerce (fill0 c10);
     to_numeric_coerce (fill0 c11); fill0 c12; fill0 c13; fill0 c14;
     to_numeric_coerce (fill0 c15); to_numeric_coerce (fill0 c16);
     fill0 c17; fill0 c18; h; hid; a; aid].
Proof. reflexivity. Qed.

Lemma finish_row_length h hid a aid play er :
  produces play er ->
  List.length (finish_row h hid a aid er) = List.length pbp_columns.
Proof. intros H. destruct H. reflexivity. Qed.

(** Every row of the converted table is the finished event row of a play. *)
Lemma converted_rows d pbp pl tm :
  converted d pbp pl tm ->
  exists plays parsed h hid a aid,
    (exists pbp_list, d.["plays"] = Ok pbp_list /\ py_iter pbp_list = Ok plays)
    /\ Forall2 (fun play er => produces play er) plays parsed
    /\ loc tm 0 "name" = Ok h /\ loc tm 0 "team_id" = Ok hid
    /\ loc tm 1 "name" = Ok a /\ loc tm 1 "team_id" = Ok aid
    /\ columns pbp = pbp_columns
    /\ rows pbp = stable_sort row_key (map (finish_row h hid a aid) parsed)
    /\ forallb has_key (map (finish_row h hid a aid) parsed) = true.
Proof.
  intros H. destruct H.
  exists plays, parsed, home_name, home_id, away_name, away_id.
  repeat split; eauto using parse_plays_produces.
Qed.

Lemma Forall2_in_right {A B} (R : A -> B -> Prop) l l' y :
  Forall2 R l l' -> In y l' -> exists x, In x l /\ R x y.
Proof.
  induction 1 as [|x y' l l' Hxy HF IH]; intros Hin; [destruct Hin |].
  destruct Hin as [<- | Hin].
  - exists x. split; [now left | assumption].
  - destruct (IH Hin) as (x' & Hx' & HR). exists x'. split; [now right | assumption].
Qed.

Lemma sorted_row_origin h hid a aid plays parsed r :
  Forall2 (fun play er => produces play er) plays parsed ->
  In r (stable_sort row_key (map (finish_row h hid a aid) parsed)) ->
  exists play er,
    In play plays /\ produces play er /\ r = finish_row h hid a aid er.
Proof.
  intros HF Hin.
  apply (Permutation_in _ (stable_sort_perm row_key _)) in Hin.
  apply in_map_iff in Hin. destruct Hin as (er & <- & Her).
  destruct (Forall2_in_right _ _ _ _ HF Her) as (play & Hplay & Hp).
  eauto.
Qed.

(** The team cells of the table [convert_pbp_dict] returns. *)
Lemma team_cells_on_every_row (pbp_dict : pyval) (pbp_df player_df team_df : frame) :
  convert_pbp_dict pbp_dict = Ok (pbp_df, player_df, team_df) ->
  exists home_name home_id away_name away_id,
    loc team_df 0 "name" = Ok home_name
    /\ loc team_df 0 "team_id" = Ok home_id
    /\ loc team_df 1 "name" = Ok away_name
    /\ loc team_df 1 "team_id" = Ok away_id
    /\ forall r, In r (rows pbp_df) ->
         row_get (columns pbp_df) r "home_team" = Some home_name
         /\ row_get (columns pbp_df) r "home_team_id" = Some home_id
         /\ row_get (columns pbp_df) r "away_team" = Some away_name
         /\ row_get (columns pbp_df) r "away_team_id" = Some away_id.
Proof.
  intros H. apply convert_pbp_dict_converted in H.
  destruct (converted_rows _ _ _ _ H)
    as (plays & parsed & h & hid & a & aid & _ & HF & H1 & H2 & H3 & H4
        & Hcols & Hrows & _).
  exists h, hid, a, aid. repeat (split; [assumption |]).
  intros r Hin. rewrite Hrows in Hin. rewrite Hcols.
  destruct (sorted_row_origin _ _ _ _ _ _ _ HF Hin) as (play & er & _ & Hp & ->).
  destruct Hp. rewrite finish_row_cells. repeat split; reflexivity.
Qed.

(** *** Rows of the final play table *)

Lemma tails_offers pl key t :
  In t (tails_of (directory pl) key) ->
  exists i n, t = [i; n] /\ offers pl key i n.
Proof.
  intros H. apply tails_directory in H.
  destruct H as [(a & p & Hk & Hp & Hm & ->) | (Hno & ->)].
  - do 2 eexists. split; [reflexivity |]. left. exists a, p. auto.
  - do 2 eexists. split; [reflexivity |]. right. auto.
Qed.

Lemma extends_names pl l ts :
  extends (directory pl) pbp_columns l player_id_columns ts ->
  exists i1 n1 i2 n2 i3 n3 i4 n4 i5 n5,
    ts = [i1; n1; i2; n2; i3; n3; i4; n4; i5; n5]
    /\ offers pl (row_get pbp_columns l "event_p1") i1 n1
    /\ offers pl (row_get pbp_columns l "event_p2") i2 n2
    /\ offers pl (row_get pbp_columns l "event_p3") i3 n3
    /\ offers pl (row_get pbp_columns l "away_goalie") i4 n4
    /\ offers pl (row_get pbp_columns l "home_goalie") i5 n5.
Proof.
  unfold player_id_columns. intros H.
  inversion H as [|? ? t1 ts1 Ht1 H1]; subst; clear H.
  inversion H1 as [|? ? t2 ts2 Ht2 H2]; subst; clear H1.
  inversion H2 as [|? ? t3 ts3 Ht3 H3]; subst; clear H2.
  inversion H3 as [|? ? t4 ts4 Ht4 H4]; subst; clear H3.
  inversion H4 as [|? ? t5 ts5 Ht5 H5]; subst; clear H4.
  inversion H5; subst; clear H5.
  destruct (tails_offers _ _ _ Ht1) as (i1 & n1 & -> & O1).
  destruct (tails_offers _ _ _ Ht2) as (i2 & n2 & -> & O2).
  destruct (tails_offers _ _ _ Ht3) as (i3 & n3 & -> & O3).
  destruct (tails_offers _ _ _ Ht4) as (i4 & n4 & -> & O4).
  destruct (tails_offers _ _ _ Ht5) as (i5 & n5 & -> & O5).
  exists i1, n1, i2, n2, i3, n3, i4, n4, i5, n5. cbn [app]. auto 10.
Qed.


Lemma pbp_columns_plain : Forall plain_label pbp_columns.
Proof. repeat constructor; discriminate. Qed.

Lemma player_id_columns_present c : In c player_id_columns -> In c pbp_columns.
Proof.
  cbn. intros H.
  repeat (destruct H as [<- | H]; [auto 30 |]). destruct H.
Qed.

Lemma converted_row_length d pbp pl tm l :
  converted d pbp pl tm -> In l (rows pbp) ->
  List.length l = List.length pbp_columns.
Proof.
  intros H Hin.
  destruct (converted_rows _ _ _ _ H)
    as (plays & parsed & h & hid & a & aid & _ & HF & _ & _ & _ & _ & _ & Hrows & _).
  rewrite Hrows in Hin.
  destruct (sorted_row_origin _ _ _ _ _ _ _ HF Hin) as (play & er & _ & Hp & ->).
  now apply (finish_row_length _ _ _ _ play).
Qed.

(** The rows of the play table after the five joins. *)
Lemma enriched_table_rows d pbp0 pl0 tm r5 :
  converted d pbp0 pl0 tm ->
  In r5 (rows (fold_left (enrich (directory pl0)) player_id_columns pbp0))
  <-> exists l ts,
     In l (rows pbp0)
     /\ extends (directory pl0) pbp_columns l player_id_columns ts
     /\ r5 = l ++ ts.
Proof.
  intros Hc.
  destruct (converted_well_formed _ _ _ _ Hc) as (_ & Hcols).
  assert (Hlen : forall l, In l (rows pbp0) ->
                           List.length l = List.length pbp_columns)
    by (intros l; now apply (converted_row_length d pbp0 pl0 tm)).
  destruct pbp0 as [cs0 rs0]. cbn [columns rows] in *. subst cs0.
  pose proof (enriched_rows (directory pl0) pbp_columns pbp_columns_plain
                player_id_columns [] rs0 r5 player_id_columns_present) as HE.
  rewrite app_nil_r in HE. rewrite HE.
  - split; intros (l & ts & Hl & Hext & ->); exists l, ts;
      rewrite <- (Hlen l Hl), firstn_all in *; auto.
  - intros l Hl. rewrite (Hlen l Hl). lia.
Qed.

(** The rows [main] writes are the converted rows, each extended by the
    joins on the five identifier columns and then projected. *)
Lemma ran_rows d out pl_out tm :
  ran d out pl_out tm ->
  exists pbp0 pl0,
    converted d pbp0 pl0 tm
    /\ player_columns_ok pl0
    /\ pl_out = with_full_name pl0
    /\ columns out = output_columns
    /\ rows out
       = map project
             (rows (fold_left (enrich (directory pl0)) player_id_columns pbp0))
    /\ forall r,
        In r (rows out)
        <-> exists l ts,
          In l (rows pbp0)
          /\ extends (directory pl0) pbp_columns l player_id_columns ts
          /\ r = project (l ++ ts).
Proof.
  intros H. destruct H as [pbp0 pl0 tm Hc Hok].
  exists pbp0, pl0. repeat (split; [assumption || reflexivity |]).
  intros r. cbn [rows]. rewrite in_map_iff. split.
  - intros (r5 & <- & Hin). apply (enriched_table_rows d pbp0 pl0 tm) in Hin;
      [| assumption].
    destruct Hin as (l & ts & Hl & Hext & ->). eauto.
  - intros (l & ts & Hl & Hext & ->).
    exists (l ++ ts). split; [reflexivity |].
    apply (enriched_table_rows d pbp0 pl0 tm); eauto.
Qed.

(* ===================================================================== *)
(** ** Order of the play table *)
(* ===================================================================== *)

Lemma key_of_triple cols r :
  key_of cols sort_by r
  = match sort_triple cols r with
    | Some (p, s, i) => Some [p; s; i]
    | None => None
    end.
Proof.
  unfold key_of, sort_triple, number_at, sort_by. cbn [map all_some].
  destruct (row_get cols r "period") as [vp|]; [| reflexivity].
  destruct (num_of vp); [| reflexivity].
  destruct (row_get cols r "seconds_elapsed") as [vs|]; [| reflexivity].
  destruct (num_of vs); [| reflexivity].
  destruct (row_get cols r "event_index") as [vi|]; [| reflexivity].
  destruct (num_of vi); reflexivity.
Qed.

Lemma has_key_triple r :
  has_key r = true ->
  exists p s i, sort_triple pbp_columns r = Some (p, s, i)
                /\ row_key r = [p; s; i].
Proof.
  unfold has_key, row_key, key_or_nil. rewrite key_of_triple.
  destruct (sort_triple pbp_columns r) as [[[p s] i]|]; [| discriminate].
  intros _. exists p, s, i. auto.
Qed.

Lemma has_key_keyed l :
  forallb has_key l = true -> keyed row_key 3 l.
Proof.
  intros H. rewrite forallb_forall in H. apply Forall_forall.
  intros r Hr. destruct (has_key_triple r (H r Hr)) as (p & s & i & _ & ->).
  reflexivity.
Qed.

Lemma key_le_ordered r1 r2 :
  has_key r1 = true -> has_key r2 = true ->
  key_le row_key r1 r2 -> ordered pbp_columns r1 r2.
Proof.
  intros H1 H2 Hle.
  destruct (has_key_triple r1 H1) as (p & s & i & T1 & K1).
  destruct (has_key_triple r2 H2) as (p' & s' & i' & T2 & K2).
  unfold key_le in Hle. rewrite K1, K2 in Hle. apply lex_leb_triple in Hle.
  exists (p, s, i), (p', s', i'). auto.
Qed.

Lemma ordered_key_le r1 r2 :
  ordered pbp_columns r1 r2 -> key_le row_key r1 r2.
Proof.
  intros ([[p s] i] & [[p' s'] i'] & T1 & T2 & Hle).
  unfold key_le, row_key, key_or_nil. rewrite !key_of_triple, T1, T2.
  now apply lex_leb_triple.
Qed.

Lemma StronglySorted_impl_in {A} (R R' : A -> A -> Prop) l :
  (forall x y, In x l -> In y l -> R x y -> R' x y) ->
  StronglySorted R l -> StronglySorted R' l.
Proof.
  intros Himp Hs. induction Hs as [|x l Hs IH Hx]; constructor.
  - apply IH. intros a b Ha Hb. apply Himp; now right.
  - rewrite Forall_forall in *. intros y Hy.
    apply Himp; [now left | now right | now apply Hx].
Qed.

Lemma NoDup_map_compat {A B C} (f : A -> B) (g : A -> C) l :
  (forall x y, In x l -> In y l -> f x = f y -> g x = g y) ->
  NoDup (map g l) -> NoDup (map f l).
Proof.
  induction l as [|x l IH]; intros Hc Hnd; cbn [map] in *; [constructor |].
  inversion Hnd as [|? ? Hnin Hnd']; subst. constructor.
  - intros Hin. apply Hnin. apply in_map_iff in Hin.
    destruct Hin as (y & Hfy & Hy). apply in_map_iff. exists y.
    split; [| assumption]. apply Hc; [now right | now left | assumption].
  - apply IH; [| assumption]. intros a b Ha Hb. apply Hc; now right.
Qed.

Lemma unique_index_unique_key l :
  forallb has_key l = true ->
  NoDup (map index_number l) -> NoDup (map row_key l).
Proof.
  intros Hk. apply NoDup_map_compat. intros x y Hx Hy E.
  rewrite forallb_forall in Hk.
  destruct (has_key_triple x (Hk x Hx)) as (p & s & i & T1 & K1).
  destruct (has_key_triple y (Hk y Hy)) as (p' & s' & i' & T2 & K2).
  rewrite K1, K2 in E. injection E as -> -> ->.
  unfold index_number. unfold sort_triple in T1, T2.
  destruct (number_at pbp_columns x "period"); [| discriminate].
  destruct (number_at pbp_columns x "seconds_elapsed"); [| discriminate].
  destruct (number_at pbp_columns x "event_index"); [| discriminate].
  destruct (number_at pbp_columns y "period"); [| discriminate].
  destruct (number_at pbp_columns y "seconds_elapsed"); [| discriminate].
  destruct (number_at pbp_columns y "event_index"); [| discriminate].
  congruence.
Qed.

(** The table as [sort_values] leaves it. *)
Lemma sorted_table unsorted :
  forallb has_key unsorted = true ->
  Permutation (stable_sort row_key unsorted) unsorted
  /\ StronglySorted (ordered pbp_columns) (stable_sort row_key unsorted)
  /\ (forall k,
         filter (fun r => key_eqb (row_key r) k) (stable_sort row_key unsorted)
         = filter (fun r => key_eqb (row_key r) k) unsorted)
  /\ (NoDup (map index_number unsorted) ->
      forall l', Permutation l' unsorted ->
                 StronglySorted (ordered pbp_columns) l' ->
                 l' = stable_sort row_key unsorted).
Proof.
  intros Hk.
  pose proof (stable_sort_perm row_key unsorted) as Hperm.
  split; [assumption |]. split; [| split].
  - apply (StronglySorted_impl_in (key_le row_key)).
    + intros x y Hx Hy. rewrite forallb_forall in Hk.
      apply key_le_ordered; apply Hk; now apply (Permutation_in _ Hperm).
    + apply (stable_sort_sorted row_key 3). now apply has_key_keyed.
  - intros k. apply stable_sort_stable.
  - intros Hnd l' Hp Hs.
    apply (stable_sort_unique row_key 3).
    + now apply has_key_keyed.
    + now apply unique_index_unique_key.
    + assumption.
    + apply (StronglySorted_impl_in (ordered pbp_columns)); [| assumption].
      intros x y _ _. apply ordered_key_le.
Qed.

(** *** The joins keep the order *)

Lemma StronglySorted_app {A} (R : A -> A -> Prop) l1 l2 :
  StronglySorted R l1 -> StronglySorted R l2 ->
  (forall x y, In x l1 -> In y l2 -> R x y) ->
  StronglySorted R (l1 ++ l2).
Proof.
  intros H1 H2 Hx. induction H1 as [|a l1 H1 IH Ha]; cbn [app]; [assumption |].
  constructor.
  - apply IH. intros x y Hin. apply Hx. now right.
  - apply Forall_app. split; [assumption |].
    apply Forall_forall. intros y Hy. apply Hx; [now left | assumption].
Qed.

Lemma StronglySorted_all {A} (R : A -> A -> Prop) l :
  (forall x y, In x l -> In y l -> R x y) -> StronglySorted R l.
Proof.
  induction l as [|a l IH]; intros H; constructor.
  - apply IH. intros x y Hx Hy. apply H; now right.
  - apply Forall_forall. intros y Hy. apply H; [now left | now right].
Qed.

Lemma StronglySorted_map_in {A B} (R : A -> A -> Prop) (R' : B -> B -> Prop)
      (f : A -> B) l :
  (forall x y, In x l -> In y l -> R x y -> R' (f x) (f y)) ->
  StronglySorted R l -> StronglySorted R' (map f l).
Proof.
  intros Himp Hs. induction Hs as [|x l Hs IH Hx]; cbn [map]; constructor.
  - apply IH. intros a b Ha Hb. apply Himp; now right.
  - apply Forall_forall. intros y Hy. apply in_map_iff in Hy.
    destruct Hy as (b & <- & Hb). rewrite Forall_forall in Hx.
    apply Himp; [now left | now right | now apply Hx].
Qed.

Lemma ordered_base_app x y t t' :
  (List.length pbp_columns <= List.length x)%nat ->
  (List.length pbp_columns <= List.length y)%nat ->
  ordered_base x y -> ordered_base (x ++ t) (y ++ t').
Proof.
  intros Hx Hy. unfold ordered_base. now rewrite !firstn_app_left.
Qed.

Lemma join_keeps_order dir cols c rs :
  StronglySorted ordered_base rs -> Forall base_row rs ->
  StronglySorted ordered_base (flat_map (join_row cols dir c "id") rs)
  /\ Forall base_row (flat_map (join_row cols dir c "id") rs).
Proof.
  intros Hs. induction Hs as [|x rs Hs IH Hx]; intros Hb; cbn [flat_map].
  - split; constructor.
  - inversion Hb as [|? ? [Hxx Hlx] Hb']; subst.
    destruct (IH Hb') as (IHs & IHb).
    rewrite join_row_tails. split.
    + apply StronglySorted_app; [| assumption |].
      * apply StronglySorted_all. intros a b Ha Hb0.
        apply in_map_iff in Ha. destruct Ha as (t & <- & _).
        apply in_map_iff in Hb0. destruct Hb0 as (t' & <- & _).
        now apply ordered_base_app.
      * intros a b Ha Hb0.
        apply in_map_iff in Ha. destruct Ha as (t & <- & _).
        apply in_flat_map in Hb0. destruct Hb0 as (y & Hy & Hb0).
        rewrite join_row_tails in Hb0. apply in_map_iff in Hb0.
        destruct Hb0 as (t' & <- & _).
        rewrite Forall_forall in Hx, Hb'.
        apply ordered_base_app; [assumption | apply (Hb' y Hy) | now apply Hx].
    + apply Forall_app. split; [| assumption].
      apply Forall_forall. intros a Ha.
      apply in_map_iff in Ha. destruct Ha as (t & <- & _). split.
      * now apply ordered_base_app.
      * rewrite length_app. lia.
Qed.

Lemma joins_keep_order dir cs : forall df,
  StronglySorted ordered_base (rows df) -> Forall base_row (rows df) ->
  StronglySorted ordered_base (rows (fold_left (enrich dir) cs df))
  /\ Forall base_row (rows (fold_left (enrich dir) cs df)).
Proof.
  induction cs as [|c cs IH]; intros df Hs Hb; cbn [fold_left]; [auto |].
  apply IH; unfold enrich; cbn [rows]; now apply join_keeps_order.
Qed.

Lemma project_cells a1 a2 a3 a4 a5 a6 a7 a8 a9 a10 a11 a12 a13 a14 a15 a16
      a17 a18 a19 a20 a21 a22 i1 n1 i2 n2 i3 n3 i4 n4 i5 n5 :
  project [a1; a2; a3; a4; a5; a6; a7; a8; a9; a10; a11; a12; a13; a14; a15;
           a16; a17; a18; a19; a20; a21; a22;
           i1; n1; i2; n2; i3; n3; i4; n4; i5; n5]
  = [a1; a2; a3; a4; a5; a6; a7; a8; a9; n1; a10; n2; a11; n3; a12; a13; a14;
     a15; n4; a16; n5; a17; a18; a20; a19; a22; a21].
Proof. reflexivity. Qed.

Lemma converted_unique d pbp pl tm pbp' pl' tm' :
  converted d pbp pl tm -> converted d pbp' pl' tm' ->
  pbp' = pbp /\ pl' = pl /\ tm' = tm.
Proof.
  intros H H'. apply convert_pbp_dict_converted in H, H'.
  rewrite H in H'. injection H' as <- <- <-. auto.
Qed.

(** A row of the final table: a converted row [l] and, for each of the
    five identifier columns, what the directory offers for its key. *)
Lemma final_row d pbp0 pl0 out pl_out tm r :
  convert_pbp_dict d = Ok (pbp0, pl0, tm) ->
  main d = Ok (out, pl_out, tm) ->
  In r (rows out) ->
  exists l i1 n1 i2 n2 i3 n3 i4 n4 i5 n5,
    In l (rows pbp0)
    /\ offers pl0 (row_get pbp_columns l "event_p1") i1 n1
    /\ offers pl0 (row_get pbp_columns l "event_p2") i2 n2
    /\ offers pl0 (row_get pbp_columns l "event_p3") i3 n3
    /\ offers pl0 (row_get pbp_columns l "away_goalie") i4 n4
    /\ offers pl0 (row_get pbp_columns l "home_goalie") i5 n5
    /\ r = project (l ++ [i1; n1; i2; n2; i3; n3; i4; n4; i5; n5]).
Proof.
  intros Hc Hm Hin. apply convert_pbp_dict_converted in Hc.
  apply main_ran, ran_rows in Hm.
  destruct Hm as (pbp & pl & Hc' & _ & _ & _ & _ & Hrows).
  destruct (converted_unique _ _ _ _ _ _ _ Hc Hc') as (-> & -> & _).
  apply Hrows in Hin. destruct Hin as (l & ts & Hl & Hext & ->).
  apply extends_names in Hext.
  destruct Hext as (i1 & n1 & i2 & n2 & i3 & n3 & i4 & n4 & i5 & n5
                    & -> & O1 & O2 & O3 & O4 & O5).
  exists l, i1, n1, i2, n2, i3, n3, i4, n4, i5, n5. auto 10.
Qed.

Lemma main_converts d out pl_out tm :
  main d = Ok (out, pl_out, tm) ->
  exists pbp0 pl0,
    convert_pbp_dict d = Ok (pbp0, pl0, tm)
    /\ player_columns_ok pl0
    /\ pl_out = with_full_name pl0
    /\ columns out = output_columns.
Proof.
  intros Hm. apply main_ran, ran_rows in Hm.
  destruct Hm as (pbp & pl & Hc & Hok & -> & Hcols & _ & _).
  exists pbp, pl. split; [now apply convert_pbp_dict_converted | auto].
Qed.

(** A converted row, cell by cell. *)
Lemma converted_row_cells d pbp pl tm l :
  convert_pbp_dict d = Ok (pbp, pl, tm) -> In l (rows pbp) ->
  exists h hid a aid play c1 c2 c3 c4 c5 c6 c7 c8 c9 c10 c11 c12 c13 c14 c15
         c16 c17 c18,
    loc tm 0 "name" = Ok h /\ loc tm 0 "team_id" = Ok hid
    /\ loc tm 1 "name" = Ok a /\ loc tm 1 "team_id" = Ok aid
    /\ produces play [c1; c2; c3; c4; c5; c6; c7; c8; c9; c10; c11; c12; c13;
                      c14; c15; c16; c17; c18]
    /\ l = [fill0 c1; fill0 c2; fill0 c3; fill0 c4; fill0 c5; fill0 c6;
            fill0 c7; fill0 c8; to_numeric_coerce (fill0 c9);
            to_numeric_coerce (fill0 c10); to_numeric_coerce (fill0 c11);
            fill0 c12; fill0 c13; fill0 c14; to_numeric_coerce (fill0 c15);
            to_numeric_coerce (fill0 c16); fill0 c17; fill0 c18;
            h; hid; a; aid].
Proof.
  intros Hc Hin. apply convert_pbp_dict_converted in Hc.
  destruct (converted_rows _ _ _ _ Hc)
    as (plays & parsed & h & hid & a & aid & _ & HF & H1 & H2 & H3 & H4
        & _ & Hrows & _).
  rewrite Hrows in Hin.
  destruct (sorted_row_origin _ _ _ _ _ _ _ HF Hin) as (play & er & _ & Hp & ->).
  exists h, hid, a, aid, play.
  destruct Hp as [c1 cr c2 c3 c4 c5 c6 c7 c8 c9 c10 c11 c12 c13 c14 c15 c16
                    c17 c18 P1 P2 P3 P4 P5 P6 P7 P8 P9 P10 P11 P12 P13 P14
                    P15 P16 P17].
  exists c1, c2, c3, c4, c5, c6, c7, c8, c9, c10, c11, c12, c13, c14, c15,
    c16, c17, c18.
  repeat (split; [assumption |]). split.
  - econstructor; eassumption.
  - apply finish_row_cells.
Qed.

(** C8.  The team cells of every play row are those of the team table:
    [home_team] and [home_team_id] come from row 0, [away_team] and
    [away_team_id] from row 1 (with a two-row team table in particular).
    This holds for the table [convert_pbp_dict] returns and for the play
    table [main] writes. *)
Theorem team_cells_broadcast (pbp_dict : pyval) (pbp_df player_df team_df : frame) :
  convert_pbp_dict pbp_dict = Ok (pbp_df, player_df, team_df) ->
  exists home_name home_id away_name away_id,
    loc team_df 0 "name" = Ok home_name
    /\ loc team_df 0 "team_id" = Ok home_id
    /\ loc team_df 1 "name" = Ok away_name
    /\ loc team_df 1 "team_id" = Ok away_id
    /\ (forall r, In r (rows pbp_df) ->
          row_get (columns pbp_df) r "home_team" = Some home_name
          /\ row_get (columns pbp_df) r "home_team_id" = Some home_id
          /\ row_get (columns pbp_df) r "away_team" = Some away_name
          /\ row_get (columns pbp_df) r "away_team_id" = Some away_id)
    /\ (forall out player_out r,
          main pbp_dict = Ok (out, player_out, team_df) ->
          In r (rows out) ->
          row_get (columns out) r "home_team" = Some home_name
          /\ row_get (columns out) r "home_team_id" = Some home_id
          /\ row_get (columns out) r "away_team" = Some away_name
          /\ row_get (columns out) r "away_team_id" = Some away_id).
Proof.
  intros Hc.
  destruct (team_cells_on_every_row _ _ _ _ Hc)
    as (h & hid & a & aid & H1 & H2 & H3 & H4 & Hrows).
  exists h, hid, a, aid. repeat (split; [assumption |]).
  intros out player_out r Hm Hin.
  destruct (main_converts _ _ _ _ Hm) as (pbp' & pl' & Hc' & _ & _ & ->).
  rewrite Hc in Hc'. injection Hc' as <- <-.
  destruct (final_row _ _ _ _ _ _ _ Hc Hm Hin)
    as (l & i1 & n1 & i2 & n2 & i3 & n3 & i4 & n4 & i5 & n5 & Hl & _ & _ & _
        & _ & _ & ->).
  destruct (converted_row_cells _ _ _ _ _ Hc Hl)
    as (h' & hid' & a' & aid' & play & c1 & c2 & c3 & c4 & c5 & c6 & c7 & c8
        & c9 & c10 & c11 & c12 & c13 & c14 & c15 & c16 & c17 & c18
        & H1' & H2' & H3' & H4' & _ & ->).
  cbn [app]. rewrite project_cells.
  replace h' with h by congruence. replace hid' with hid by congruence.
  replace a' with a by congruence. replace aid' with aid by congruence.
  repeat split; reflexivity.
Qed.

Lemma team_cells_broadcast_witness :
  Forall (fun r =>
            row_get (columns Samples.pbp_written) r "home_team"
            = Some (PyStr "Whale")
            /\ row_get (columns Samples.pbp_written) r "home_team_id"
               = Some (PyInt 7)
            /\ row_get (columns Samples.pbp_written) r "away_team"
               = Some (PyStr "Riveters")
            /\ row_get (columns Samples.pbp_written) r "away_team_id"
               = Some (PyInt 8))
         (rows Samples.pbp_written).
Proof.
  destruct (team_cells_broadcast _ _ _ _ game_converts)
    as (h & hid & a & aid & H1 & H2 & H3 & H4 & _ & Hout).
  vm_compute in H1, H2, H3, H4.
  injection H1 as <-. injection H2 as <-. injection H3 as <-. injection H4 as <-.
  apply Forall_forall. intros r. apply (Hout _ _ r game_runs).
Defined.

Lemma triple_le_refl t : triple_le t t.
Proof. destruct t as [[p s] i]. cbn. right. split; [reflexivity |]. right. split; [reflexivity | lia]. Qed.

Lemma ordered_refl cols r t : sort_triple cols r = Some t -> ordered cols r r.
Proof. intros H. exists t, t. auto using triple_le_refl. Qed.

(** The joined and projected row sorts like the converted row it extends. *)
Lemma project_triple d pbp0 pl0 tm x :
  convert_pbp_dict d = Ok (pbp0, pl0, tm) ->
  In x (rows (fold_left (enrich (directory pl0)) player_id_columns pbp0)) ->
  sort_triple output_columns (project x)
  = sort_triple pbp_columns (firstn (List.length pbp_columns) x).
Proof.
  intros Hc Hin.
  apply (enriched_table_rows d pbp0 pl0 tm) in Hin;
    [| now apply convert_pbp_dict_converted].
  destruct Hin as (l & ts & Hl & Hext & ->).
  apply extends_names in Hext.
  destruct Hext as (i1 & n1 & i2 & n2 & i3 & n3 & i4 & n4 & i5 & n5
                    & -> & _).
  destruct (converted_row_cells _ _ _ _ _ Hc Hl)
    as (h & hid & a & aid & play & c1 & c2 & c3 & c4 & c5 & c6 & c7 & c8
        & c9 & c10 & c11 & c12 & c13 & c14 & c15 & c16 & c17 & c18
        & _ & _ & _ & _ & _ & ->).
  cbn [app]. rewrite project_cells. reflexivity.
Qed.

(** C7.  [sort_values] leaves the play table in ascending
    [(period, seconds_elapsed, event_index)] order: the rows are those of
    the table before the sort, each pair in order; rows with one key keep
    the order they had (stability); and when the event indices are pairwise
    distinct, the sorted table is the only ordered arrangement of those
    rows.  The joins and the column selection of [main] keep the order, so
    the play table written out is sorted too. *)
Theorem play_table_sorted (pbp_dict : pyval) (pbp_df player_df team_df : frame) :
  convert_pbp_dict pbp_dict = Ok (pbp_df, player_df, team_df) ->
  exists plays parsed h hid a aid,
    (exists pbp_list,
        pbp_dict.["plays"] = Ok pbp_list /\ py_iter pbp_list = Ok plays)
    /\ parse_plays plays = Ok parsed
    /\ let unsorted := map (finish_row h hid a aid) parsed in
       Permutation (rows pbp_df) unsorted
       /\ StronglySorted (ordered (columns pbp_df)) (rows pbp_df)
       /\ (forall k,
              filter (fun r => key_eqb (row_key r) k) (rows pbp_df)
              = filter (fun r => key_eqb (row_key r) k) unsorted)
       /\ (NoDup (map index_number unsorted) ->
           forall arranged,
             Permutation arranged unsorted ->
             StronglySorted (ordered (columns pbp_df)) arranged ->
             arranged = rows pbp_df)
       /\ (forall out player_out,
              main pbp_dict = Ok (out, player_out, team_df) ->
              StronglySorted (ordered (columns out)) (rows out)).
Proof.
  intros Hc. pose proof Hc as Hconv. apply convert_pbp_dict_converted in Hconv.
  destruct Hconv as [roster pl teams tm pbp_list plays parsed h hid a aid
                       R1 R2 R3 R4 R5 R6 R7 L1 L2 L3 L4 Hkeys].
  exists plays, parsed, h, hid, a, aid.
  split; [eauto |]. split; [assumption |].
  cbn zeta. cbn [columns rows].
  destruct (sorted_table _ Hkeys) as (Hperm & Hsorted & Hstable & Hunique).
  repeat (split; [assumption |]).
  intros out player_out Hm.
  apply main_ran, ran_rows in Hm.
  destruct Hm as (pbp0 & pl0 & Hc0 & _ & _ & -> & -> & _).
  assert (Hc0' := Hc0). apply convert_pbp_dict_converted in Hc0'.
  rewrite Hc in Hc0'. injection Hc0' as <- <-.
  assert (Hbase : forall l,
             In l (stable_sort row_key (map (finish_row h hid a aid) parsed)) ->
             firstn (List.length pbp_columns) l = l /\ has_key l = true).
  { intros l Hl. split.
    - rewrite <- (converted_row_length _ _ _ _ l Hc0 Hl). apply firstn_all.
    - rewrite forallb_forall in Hkeys. apply Hkeys.
      now apply (Permutation_in _ Hperm). }
  destruct (joins_keep_order (directory pl) player_id_columns
              (mkFrame pbp_columns
                 (stable_sort row_key (map (finish_row h hid a aid) parsed))))
    as (Hs5 & _).
  - cbn [rows]. apply (StronglySorted_impl_in (ordered pbp_columns));
      [| assumption].
    intros x y Hx Hy Hxy. unfold ordered_base.
    now rewrite (proj1 (Hbase x Hx)), (proj1 (Hbase y Hy)).
  - cbn [rows]. apply Forall_forall. intros l Hl.
    destruct (Hbase l Hl) as (Hfirst & Hkey). split.
    + unfold ordered_base. rewrite Hfirst.
      destruct (has_key_triple l Hkey) as (p & s & i & T & _).
      now apply (ordered_refl _ _ (p, s, i)).
    + rewrite <- (converted_row_length _ _ _ _ l Hc0 Hl). lia.
  - apply (StronglySorted_map_in ordered_base); [| exact Hs5].
    intros x y Hx Hy (t1 & t2 & T1 & T2 & Hle).
    exists t1, t2.
    rewrite !(project_triple _ _ _ _ _ Hc) by assumption. auto.
Qed.

Lemma play_table_sorted_witness :
  StronglySorted (ordered (columns Samples.pbp_table)) (rows Samples.pbp_table)
  /\ StronglySorted (ordered (columns Samples.pbp_written))
                    (rows Samples.pbp_written).
Proof.
  destruct (play_table_sorted _ _ _ _ game_converts)
    as (plays & parsed & h & hid & a & aid & _ & _ & _ & Hs & _ & _ & Hout).
  split; [exact Hs | exact (Hout _ _ game_runs)].
Defined.

(* ===================================================================== *)
(** ** The left joins *)
(* ===================================================================== *)

Lemma join_keeps_count dir cols c rs :
  (List.length rs <= List.length (flat_map (join_row cols dir c "id") rs))%nat.
Proof.
  induction rs as [|x rs IH]; cbn [flat_map List.length]; [lia |].
  rewrite length_app, join_row_tails, length_map.
  destruct (tails_of dir (row_get cols x c)) eqn:E.
  - now destruct (tails_of_nonempty dir (row_get cols x c)).
  - cbn [List.length]. lia.
Qed.






(* ===================================================================== *)
(** ** The player table written out *)
(* ===================================================================== *)

(** C9, amended.  The player table [main] writes is the table read
    from [roster_player] with the column [full_name] assigned by
    [pull_player_names]: appended when the source has no such column,
    overwritten when it has one.  Every other column keeps its label, its
    place and its cells, and no row is added or removed. *)
Theorem player_file_gains_full_name (pbp_dict : pyval)
        (out player_out team_df : frame) :
  main pbp_dict = Ok (out, player_out, team_df) ->
  exists roster raw,
    pbp_dict.["roster_player"] = Ok roster
    /\ from_dict roster = Ok raw
    /\ player_out = with_full_name raw
    /\ columns player_out
       = (if has_column "full_name" (columns raw) then columns raw
          else columns raw ++ ["full_name"])
    /\ rows player_out = map (named_row raw) (rows raw)
    /\ (forall p, In p (rows raw) ->
          row_get (columns player_out) (named_row raw p) "full_name"
          = Some (full_name (columns raw) p)
          /\ forall c, String.eqb c "full_name" = false ->
               row_get (columns player_out) (named_row raw p) c
               = row_get (columns raw) p c).
Proof.
  intros Hm. apply main_ran, ran_rows in Hm.
  destruct Hm as (pbp0 & pl0 & Hc & _ & -> & _).
  assert (Hwf : well_formed pl0) by (destruct Hc; eapply from_dict_well_formed; eassumption).
  destruct Hc as [roster pl teams tm pbp_list plays parsed h hid a aid R1 R2].
  exists roster, pl. repeat (split; [assumption || reflexivity |]).
  split; [apply with_full_name_columns |].
  split; [apply with_full_name_rows |].
  intros p Hp. destruct Hwf as [_ Hlen]. rewrite Forall_forall in Hlen.
  split.
  - apply named_row_get_full. now apply Hlen.
  - intros c Hne. apply named_row_get_other; [now apply Hlen | assumption].
Qed.

Lemma player_file_gains_full_name_witness :
  Samples.player_written = with_full_name Samples.player_table
  /\ columns Samples.player_written
     = columns Samples.player_table ++ ["full_name"].
Proof.
  destruct (player_file_gains_full_name _ _ _ _ game_runs)
    as (roster & raw & R1 & R2 & Hpl & Hcols & _).
  vm_compute in R1. injection R1 as <-.
  vm_compute in R2. injection R2 as <-.
  split; [exact Hpl | exact Hcols].
Defined.

(** The sample game: the roster has three columns, the player table
    written out has four. *)
Lemma player_file_not_raw :
  match main (Samples.game [Samples.goal; Samples.faceoff]),
        from_dict Samples.roster with
  | Ok (_, player_out, _), Ok raw =>
      columns raw = ["id"; "first_name"; "last_name"]
      /\ columns player_out = ["id"; "first_name"; "last_name"; "full_name"]
      /\ columns player_out <> columns raw
  | _, _ => False
  end.
Proof. vm_compute. repeat split; discriminate. Qed.

(* ===================================================================== *)
(** ** Clocks that cannot be read *)
(* ===================================================================== *)

(** The same play with another clock value: every step but the clock cell
    and the elapsed seconds is unchanged. *)
Lemma clock_replaced d clock row secs' :
  produces (PyDict d) row ->
  seconds_elapsed (PyDict (dict_set "clock_time_string" clock d)) = Ok secs' ->
  produces (PyDict (dict_set "clock_time_string" clock d))
           (row_update cols (row_update cols row "time" (fun _ => clock))
                       "seconds_elapsed" (fun _ => secs')).
Proof.
  intros H Hs. destruct H. cbn [row_update cols String.eqb Ascii.eqb Bool.eqb].
  econstructor;
    try (rewrite getitem_set_other by reflexivity; eassumption);
    try (apply getitem_set_same);
    try exact Hs;
    try eassumption;
    (etransitivity; [| eassumption]; untouched).
Qed.

Lemma seconds_elapsed_by_clock d clock play_type :
  ends_time_interval (PyDict d) = Ok false ->
  (PyDict d).["play_type"] = Ok play_type ->
  py_eq_str play_type "Shootout" = false ->
  seconds_elapsed (PyDict (dict_set "clock_time_string" clock d))
  = clock_seconds (PyDict (dict_set "clock_time_string" clock d)).
Proof.
  intros He Hpt Hns. unfold seconds_elapsed.
  replace (ends_time_interval (PyDict (dict_set "clock_time_string" clock d)))
    with (ends_time_interval (PyDict d)) by (symmetry; untouched).
  rewrite He. cbn [bind]. rewrite getitem_set_other by reflexivity.
  rewrite Hpt. cbn [bind]. now rewrite Hns.
Qed.

Lemma clock_raise_aborts_row d clock row e :
  produces (PyDict d) row ->
  seconds_elapsed (PyDict (dict_set "clock_time_string" clock d)) = Raise e ->
  parse_play (PyDict (dict_set "clock_time_string" clock d)) = Raise e.
Proof.
  intros H Hs. destruct H. unfold parse_play.
  rewrite (getitem_set_other _ "play_index") by reflexivity.
  rewrite H. cbn [bind].
  rewrite (getitem_set_other _ "created_at") by reflexivity.
  rewrite H0. cbn [bind]. rewrite H1. cbn [bind].
  rewrite getitem_set_same. cbn [bind]. rewrite Hs. reflexivity.
Qed.

(** C4, amended.  Take a play that converts, carries no period-end
    tag and is not a shootout, and give it another clock.  With a clock
    that is not a string (null in particular) the [AttributeError] of
    [split] is swallowed: the row is still produced, with that clock in
    [time], 0 in [seconds_elapsed] and every other cell unchanged.  With a
    string clock the elapsed seconds are what the [try] block computes, and
    whatever it raises (a [ValueError] from [int], an [IndexError] for a
    missing second part) is not caught: no row is produced and the loop
    ends there. *)
Theorem clock_defects (d : list (string * pyval)) (row : list pyval)
        (play_type : pyval) :
  parse_play (PyDict d) = Ok row ->
  ends_time_interval (PyDict d) = Ok false ->
  (PyDict d).["play_type"] = Ok play_type ->
  py_eq_str play_type "Shootout" = false ->
  (forall clock,
      (forall s, clock <> PyStr s) ->
      parse_play (PyDict (dict_set "clock_time_string" clock d))
      = Ok (row_update cols (row_update cols row "time" (fun _ => clock))
                       "seconds_elapsed" (fun _ => PyInt 0)))
  /\ (forall s e,
        clock_seconds (PyDict (dict_set "clock_time_string" (PyStr s) d)) = Raise e ->
        e <> AttributeError
        /\ parse_play (PyDict (dict_set "clock_time_string" (PyStr s) d)) = Raise e
        /\ forall before after,
             (forall p, In p before -> exists er, parse_play p = Ok er) ->
             parse_plays (before
                            ++ PyDict (dict_set "clock_time_string" (PyStr s) d)
                            :: after)
             = Raise e).
Proof.
  intros Hrow He Hpt Hns. apply parse_play_produces in Hrow. split.
  - intros clock Hclock. apply parse_play_produces.
    apply clock_replaced; [assumption |].
    rewrite (seconds_elapsed_by_clock d clock play_type) by assumption.
    now apply clock_seconds_not_string.
  - intros s e Hraise.
    assert (Hp : parse_play (PyDict (dict_set "clock_time_string" (PyStr s) d))
                 = Raise e).
    { apply (clock_raise_aborts_row d (PyStr s) row); [assumption |].
      now rewrite (seconds_elapsed_by_clock d (PyStr s) play_type). }
    split; [| split; [exact Hp |]].
    + intros ->. unfold clock_seconds, try_except in Hraise.
      destruct (_ <- _ ;; _) as [v|e'] in Hraise; [discriminate |].
      destruct e'; cbn [exn_eqb] in Hraise; discriminate.
    + intros before after Hok. now apply parse_plays_raise.
Qed.

Lemma clock_defects_witness :
  parse_play (PyDict (dict_set "clock_time_string" PyNone Samples.faceoff_fields))
  = Ok (row_update cols
          (row_update cols Samples.faceoff_row "time" (fun _ => PyNone))
          "seconds_elapsed" (fun _ => PyInt 0)).
Proof.
  refine (proj1 (clock_defects Samples.faceoff_fields Samples.faceoff_row
                               (PyStr "Faceoff") eq_refl eq_refl eq_refl eq_refl)
                PyNone _).
  intros s. discriminate.
Defined.

(** The faceoff of the sample game with an unreadable clock: the
    conversion raises, for the play and for the whole run. *)
Lemma unreadable_clock_aborts :
  ends_time_interval (Samples.faceoff_at (PyStr "ab:cd") [Samples.first_action])
  = Ok false
  /\ parse_play (Samples.faceoff_at (PyStr "ab:cd") [Samples.first_action])
     = Raise ValueError
  /\ parse_play (Samples.faceoff_at (PyStr "0523") [Samples.first_action])
     = Raise IndexError
  /\ convert_pbp_dict
       (Samples.game [Samples.goal;
                      Samples.faceoff_at (PyStr "ab:cd") [Samples.first_action]])
     = Raise ValueError
  /\ main (Samples.game [Samples.goal;
                         Samples.faceoff_at (PyStr "ab:cd") [Samples.first_action]])
     = Raise ValueError.
Proof. repeat split; reflexivity. Qed.

(* ===================================================================== *)
(** ** Defects a run survives *)
(* ===================================================================== *)

Lemma name_loop_enrich cs : forall c pbp pl,
  well_formed pl -> player_columns_ok pl ->
  columns_present (c :: cs) (columns pbp) = true ->
  name_loop (c :: cs) pbp pl
  = Ok (fold_left (enrich (directory pl)) (c :: cs) pbp, with_full_name pl).
Proof.
  induction cs as [|c2 cs IH]; intros c pbp pl Hwf Hok Hp;
    cbn [columns_present] in Hp; apply andb_true_iff in Hp;
    destruct Hp as (Hc & Hrest).
  - cbn [name_loop]. rewrite pull_player_names_enrich by assumption.
    reflexivity.
  - change (name_loop (c :: c2 :: cs) pbp pl)
      with (st <- pull_player_names pbp pl c ;;
            name_loop (c2 :: cs) (fst st) (snd st)).
    rewrite pull_player_names_enrich by assumption. cbn [bind fst snd].
    rewrite IH.
    + rewrite with_full_name_idempotent, directory_with_full_name by assumption.
      reflexivity.
    + now apply with_full_name_well_formed.
    + now apply player_columns_ok_named.
    + exact Hrest.
Qed.

Lemma id_columns_present :
  columns_present player_id_columns pbp_columns = true.
Proof. vm_compute. reflexivity. Qed.

Lemma ran_main d out pl_out tm :
  ran d out pl_out tm -> main d = Ok (out, pl_out, tm).
Proof.
  intros H. destruct H as [pbp0 pl0 tm Hc Hok].
  destruct (converted_well_formed _ _ _ _ Hc) as (Hwf & Hcols).
  unfold main. apply convert_pbp_dict_converted in Hc. rewrite Hc.
  cbn [bind]. unfold player_id_columns at 1.
  rewrite name_loop_enrich;
    [| assumption | assumption | rewrite Hcols; apply id_columns_present].
  cbn [bind]. fold player_id_columns.
  destruct (fold_left (enrich (directory pl0)) player_id_columns pbp0)
    as [cs rs] eqn:E.
  assert (cs = enriched_columns) as ->.
  { change cs with (columns (mkFrame cs rs)). rewrite <- E.
    rewrite enrich_fold_columns, Hcols. apply enriched_columns_eq. }
  rewrite select_enriched. reflexivity.
Qed.

Lemma parse_plays_app l1 : forall l2 parsed,
  parse_plays (l1 ++ l2) = Ok parsed
  <-> exists p1 p2,
     parse_plays l1 = Ok p1 /\ parse_plays l2 = Ok p2 /\ parsed = p1 ++ p2.
Proof.
  induction l1 as [|x l1 IH]; intros l2 parsed; cbn [app parse_plays].
  - split.
    + intros H. exists [], parsed. auto.
    + intros (p1 & p2 & [= <-] & H2 & ->). exact H2.
  - split.
    + intros H. bind_inv H. bind_inv H. injection H as <-.
      apply IH in Hstep0. destruct Hstep0 as (p1 & p2 & H1 & H2 & ->).
      exists (v :: p1), p2. rewrite Hstep, H1. auto.
    + intros (p1 & p2 & H1 & H2 & ->).
      bind_inv H1. bind_inv H1. injection H1 as <-.
      rewrite Hstep. cbn [bind].
      rewrite (proj2 (IH l2 (v0 ++ p2))) by eauto. reflexivity.
Qed.

Lemma fill0_sentinel_number c c' :
  kept_or_sentinel c c' ->
  num_of (fill0 c) <> None -> num_of (fill0 c') <> None.
Proof.
  intros [-> | [-> | ->]]; [auto | discriminate | discriminate].
Qed.

Lemma has_key_number_cells h hid a aid c1 c2 c3 c4 c5 c6 c7 c8 c9 c10 c11
      c12 c13 c14 c15 c16 c17 c18 :
  has_key (finish_row h hid a aid
             [c1; c2; c3; c4; c5; c6; c7; c8; c9; c10; c11; c12; c13; c14;
              c15; c16; c17; c18]) = true
  <-> num_of (fill0 c8) <> None /\ num_of (fill0 c4) <> None
      /\ num_of (fill0 c1) <> None.
Proof.
  rewrite finish_row_cells. unfold has_key, key_of, sort_by.
  cbn [map row_get pbp_columns cols team_columns app String.eqb Ascii.eqb
       Bool.eqb all_some].
  destruct (num_of (fill0 c8)), (num_of (fill0 c4)), (num_of (fill0 c1));
    cbn [all_some option_map]; split; try discriminate; intuition congruence.
Qed.

Lemma has_key_absorbed h hid a aid play play' er er' :
  produces play er -> produces play' er' ->
  Forall2 kept_or_sentinel er er' ->
  has_key (finish_row h hid a aid er) = true ->
  has_key (finish_row h hid a aid er') = true.
Proof.
  intros Hp Hp' HF. destruct Hp, Hp'.
  repeat match goal with
         | H : Forall2 _ (_ :: _) (_ :: _) |- _ =>
             let K := fresh "K" in
             inversion H as [|? ? ? ? K ?]; subst; clear H
         end.
  rewrite !has_key_number_cells. intros (Np & Ns & Ni).
  repeat split; eapply fill0_sentinel_number; eassumption.
Qed.

Lemma converted_replace_play d pbp pl tm before play after play' :
  converted (PyDict d) pbp pl tm ->
  dict_get "plays" d = Some (PyList (before ++ play :: after)) ->
  soft_defect play play' ->
  exists row row' pbp',
    parse_play play = Ok row /\ parse_play play' = Ok row'
    /\ Forall2 kept_or_sentinel row row'
    /\ converted (PyDict (dict_set "plays" (PyList (before ++ play' :: after)) d))
                 pbp' pl tm.
Proof.
  intros Hc Hplays Hdefect.
  destruct Hc as [roster pl teams tm pbp_list plays parsed h hid a aid
                    R1 R2 R3 R4 R5 R6 R7 L1 L2 L3 L4 Hkeys].
  apply getitem_dict in R5. rewrite Hplays in R5. injection R5 as <-.
  cbn [py_iter] in R6. injection R6 as <-.
  apply parse_plays_app in R7. destruct R7 as (p1 & p2' & P1 & P2 & ->).
  cbn [parse_plays] in P2. bind_inv P2. bind_inv P2. injection P2 as <-.
  rename v into er, v0 into p2.
  destruct (soft_defect_row _ _ _ Hdefect Hstep) as (er' & Her' & HF).
  exists er, er'.
  exists (mkFrame pbp_columns
            (stable_sort row_key
               (map (finish_row h hid a aid) (p1 ++ er' :: p2)))).
  repeat (split; [assumption |]).
  econstructor.
  - rewrite getitem_set_other by reflexivity. exact R1.
  - exact R2.
  - rewrite getitem_set_other by reflexivity. exact R3.
  - exact R4.
  - apply getitem_set_same.
  - reflexivity.
  - apply parse_plays_app. exists p1, (er' :: p2).
    split; [assumption |]. split; [| reflexivity].
    cbn [parse_plays]. rewrite Her', Hstep0. reflexivity.
  - exact L1.
  - exact L2.
  - exact L3.
  - exact L4.
  - rewrite map_app, forallb_app in *. cbn [map forallb] in *.
    apply andb_true_iff in Hkeys. destruct Hkeys as (K1 & K2).
    apply andb_true_iff in K2. destruct K2 as (K2 & K3).
    rewrite K1, K3, andb_true_r. cbn [andb].
    apply (has_key_absorbed h hid a aid play play' er er');
      try assumption; now apply parse_play_produces.
Qed.

(** C5, amended.  In a run that succeeds, give one play a soft
    defect: a null clock, a summary without one of the fields read with
    [.get] ([scorer_id], [assist_1_id], [assist_2_id], [loser_id],
    [x_coord], [y_coord]), or a first action without one of its fields.
    The play still yields its row, each cell kept or replaced by the null
    or the zero sentinel, and the run still succeeds.  Numeric coercion
    itself never raises: a cell comes out as a number or as [NaN]. *)
Theorem soft_defects_absorbed (d : list (string * pyval))
        (before after : list pyval) (play play' : pyval)
        (out player_out team_df : frame) :
  dict_get "plays" d = Some (PyList (before ++ play :: after)) ->
  main (PyDict d) = Ok (out, player_out, team_df) ->
  soft_defect play play' ->
  (exists row row',
      parse_play play = Ok row /\ parse_play play' = Ok row'
      /\ Forall2 kept_or_sentinel row row')
  /\ (exists out',
        main (PyDict (dict_set "plays" (PyList (before ++ play' :: after)) d))
        = Ok (out', player_out, team_df))
  /\ (forall v, to_numeric_coerce v = PyNaN
                \/ num_of (to_numeric_coerce v) <> None).
Proof.
  intros Hplays Hm Hdefect. apply main_ran in Hm.
  destruct Hm as [pbp0 pl0 tm Hc Hok].
  destruct (converted_replace_play _ _ _ _ _ _ _ _ Hc Hplays Hdefect)
    as (row & row' & pbp' & Hrow & Hrow' & HF & Hc').
  split; [eauto |]. split.
  - eexists. apply ran_main. econstructor; eassumption.
  - intros v. destruct v; cbn [to_numeric_coerce]; auto;
      try (right; discriminate).
    destruct (numeric_literal s); [right; discriminate | now left].
Qed.

Lemma soft_defects_absorbed_witness :
  exists out',
    main (PyDict (dict_set "plays"
                    (PyList ([Samples.goal]
                               ++ PyDict (dict_set "clock_time_string" PyNone
                                                   Samples.faceoff_fields)
                               :: []))
                    (Samples.game_fields [Samples.goal; Samples.faceoff])))
    = Ok (out', Samples.player_written, Samples.team_table).
Proof.
  exact (proj1 (proj2 (soft_defects_absorbed
                         (Samples.game_fields [Samples.goal; Samples.faceoff])
                         [Samples.goal] [] Samples.faceoff _
                         Samples.pbp_written Samples.player_written
                         Samples.team_table eq_refl game_runs
                         (NullClock Samples.faceoff_fields)))).
Defined.

(** Three plays with a hard defect, each in the sample game: an empty
    action list, a penalty whose summary has no [details], an unreadable
    clock.  Each ends the run with an exception. *)
Lemma hard_defects_abort :
  main (Samples.game [Samples.goal; Samples.faceoff_at (PyStr "05:23") []])
  = Raise IndexError
  /\ main (Samples.game [Samples.goal; Samples.penalty_without_details])
     = Raise KeyError
  /\ main (Samples.game [Samples.goal;
                         Samples.faceoff_at (PyStr "ab:cd") [Samples.first_action]])
     = Raise ValueError.
Proof. repeat split; reflexivity. Qed.

(* ===================================================================== *)
(** ** Trimmed texts, dates and penalties *)
(* ===================================================================== *)





Lemma lstrip_fixed s :
  (forall c, first_char s = Some c -> is_space c = false) -> lstrip s = s.
Proof.
  destruct s as [|x r]; [reflexivity |]. intros H. cbn [lstrip].
  now rewrite (H x eq_refl).
Qed.



Lemma lstrip_split s : exists a, s = (a ++ lstrip s)%string /\ blank a = true.
Proof.
  induction s as [|x r (a & IH & Ha)]; cbn [lstrip].
  - exists EmptyString. now split.
  - destruct (is_space x) eqn:E.
    + exists (String x a). cbn [String.append]. split; [now rewrite <- IH |].
      unfold blank in *. cbn [list_ascii_of_string forallb]. now rewrite E, Ha.
    + exists EmptyString. now split.
Qed.

Lemma rstrip_split s : exists b, s = (rstrip s ++ b)%string /\ blank b = true.
Proof.
  induction s as [|x r (b & IH & Hb)]; cbn [rstrip].
  - exists EmptyString. now split.
  - destruct (rstrip r) as [|y t] eqn:E.
    + cbn [String.append] in IH. subst r. destruct (is_space x) eqn:Ex.
      * exists (String x b). split; [reflexivity |].
        unfold blank in *. cbn [list_ascii_of_string forallb]. now rewrite Ex, Hb.
      * exists b. now split.
    + exists b. split; [| assumption].
      change (String x r = String x (String y t ++ b)). now rewrite <- IH.
Qed.

Lemma strip_split s :
  exists a b, s = (a ++ strip s ++ b)%string /\ blank a = true /\ blank b = true.
Proof.
  destruct (lstrip_split s) as (a & Ha & Ba).
  destruct (rstrip_split (lstrip s)) as (b & Hb & Bb).
  exists a, b. unfold strip. now rewrite <- Hb, <- Ha.
Qed.

Lemma chars_app a b :
  list_ascii_of_string (a ++ b)
  = list_ascii_of_string a ++ list_ascii_of_string b.
Proof.
  induction a as [|x a IH]; cbn [String.append list_ascii_of_string app];
    [reflexivity | now rewrite IH].
Qed.

Lemma chars_strip s c :
  In c (list_ascii_of_string s) ->
  is_space c = true \/ In c (list_ascii_of_string (strip s)).
Proof.
  destruct (strip_split s) as (a & b & Hs & Ba & Bb).
  rewrite Hs at 1. rewrite !chars_app, !in_app_iff.
  unfold blank in Ba, Bb. rewrite forallb_forall in Ba, Bb.
  intros [H | [H | H]]; auto.
Qed.

Lemma chars_lower s c :
  In c (list_ascii_of_string s) ->
  In (lower_ascii c) (list_ascii_of_string (lower s)).
Proof.
  induction s as [|x r IH]; cbn [list_ascii_of_string lower In]; [auto |].
  intros [-> | H]; [now left | right; auto].
Qed.

Lemma str_contains_first c rest hay :
  str_contains (String c rest) hay = true -> In c (list_ascii_of_string hay).
Proof.
  induction hay as [|x r IH]; cbn [str_contains String.prefix list_ascii_of_string In].
  - discriminate.
  - destruct (ascii_dec c x) as [-> | _]; [now left |].
    cbn [orb]. intros H. right. now apply IH.
Qed.

(** A description that passes the penalty test does not contain "Goal". *)
Lemma penalty_without_goal desc :
  lower (strip desc) = "penalty" -> str_contains "Goal" desc = false.
Proof.
  intros Hp. destruct (str_contains "Goal" desc) eqn:E; [| reflexivity].
  apply str_contains_first, chars_strip in E. destruct E as [E | E].
  - vm_compute in E. discriminate.
  - apply chars_lower in E. rewrite Hp in E. vm_compute in E.
    repeat (destruct E as [E | E]; [discriminate |]). destruct E.
Qed.

Lemma substring_length n : forall s,
  String.length (substring 0 n s) = Nat.min n (String.length s).
Proof.
  induction n as [|n IH]; intros [|x r]; cbn [substring String.length Nat.min];
    try reflexivity.
  now rewrite IH.
Qed.

Lemma substring_prefix n : forall s,
  exists rest, s = (substring 0 n s ++ rest)%string.
Proof.
  induction n as [|n IH]; intros [|x r]; cbn [substring].
  - now exists EmptyString.
  - now exists (String x r).
  - now exists EmptyString.
  - destruct (IH r) as (rest & H). exists rest. cbn [String.append].
    now rewrite <- H.
Qed.

Lemma event_players_other play desc summary l :
  play.["play_by_play_string"] = Ok (PyStr desc) ->
  str_contains "Goal" desc = false ->
  play.["play_summary"] = Ok (PyDict summary) ->
  event_players play = Ok l ->
  exists primary,
    play.["primary_player_id"] = Ok primary
    /\ l = [primary; get_or "loser_id" summary PyNone;
            get_or "assist_2_id" summary (PyInt 0)].
Proof.
  intros Hd Hg Hs H. unfold event_players in H. rewrite Hd in H.
  cbn [bind py_contains] in H. rewrite Hg in H.
  unfold summary_get in H. rewrite Hs in H. cbn [bind] in H.
  rewrite !py_get_dict in H. cbn [bind] in H.
  bind_inv H. injection H as <-. eauto.
Qed.

(** X1.  A penalty: the test [strip().lower() == "penalty"] passes.  The
    description is then the trimmed text, a space and [str(details)] ([None]
    prints as "None"), with [details] a key the summary must hold; and since
    no text that passes the test contains "Goal", the participants are always
    those of the second branch. *)
Theorem penalty_is_never_goal (play : pyval) (row : list pyval) (desc : string) :
  parse_play play = Ok row ->
  play.["play_by_play_string"] = Ok (PyStr desc) ->
  lower (strip desc) = "penalty" ->
  str_contains "Goal" desc = false
  /\ exists summary details primary,
       play.["play_summary"] = Ok (PyDict summary)
       /\ dict_get "details" summary = Some details
       /\ row_get cols row "event_description"
          = Some (PyStr (strip desc ++ " " ++ py_str details)%string)
       /\ play.["primary_player_id"] = Ok primary
       /\ row_get cols row "event_p1" = Some primary
       /\ row_get cols row "event_p2" = Some (get_or "loser_id" summary PyNone)
       /\ row_get cols row "event_p3"
          = Some (get_or "assist_2_id" summary (PyInt 0)).
Proof.
  intros H Hd Hpen. pose proof (penalty_without_goal desc Hpen) as Hg.
  split; [assumption |].
  apply parse_play_produces in H.
  destruct H as [idx created date clock secs gid ev dsc period p1 p2 p3
                   team x y ag hg asc hsc
                   _ _ _ _ _ _ _ Hdesc _ Hplayers _ Hx _ _ _ _ _].
  destruct (summary_get_ok _ _ _ _ Hx) as (summary & Hsum & _).
  unfold event_description in Hdesc. rewrite Hd in Hdesc.
  cbn [bind py_strip] in Hdesc. rewrite Hpen in Hdesc.
  cbn [String.eqb Ascii.eqb Bool.eqb bind] in Hdesc.
  rewrite Hsum in Hdesc. cbn [bind] in Hdesc.
  bind_inv Hdesc. injection Hdesc as <-.
  apply getitem_dict in Hstep.
  destruct (event_players_other _ _ _ _ Hd Hg Hsum Hplayers)
    as (primary & Hprim & [= -> -> ->]).
  exists summary, v, primary. cbn. auto 10.
Qed.

Lemma penalty_is_never_goal_witness :
  str_contains "Goal" " PENALTY " = false
  /\ exists summary details primary,
       Samples.penalty.["play_summary"] = Ok (PyDict summary)
       /\ dict_get "details" summary = Some details
       /\ row_get cols Samples.penalty_row "event_description"
          = Some (PyStr (strip " PENALTY " ++ " " ++ py_str details)%string)
       /\ Samples.penalty.["primary_player_id"] = Ok primary
       /\ row_get cols Samples.penalty_row "event_p1" = Some primary
       /\ row_get cols Samples.penalty_row "event_p2"
          = Some (get_or "loser_id" summary PyNone)
       /\ row_get cols Samples.penalty_row "event_p3"
          = Some (get_or "assist_2_id" summary (PyInt 0)).
Proof.
  exact (penalty_is_never_goal Samples.penalty Samples.penalty_row
           " PENALTY " eq_refl eq_refl eq_refl).
Defined.



(** X3.  The [date] cell is [created_at[:10]]: for a text timestamp, its first
    ten characters, or all of it when it is shorter; no timestamp text raises. *)
Theorem date_is_timestamp_prefix (play : pyval) (row : list pyval)
        (created : string) :
  parse_play play = Ok row ->
  play.["created_at"] = Ok (PyStr created) ->
  exists date rest,
    row_get cols row "date" = Some (PyStr date)
    /\ created = (date ++ rest)%string
    /\ String.length date = Nat.min 10 (String.length created).
Proof.
  intros H Hc. apply parse_play_produces in H.
  destruct H as [idx created' date clock secs gid ev dsc period p1 p2 p3
                   team x y ag hg asc hsc
                   _ Hcreated Hdate _ _ _ _ _ _ _ _ _ _ _ _ _ _].
  rewrite Hc in Hcreated. injection Hcreated as <-.
  unfold py_slice_to in Hdate. injection Hdate as <-.
  destruct (substring_prefix 10 created) as (rest & Hrest).
  exists (substring 0 10 created), rest.
  split; [reflexivity |]. split; [assumption | apply substring_length].
Qed.

Lemma date_is_timestamp_prefix_witness :
  exists date rest,
    row_get cols Samples.faceoff_row "date" = Some (PyStr date)
    /\ "2019-10-05T19:03:11Z" = (date ++ rest)%string
    /\ String.length date = Nat.min 10 (String.length "2019-10-05T19:03:11Z").
Proof.
  exact (date_is_timestamp_prefix Samples.faceoff Samples.faceoff_row
           "2019-10-05T19:03:11Z" eq_refl eq_refl).
Defined.

(* ===================================================================== *)
(** ** Keys a play must hold, fields it never reads *)
(* ===================================================================== *)

Lemma getitem_ok v k x :
  v.[k] = Ok x -> exists d, v = PyDict d /\ dict_get k d = Some x.
Proof.
  destruct v; try discriminate. intros H. apply getitem_dict in H. eauto.
Qed.

Lemma getitem_missing d k : dict_get k d = None -> (PyDict d).[k] = Raise KeyError.
Proof. intros H. unfold py_getitem. now rewrite H. Qed.

Lemma getitem_remove_other k k' d :
  String.eqb k' k = false -> (PyDict (dict_remove k d)).[k'] = (PyDict d).[k'].
Proof. intros H. unfold py_getitem. now rewrite dict_get_remove_other. Qed.

Lemma produces_keys d row k :
  produces (PyDict d) row -> In k required_keys -> dict_get k d <> None.
Proof.
  intros H Hk.
  destruct H as [idx created date clock secs gid ev dsc period p1 p2 p3
                   team x y ag hg asc hsc
                   H1 H2 H3 H4 H5 H6 H7 H8 H9 H10 H11 H12 H13 H14 H15 H16 H17].
  assert (Htags : exists t, (PyDict d).["special_tags"] = Ok t).
  { unfold event, ends_time_interval in H7. bind_inv H7. bind_inv Hstep. eauto. }
  destruct Htags as (tags & Htags).
  destruct (event_description_string _ _ H8) as (t & Hdesc).
  destruct (summary_get_ok _ _ _ _ H12) as (summary & Hsum & _).
  assert (Hact : exists a, (PyDict d).["play_actions"] = Ok a).
  { unfold action_get in H14. bind_inv H14. eauto. }
  destruct Hact as (acts & Hact).
  unfold required_keys in Hk. cbn [In] in Hk.
  repeat match goal with
         | E : (PyDict d).[_] = Ok _ |- _ => apply getitem_dict in E
         end.
  repeat (destruct Hk as [<- | Hk]; [congruence |]). destruct Hk.
Qed.

(** Steps that give the same result on two plays that agree on the keys
    the step reads. *)
Ltac same_reads :=
  unfold seconds_elapsed, event, event_description, event_players;
  unfold clock_seconds, ends_time_interval, summary_get, action_get;
  rewrite ?getitem_set_other by reflexivity;
  rewrite ?getitem_remove_other by reflexivity;
  reflexivity.

(** Move one successful step of the fuller play to the play without the
    key, in the goal. *)
Ltac carry_step H :=
  first
    [ rewrite getitem_set_other in H by reflexivity; rewrite H; cbn [bind]
    | match type of H with
      | ?f (PyDict (dict_set ?k ?v ?d)) = _ =>
          replace (f (PyDict d)) with (f (PyDict (dict_set k v d)))
            by same_reads;
          rewrite H; cbn [bind]
      | ?f (PyDict (dict_set ?k ?v ?d)) ?a ?b = _ =>
          replace (f (PyDict d) a b) with (f (PyDict (dict_set k v d)) a b)
            by same_reads;
          rewrite H; cbn [bind]
      | ?f (PyDict (dict_set ?k ?v ?d)) ?a = _ =>
          replace (f (PyDict d) a) with (f (PyDict (dict_set k v d)) a)
            by same_reads;
          rewrite H; cbn [bind]
      end ].

Lemma missing_key_is_key_error d k v row :
  In k required_keys -> dict_get k d = None ->
  parse_play (PyDict (dict_set k v d)) = Ok row ->
  parse_play (PyDict d) = Raise KeyError.
Proof.
  intros Hk Hnone H. apply parse_play_produces in H.
  pose proof (getitem_missing d k Hnone) as Hraise.
  destruct H as [idx created date clock secs gid ev dsc period p1 p2 p3
                   team x y ag hg asc hsc
                   H1 H2 H3 H4 H5 H6 H7 H8 H9 H10 H11 H12 H13 H14 H15 H16 H17].
  unfold required_keys in Hk. cbn [In] in Hk.
  destruct Hk as [<- | [<- | [<- | [<- | [<- | [<- | [<- | [<- | [<- | [<- | []]]]]]]]]]];
    unfold parse_play.
  - now rewrite Hraise.
  - carry_step H1. now rewrite Hraise.
  - carry_step H1. carry_step H2. rewrite H3. cbn [bind]. now rewrite Hraise.
  - carry_step H1. carry_step H2. rewrite H3. cbn [bind]. carry_step H4.
    unfold seconds_elapsed, ends_time_interval. now rewrite Hraise.
  - carry_step H1. carry_step H2. rewrite H3. cbn [bind]. carry_step H4.
    carry_step H5. now rewrite Hraise.
  - carry_step H1. carry_step H2. rewrite H3. cbn [bind]. carry_step H4.
    carry_step H5. carry_step H6. carry_step H7.
    unfold event_description. now rewrite Hraise.
  - carry_step H1. carry_step H2. rewrite H3. cbn [bind]. carry_step H4.
    carry_step H5. carry_step H6. carry_step H7. carry_step H8.
    now rewrite Hraise.
  - carry_step H1. carry_step H2. rewrite H3. cbn [bind]. carry_step H4.
    carry_step H5. carry_step H6. carry_step H7.
    unfold event_description in H8 |- *.
    rewrite !getitem_set_other in H8 by reflexivity.
    destruct ((PyDict d).["play_by_play_string"]) as [pb|] eqn:Epb;
      [| discriminate].
    cbn [bind] in H8 |- *.
    destruct (py_strip pb) as [s|] eqn:Es; [| discriminate].
    cbn [bind] in H8 |- *.
    destruct (String.eqb (lower s) "penalty").
    + cbn [bind]. now rewrite Hraise.
    + cbn [bind]. carry_step H9.
      unfold event_players in H10 |- *.
      rewrite !getitem_set_other in H10 by reflexivity.
      rewrite Epb in H10 |- *. cbn [bind] in H10 |- *.
      destruct (py_contains "Goal" pb) as [g|]; [| discriminate].
      cbn [bind] in H10 |- *. destruct g.
      * unfold summary_get. now rewrite Hraise.
      * destruct ((PyDict d).["primary_player_id"]); [| discriminate].
        cbn [bind]. unfold summary_get. now rewrite Hraise.
  - carry_step H1. carry_step H2. rewrite H3. cbn [bind]. carry_step H4.
    carry_step H5. carry_step H6. carry_step H7. carry_step H8.
    carry_step H9. carry_step H10. cbn [app]. now rewrite Hraise.
  - carry_step H1. carry_step H2. rewrite H3. cbn [bind]. carry_step H4.
    carry_step H5. carry_step H6. carry_step H7. carry_step H8.
    carry_step H9. carry_step H10. carry_step H11. carry_step H12.
    carry_step H13. unfold action_get. now rewrite Hraise.
Qed.

Lemma parse_plays_each plays parsed play :
  parse_plays plays = Ok parsed -> In play plays ->
  exists row, parse_play play = Ok row.
Proof.
  intros H Hin. apply parse_plays_produces in H.
  induction H as [|p er ps ers Hp HF IH]; [destruct Hin |].
  destruct Hin as [-> | Hin]; [| auto].
  exists er. now apply parse_play_produces.
Qed.

Lemma main_raises_with_convert d e :
  convert_pbp_dict d = Raise e -> main d = Raise e.
Proof. intros H. unfold main. now rewrite H. Qed.

(** X4.  Every play is subscripted with the ten keys of [required_keys].  A
    play that lacks one of them yields no row, and the run ends with an
    exception, in [convert_pbp_dict] and so in [main]; when the key is all
    that is missing (the play converts once the key is given a value), the
    exception of the play is [KeyError]. *)
Theorem missing_key_aborts (pbp_dict : pyval) (plays : list pyval)
        (d : list (string * pyval)) (k : string) :
  pbp_dict.["plays"] = Ok (PyList plays) ->
  In (PyDict d) plays ->
  In k required_keys ->
  dict_get k d = None ->
  (exists e, parse_play (PyDict d) = Raise e)
  /\ (forall v row,
         parse_play (PyDict (dict_set k v d)) = Ok row ->
         parse_play (PyDict d) = Raise KeyError)
  /\ (exists e, convert_pbp_dict pbp_dict = Raise e /\ main pbp_dict = Raise e).
Proof.
  intros Hplays Hin Hk Hnone.
  assert (Hno : forall row, parse_play (PyDict d) <> Ok row).
  { intros row H. apply parse_play_produces in H.
    now apply (produces_keys d row k H Hk). }
  split; [| split].
  - destruct (parse_play (PyDict d)) as [row|e] eqn:E; [| eauto].
    now destruct (Hno row).
  - intros v row. now apply missing_key_is_key_error.
  - destruct (convert_pbp_dict pbp_dict) as [[[pbp pl] tm]|e] eqn:E.
    + exfalso. apply convert_pbp_dict_converted in E.
      destruct E as [roster pl teams tm pbp_list plays' parsed h hid a aid
                       _ _ _ _ R5 R6 R7 _ _ _ _ _].
      rewrite Hplays in R5. injection R5 as <-.
      cbn [py_iter] in R6. injection R6 as <-.
      destruct (parse_plays_each _ _ _ R7 Hin) as (row & Hrow).
      now apply (Hno row).
    + exists e. split; [reflexivity | now apply main_raises_with_convert].
Qed.

Lemma missing_key_aborts_witness :
  (exists e,
      parse_play (PyDict (dict_remove "team_id" Samples.faceoff_fields))
      = Raise e)
  /\ (forall v row,
         parse_play (PyDict (dict_set "team_id" v
                               (dict_remove "team_id" Samples.faceoff_fields)))
         = Ok row ->
         parse_play (PyDict (dict_remove "team_id" Samples.faceoff_fields))
         = Raise KeyError)
  /\ (exists e,
         convert_pbp_dict
           (Samples.game [Samples.goal;
                          PyDict (dict_remove "team_id" Samples.faceoff_fields)])
         = Raise e
         /\ main
              (Samples.game [Samples.goal;
                             PyDict (dict_remove "team_id" Samples.faceoff_fields)])
            = Raise e).
Proof.
  apply (missing_key_aborts
           (Samples.game [Samples.goal;
                          PyDict (dict_remove "team_id" Samples.faceoff_fields)])
           [Samples.goal; PyDict (dict_remove "team_id" Samples.faceoff_fields)]
           (dict_remove "team_id" Samples.faceoff_fields) "team_id").
  - reflexivity.
  - right. left. reflexivity.
  - unfold required_keys. cbn [In]. auto 10.
  - reflexivity.
Defined.

(** X5.  Fields the loop never reads: [play_type] of a play that ends a period
    (both tests on it sit behind the period-end test), and [primary_player_id]
    of a play whose description contains "Goal".  The play yields the same
    row, or raises the same exception, with any value under that key and
    without the key. *)
Theorem unread_field (d : list (string * pyval)) (k : string) :
  (k = "play_type"
   /\ exists rest,
       dict_get "special_tags" d
       = Some (PyList (PyStr "ends_time_interval" :: rest)))
  \/ (k = "primary_player_id"
      /\ exists desc,
          dict_get "play_by_play_string" d = Some (PyStr desc)
          /\ str_contains "Goal" desc = true) ->
  (forall v, parse_play (PyDict (dict_set k v d)) = parse_play (PyDict d))
  /\ parse_play (PyDict (dict_remove k d)) = parse_play (PyDict d).
Proof.
  intros [(-> & rest & Htags) | (-> & desc & Hdesc & Hgoal)].
  - assert (Hend : forall p,
               p.["special_tags"] = (PyDict d).["special_tags"] ->
               seconds_elapsed p = Ok (PyInt 1200)
               /\ event p = Ok (PyStr "Period End")).
    { intros p Hp. apply getitem_dict in Htags. rewrite Htags in Hp.
      pose proof (ends_time_interval_tagged p rest Hp) as He.
      unfold seconds_elapsed, event. now rewrite He. }
    destruct (Hend (PyDict d) eq_refl) as (Hs & He).
    split; [intros v |]; unfold parse_play.
    + destruct (Hend (PyDict (dict_set "play_type" v d))) as (Hs' & He');
        [now rewrite getitem_set_other |].
      rewrite Hs, He, Hs', He'.
      rewrite !getitem_set_other by reflexivity.
      replace (event_description (PyDict (dict_set "play_type" v d)))
        with (event_description (PyDict d)) by (symmetry; same_reads).
      replace (event_players (PyDict (dict_set "play_type" v d)))
        with (event_players (PyDict d)) by (symmetry; same_reads).
      unfold summary_get, action_get.
      rewrite !getitem_set_other by reflexivity. reflexivity.
    + destruct (Hend (PyDict (dict_remove "play_type" d))) as (Hs' & He');
        [now rewrite getitem_remove_other |].
      rewrite Hs, He, Hs', He'.
      rewrite !getitem_remove_other by reflexivity.
      replace (event_description (PyDict (dict_remove "play_type" d)))
        with (event_description (PyDict d)) by (symmetry; same_reads).
      replace (event_players (PyDict (dict_remove "play_type" d)))
        with (event_players (PyDict d)) by (symmetry; same_reads).
      unfold summary_get, action_get.
      rewrite !getitem_remove_other by reflexivity. reflexivity.
  - assert (Hplayers : forall p,
               p.["play_by_play_string"] = (PyDict d).["play_by_play_string"] ->
               p.["play_summary"] = (PyDict d).["play_summary"] ->
               event_players p = event_players (PyDict d)).
    { intros p Hp Hsum. apply getitem_dict in Hdesc.
      unfold event_players, summary_get. rewrite Hp, Hsum, Hdesc.
      cbn [bind py_contains]. now rewrite Hgoal. }
    split; [intros v |]; unfold parse_play.
    + rewrite (Hplayers (PyDict (dict_set "primary_player_id" v d)))
        by now rewrite getitem_set_other.
      rewrite !getitem_set_other by reflexivity.
      replace (seconds_elapsed (PyDict (dict_set "primary_player_id" v d)))
        with (seconds_elapsed (PyDict d)) by (symmetry; same_reads).
      replace (event (PyDict (dict_set "primary_player_id" v d)))
        with (event (PyDict d)) by (symmetry; same_reads).
      replace (event_description (PyDict (dict_set "primary_player_id" v d)))
        with (event_description (PyDict d)) by (symmetry; same_reads).
      unfold summary_get, action_get.
      rewrite !getitem_set_other by reflexivity. reflexivity.
    + rewrite (Hplayers (PyDict (dict_remove "primary_player_id" d)))
        by now rewrite getitem_remove_other.
      rewrite !getitem_remove_other by reflexivity.
      replace (seconds_elapsed (PyDict (dict_remove "primary_player_id" d)))
        with (seconds_elapsed (PyDict d)) by (symmetry; same_reads).
      replace (event (PyDict (dict_remove "primary_player_id" d)))
        with (event (PyDict d)) by (symmetry; same_reads).
      replace (event_description (PyDict (dict_remove "primary_player_id" d)))
        with (event_description (PyDict d)) by (symmetry; same_reads).
      unfold summary_get, action_get.
      rewrite !getitem_remove_other by reflexivity. reflexivity.
Qed.

Lemma unread_field_witness :
  (forall v,
      parse_play (PyDict (dict_set "primary_player_id" v Samples.goal_fields))
      = parse_play (PyDict Samples.goal_fields))
  /\ parse_play (PyDict (dict_remove "primary_player_id" Samples.goal_fields))
     = parse_play (PyDict Samples.goal_fields).
Proof.
  apply (unread_field Samples.goal_fields "primary_player_id").
  right. split; [reflexivity |].
  exists "Goal scored by #20". split; reflexivity.
Defined.

(* ===================================================================== *)
(** ** The team table *)
(* ===================================================================== *)

Lemma row_get_map (f : string -> pyval) k : forall cs,
  In k cs -> row_get cs (map f cs) k = Some (f k).
Proof.
  induction cs as [|c cs IH]; intros Hin; [destruct Hin |].
  cbn [map row_get]. destruct (String.eqb_spec k c) as [-> | Hne];
    [reflexivity |].
  apply IH. destruct Hin as [-> | Hin]; [contradiction | assumption].
Qed.

Lemma row_get_absent cs : forall r k, ~ In k cs -> row_get cs r k = None.
Proof.
  induction cs as [|c cs IH]; intros [|x r] k Hnin; try reflexivity.
  cbn [row_get]. destruct (String.eqb_spec k c) as [-> | Hne].
  - exfalso. apply Hnin. now left.
  - apply IH. intros H. apply Hnin. now right.
Qed.

Lemma from_dict_rows l df :
  from_dict (PyList l) = Ok df -> rows df = map (record_row (columns df)) l.
Proof.
  unfold from_dict. intros H. bind_inv H. now injection H as <-.
Qed.

(** A cell of a table read from a list of records: the record's value
    under the label, [NaN] when the record lacks it; no such column when no
    record has the label, no such row past the end of the list. *)
Lemma from_dict_loc l df i d k :
  from_dict (PyList l) = Ok df -> nth_error l i = Some (PyDict d) ->
  loc df i k
  = if has_column k (columns df) then Ok (get_or k d PyNaN) else Raise KeyError.
Proof.
  intros H Hi. unfold loc. rewrite (from_dict_rows l df H).
  rewrite nth_error_map, Hi. cbn [option_map record_row].
  destruct (has_column k (columns df)) eqn:E.
  - apply has_column_In in E.
    now rewrite (row_get_map (fun c => match dict_get c d with
                                       | Some x => x
                                       | None => PyNaN
                                       end) k (columns df) E).
  - apply has_column_not_In in E. now rewrite row_get_absent.
Qed.

Lemma loc_raises df i c e : loc df i c = Raise e -> e = KeyError.
Proof.
  unfold loc. destruct (nth_error (rows df) i) as [r|]; [| congruence].
  destruct (row_get (columns df) r c); congruence.
Qed.

Lemma loc_in_range df i c v :
  loc df i c = Ok v -> (i < List.length (rows df))%nat.
Proof.
  unfold loc. destruct (nth_error (rows df) i) as [r|] eqn:E; [| discriminate].
  intros _. apply nth_error_Some. congruence.
Qed.

Lemma loc_past_end df i c :
  (List.length (rows df) <= i)%nat -> loc df i c = Raise KeyError.
Proof.
  intros H. unfold loc. apply nth_error_None in H. now rewrite H.
Qed.

(** X6.  The team table needs two rows: with fewer than two records under
    [team_instance] the lookups [team_df.loc[0, ...]] and [team_df.loc[1,
    ...]] cannot all succeed and the run ends with an exception; it is a
    [KeyError] when the tables were read and every play gave its row. *)
Theorem two_teams_needed (pbp_dict : pyval) (teams : list pyval) :
  pbp_dict.["team_instance"] = Ok (PyList teams) ->
  (List.length teams < 2)%nat ->
  (exists e, convert_pbp_dict pbp_dict = Raise e /\ main pbp_dict = Raise e)
  /\ (forall roster player_df team_df pbp_list plays parsed,
         pbp_dict.["roster_player"] = Ok roster ->
         from_dict roster = Ok player_df ->
         from_dict (PyList teams) = Ok team_df ->
         pbp_dict.["plays"] = Ok pbp_list ->
         py_iter pbp_list = Ok plays ->
         parse_plays plays = Ok parsed ->
         convert_pbp_dict pbp_dict = Raise KeyError).
Proof.
  intros Hteams Hlen. split.
  - destruct (convert_pbp_dict pbp_dict) as [[[pbp pl] tm]|e] eqn:E.
    + exfalso. apply convert_pbp_dict_converted in E.
      destruct E as [roster pl teams' tm pbp_list plays parsed h hid a aid
                       _ _ R3 R4 _ _ _ _ _ L3 _ _].
      rewrite Hteams in R3. injection R3 as <-.
      apply loc_in_range in L3. rewrite (from_dict_rows _ _ R4), length_map in L3.
      lia.
    + exists e. split; [reflexivity | now apply main_raises_with_convert].
  - intros roster pl tm pbp_list plays parsed R1 R2 R4 R5 R6 R7.
    unfold convert_pbp_dict.
    rewrite R1; cbn [bind]. rewrite R2; cbn [bind].
    rewrite Hteams; cbn [bind]. rewrite R4; cbn [bind].
    rewrite R5; cbn [bind]. rewrite R6; cbn [bind]. rewrite R7; cbn [bind].
    assert (L3 : forall c, loc tm 1 c = Raise KeyError).
    { intros c. apply loc_past_end.
      rewrite (from_dict_rows _ _ R4), length_map. lia. }
    destruct (loc tm 0 "name") as [h|e] eqn:L1;
      [| now rewrite (loc_raises _ _ _ _ L1)].
    cbn [bind].
    destruct (loc tm 0 "team_id") as [hid|e] eqn:L2;
      [| now rewrite (loc_raises _ _ _ _ L2)].
    cbn [bind]. now rewrite L3.
Qed.

Lemma two_teams_needed_witness :
  exists e,
    convert_pbp_dict
      (PyDict (dict_set "team_instance"
                 (PyList [PyDict [("name", PyStr "Whale"); ("team_id", PyInt 7)]])
                 (Samples.game_fields [Samples.goal; Samples.faceoff])))
    = Raise e
    /\ main
         (PyDict (dict_set "team_instance"
                    (PyList [PyDict [("name", PyStr "Whale"); ("team_id", PyInt 7)]])
                    (Samples.game_fields [Samples.goal; Samples.faceoff])))
       = Raise e.
Proof.
  apply (two_teams_needed
           (PyDict (dict_set "team_instance"
                      (PyList [PyDict [("name", PyStr "Whale"); ("team_id", PyInt 7)]])
                      (Samples.game_fields [Samples.goal; Samples.faceoff])))
           [PyDict [("name", PyStr "Whale"); ("team_id", PyInt 7)]]).
  - reflexivity.
  - cbn [List.length]. lia.
Defined.

Lemma carried_same v : carried v v.
Proof. unfold carried. now destruct (is_null v) eqn:E. Qed.

(** X7.  The team cells, read off the record: the home cells come from the
    first record under [team_instance] and the away cells from the second,
    each holding the record's [name] or [team_id], or a null when that record
    lacks the key; records after the second are not used. *)
Theorem team_cells_from_records (pbp_dict : pyval)
        (t0 t1 : list (string * pyval)) (rest : list pyval)
        (pbp_df player_df team_df : frame) :
  pbp_dict.["team_instance"] = Ok (PyList (PyDict t0 :: PyDict t1 :: rest)) ->
  convert_pbp_dict pbp_dict = Ok (pbp_df, player_df, team_df) ->
  exists home_name home_id away_name away_id,
    carried (get_or "name" t0 PyNaN) home_name
    /\ carried (get_or "team_id" t0 PyNaN) home_id
    /\ carried (get_or "name" t1 PyNaN) away_name
    /\ carried (get_or "team_id" t1 PyNaN) away_id
    /\ forall r, In r (rows pbp_df) ->
         row_get (columns pbp_df) r "home_team" = Some home_name
         /\ row_get (columns pbp_df) r "home_team_id" = Some home_id
         /\ row_get (columns pbp_df) r "away_team" = Some away_name
         /\ row_get (columns pbp_df) r "away_team_id" = Some away_id.
Proof.
  intros Hteams Hc.
  destruct (team_cells_on_every_row _ _ _ _ Hc)
    as (h & hid & a & aid & L1 & L2 & L3 & L4 & Hcells).
  apply convert_pbp_dict_converted in Hc.
  destruct Hc as [roster pl teams tm pbp_list plays parsed h' hid' a' aid'
                    _ _ R3 R4 _ _ _ _ _ _ _ _].
  rewrite Hteams in R3. injection R3 as <-.
  rewrite (from_dict_loc _ _ 0 t0 _ R4 eq_refl) in L1.
  rewrite (from_dict_loc _ _ 0 t0 _ R4 eq_refl) in L2.
  rewrite (from_dict_loc _ _ 1 t1 _ R4 eq_refl) in L3.
  rewrite (from_dict_loc _ _ 1 t1 _ R4 eq_refl) in L4.
  destruct (has_column "name" (columns tm)); [| discriminate].
  destruct (has_column "team_id" (columns tm)); [| discriminate].
  injection L1 as <-. injection L2 as <-. injection L3 as <-. injection L4 as <-.
  do 4 eexists. repeat (split; [apply carried_same |]). exact Hcells.
Qed.

Lemma team_cells_from_records_witness :
  exists home_name home_id away_name away_id,
    carried (get_or "name" [("name", PyStr "Whale"); ("team_id", PyInt 7)] PyNaN)
            home_name
    /\ carried (get_or "team_id" [("name", PyStr "Whale"); ("team_id", PyInt 7)] PyNaN)
               home_id
    /\ carried (get_or "name" [("name", PyStr "Riveters"); ("team_id", PyInt 8)] PyNaN)
               away_name
    /\ carried (get_or "team_id" [("name", PyStr "Riveters"); ("team_id", PyInt 8)] PyNaN)
               away_id
    /\ forall r, In r (rows Samples.pbp_table) ->
         row_get (columns Samples.pbp_table) r "home_team" = Some home_name
         /\ row_get (columns Samples.pbp_table) r "home_team_id" = Some home_id
         /\ row_get (columns Samples.pbp_table) r "away_team" = Some away_name
         /\ row_get (columns Samples.pbp_table) r "away_team_id" = Some away_id.
Proof.
  exact (team_cells_from_records
           (Samples.game [Samples.goal; Samples.faceoff])
           [("name", PyStr "Whale"); ("team_id", PyInt 7)]
           [("name", PyStr "Riveters"); ("team_id", PyInt 8)] []
           Samples.pbp_table Samples.player_table Samples.team_table
           eq_refl game_converts).
Defined.

(* ===================================================================== *)
(** ** The play table, cell by cell *)
(* ===================================================================== *)

Lemma enrich_no_rows dir cs : forall df,
  rows df = [] -> rows (fold_left (enrich dir) cs df) = [].
Proof.
  induction cs as [|c cs IH]; intros df H; cbn [fold_left]; [assumption |].
  apply IH. unfold enrich. cbn [rows]. now rewrite H.
Qed.

(** X8.  A record without plays: the conversion still needs its roster and its
    two teams, and when it succeeds the play table has the 22 columns and no
    row; the table [main] writes has the 27 output columns and no row. *)
Theorem no_plays_no_rows (pbp_dict : pyval) (pbp_df player_df team_df : frame) :
  pbp_dict.["plays"] = Ok (PyList []) ->
  convert_pbp_dict pbp_dict = Ok (pbp_df, player_df, team_df) ->
  pbp_df = mkFrame pbp_columns []
  /\ forall out player_out,
       main pbp_dict = Ok (out, player_out, team_df) ->
       out = mkFrame output_columns [].
Proof.
  intros Hplays Hc.
  assert (Hpbp : pbp_df = mkFrame pbp_columns []).
  { apply convert_pbp_dict_converted in Hc.
    destruct Hc as [roster pl teams tm pbp_list plays parsed h hid a aid
                      _ _ _ _ R5 R6 R7 _ _ _ _ _].
    rewrite Hplays in R5. injection R5 as <-.
    cbn [py_iter] in R6. injection R6 as <-.
    cbn [parse_plays] in R7. injection R7 as <-. reflexivity. }
  split; [assumption |].
  intros out player_out Hm. apply main_ran in Hm.
  destruct Hm as [pbp0 pl0 tm Hc0 Hok].
  apply convert_pbp_dict_converted in Hc0. rewrite Hc in Hc0.
  injection Hc0 as <- <-. subst pbp_df.
  now rewrite enrich_no_rows.
Qed.

Lemma empty_game_converts :
  convert_pbp_dict (Samples.game [])
  = Ok (mkFrame pbp_columns [], Samples.player_table, Samples.team_table).
Proof. vm_compute. reflexivity. Qed.

Lemma no_plays_no_rows_witness :
  mkFrame pbp_columns [] = mkFrame pbp_columns []
  /\ forall out player_out,
       main (Samples.game []) = Ok (out, player_out, Samples.team_table) ->
       out = mkFrame output_columns [].
Proof.
  exact (no_plays_no_rows (Samples.game []) _ _ _ eq_refl empty_game_converts).
Defined.

Lemma fill0_not_null v : is_null (fill0 v) = false.
Proof. destruct v; reflexivity. Qed.

Lemma fill0_not_none v : fill0 v <> PyNone.
Proof. destruct v; discriminate. Qed.

Lemma coerce_not_none v : to_numeric_coerce v <> PyNone.
Proof.
  destruct v; cbn [to_numeric_coerce]; try discriminate.
  destruct (numeric_literal s); discriminate.
Qed.

Lemma coerce_number_or_nan v :
  to_numeric_coerce v = PyNaN \/ num_of (to_numeric_coerce v) <> None.
Proof.
  destruct v; cbn [to_numeric_coerce]; auto; try (right; discriminate).
  destruct (numeric_literal s); [right; discriminate | now left].
Qed.

Lemma seconds_elapsed_int play secs :
  seconds_elapsed play = Ok secs -> exists z, secs = PyInt z.
Proof.
  unfold seconds_elapsed. intros H. bind_inv H.
  destruct v; [injection H as <-; eauto |].
  bind_inv H. destruct (py_eq_str v "Shootout"); [injection H as <-; eauto |].
  unfold clock_seconds, try_except in H.
  destruct (_ <- _ ;; _) as [x|e] eqn:E in H.
  - injection H as <-. do 6 bind_inv E. injection E as <-. eauto.
  - destruct (exn_eqb e AttributeError); [| discriminate].
    injection H as <-. eauto.
Qed.

(** A row of the written play table: it has one cell per output column,
    and on the 22 columns of the converted table it agrees with a row of
    that table. *)
Lemma written_row_origin d pbp pl tm out pl_out r :
  convert_pbp_dict d = Ok (pbp, pl, tm) ->
  main d = Ok (out, pl_out, tm) ->
  In r (rows out) ->
  exists l,
    In l (rows pbp)
    /\ List.length r = List.length output_columns
    /\ forall c, In c pbp_columns ->
         row_get output_columns r c = row_get pbp_columns l c.
Proof.
  intros Hc Hm Hr.
  destruct (final_row _ _ _ _ _ _ _ Hc Hm Hr)
    as (l & i1 & n1 & i2 & n2 & i3 & n3 & i4 & n4 & i5 & n5 & Hl
        & _ & _ & _ & _ & _ & ->).
  exists l. split; [assumption |].
  destruct (converted_row_cells _ _ _ _ _ Hc Hl)
    as (h & hid & a & aid & play & c1 & c2 & c3 & c4 & c5 & c6 & c7 & c8
        & c9 & c10 & c11 & c12 & c13 & c14 & c15 & c16 & c17 & c18
        & _ & _ & _ & _ & _ & ->).
  cbn [app]. rewrite project_cells. split; [reflexivity |].
  intros c Hcin. cbn in Hcin.
  repeat (destruct Hcin as [<- | Hcin]; [reflexivity |]). destruct Hcin.
Qed.

(** X9.  What [main] writes comes from the conversion alone: every row of the
    written play table is a row of the converted table (the same cells under
    each of its 22 columns) with the five name cells inserted; the joins
    invent no row and alter no converted cell. *)
Theorem written_rows_are_converted_rows (pbp_dict : pyval)
        (pbp_df player_df team_df out player_out : frame) :
  convert_pbp_dict pbp_dict = Ok (pbp_df, player_df, team_df) ->
  main pbp_dict = Ok (out, player_out, team_df) ->
  forall r, In r (rows out) ->
    exists l,
      In l (rows pbp_df)
      /\ forall c, In c pbp_columns ->
           row_get (columns out) r c = row_get (columns pbp_df) l c.
Proof.
  intros Hc Hm r Hr.
  destruct (written_row_origin _ _ _ _ _ _ _ Hc Hm Hr) as (l & Hl & _ & Hcells).
  destruct (main_converts _ _ _ _ Hm) as (_ & _ & _ & _ & _ & ->).
  pose proof Hc as Hconv. apply convert_pbp_dict_converted in Hconv.
  destruct (converted_well_formed _ _ _ _ Hconv) as (_ & ->).
  eauto.
Qed.

Lemma written_rows_are_converted_rows_witness :
  Forall (fun r =>
            exists l,
              In l (rows Samples.pbp_table)
              /\ forall c, In c pbp_columns ->
                   row_get (columns Samples.pbp_written) r c
                   = row_get (columns Samples.pbp_table) l c)
         (rows Samples.pbp_written).
Proof.
  apply Forall_forall.
  exact (written_rows_are_converted_rows _ _ _ _ _ _ game_converts game_runs).
Defined.

Lemma output_columns_NoDup : NoDup output_columns.
Proof.
  unfold output_columns.
  repeat (constructor;
          [ cbn [In]; intros H;
            repeat (destruct H as [H | H]; [discriminate H |]); exact H | ]).
  constructor.
Qed.

Lemma pbp_columns_NoDup : NoDup pbp_columns.
Proof.
  cbv [pbp_columns cols team_columns app].
  repeat (constructor;
          [ cbn [In]; intros H;
            repeat (destruct H as [H | H]; [discriminate H |]); exact H | ]).
  constructor.
Qed.

(** X10.  The tables are well formed: the converted play table has its 22
    labels, the written one the 27 labels of the final selection, each label
    once and one cell under each on every row (the helper columns [id],
    [id_x], [id_y] of the joins are gone); the player and team tables written
    out have no repeated label and one cell per label. *)
Theorem tables_are_well_formed (pbp_dict : pyval)
        (pbp_df player_df team_df : frame) :
  convert_pbp_dict pbp_dict = Ok (pbp_df, player_df, team_df) ->
  (columns pbp_df = pbp_columns /\ well_formed pbp_df
   /\ well_formed player_df /\ well_formed team_df)
  /\ forall out player_out,
       main pbp_dict = Ok (out, player_out, team_df) ->
       columns out = output_columns /\ well_formed out
       /\ well_formed player_out.
Proof.
  intros Hc. pose proof Hc as Hconv. apply convert_pbp_dict_converted in Hconv.
  destruct (converted_well_formed _ _ _ _ Hconv) as (Hpl & Hcols).
  split.
  - split; [assumption |]. split; [| split; [assumption |]].
    + split; [rewrite Hcols; apply pbp_columns_NoDup |].
      apply Forall_forall. intros l Hl. rewrite Hcols.
      now apply (converted_row_length _ _ _ _ l Hconv).
    + destruct Hconv. eapply from_dict_well_formed. eassumption.
  - intros out player_out Hm.
    destruct (main_converts _ _ _ _ Hm) as (pbp' & pl' & Hc' & _ & -> & Hout).
    rewrite Hc in Hc'. injection Hc' as <- <-.
    split; [assumption |]. split.
    + split; [rewrite Hout; apply output_columns_NoDup |].
      apply Forall_forall. intros r Hr. rewrite Hout.
      destruct (written_row_origin _ _ _ _ _ _ _ Hc Hm Hr) as (_ & _ & H & _).
      exact H.
    + now apply with_full_name_well_formed.
Qed.

Lemma tables_are_well_formed_witness :
  (columns Samples.pbp_table = pbp_columns /\ well_formed Samples.pbp_table
   /\ well_formed Samples.player_table /\ well_formed Samples.team_table)
  /\ forall out player_out,
       main (Samples.game [Samples.goal; Samples.faceoff])
       = Ok (out, player_out, Samples.team_table) ->
       columns out = output_columns /\ well_formed out
       /\ well_formed player_out.
Proof.
  exact (tables_are_well_formed _ _ _ _ game_converts).
Defined.

(** The cell of a converted row under one of the 18 parsed columns. *)
Ltac parsed_cell_cases Hc :=
  cbn [In cols] in Hc;
  repeat (destruct Hc as [<- | Hc];
          [ eexists; split; [reflexivity |];
            split;
            [ first [apply fill0_not_none | apply coerce_not_none]
            | first [intros _; apply fill0_not_null
                    | intros Hn; exfalso; apply Hn; cbn [player_id_columns In];
                      auto 10] ]
          | ]);
  destruct Hc.

Lemma converted_cell_filled d pbp pl tm r c :
  convert_pbp_dict d = Ok (pbp, pl, tm) -> In r (rows pbp) -> In c cols ->
  exists v,
    row_get pbp_columns r c = Some v
    /\ v <> PyNone
    /\ (~ In c player_id_columns -> is_null v = false).
Proof.
  intros Hc Hr Hcin.
  destruct (converted_row_cells _ _ _ _ _ Hc Hr)
    as (h & hid & a & aid & play & c1 & c2 & c3 & c4 & c5 & c6 & c7 & c8
        & c9 & c10 & c11 & c12 & c13 & c14 & c15 & c16 & c17 & c18
        & _ & _ & _ & _ & _ & ->).
  parsed_cell_cases Hcin.
Qed.

Lemma cols_in_pbp_columns c : In c cols -> In c pbp_columns.
Proof. intros H. unfold pbp_columns. apply in_or_app. now left. Qed.

(** X11.  After [fillna(0)] no parsed cell is [None], and outside the five
    identifier columns (where [to_numeric] can put [NaN] back) no parsed cell
    is null at all: a missing coordinate, goalie or score reads 0.  The
    [seconds_elapsed] cell is always an integer.  The same holds in the play
    table [main] writes. *)
Theorem parsed_cells_are_filled (pbp_dict : pyval)
        (pbp_df player_df team_df : frame) :
  convert_pbp_dict pbp_dict = Ok (pbp_df, player_df, team_df) ->
  (forall r c, In r (rows pbp_df) -> In c cols ->
      exists v,
        row_get (columns pbp_df) r c = Some v
        /\ v <> PyNone
        /\ (~ In c player_id_columns -> is_null v = false))
  /\ (forall r, In r (rows pbp_df) ->
        exists z, row_get (columns pbp_df) r "seconds_elapsed" = Some (PyInt z))
  /\ (forall out player_out r c,
        main pbp_dict = Ok (out, player_out, team_df) ->
        In r (rows out) -> In c cols ->
        exists v,
          row_get (columns out) r c = Some v
          /\ v <> PyNone
          /\ (~ In c player_id_columns -> is_null v = false)).
Proof.
  intros Hc. pose proof Hc as Hconv. apply convert_pbp_dict_converted in Hconv.
  destruct (converted_well_formed _ _ _ _ Hconv) as (_ & Hcols).
  rewrite Hcols. split; [| split].
  - intros r c. now apply (converted_cell_filled pbp_dict pbp_df player_df team_df).
  - intros r Hr.
    destruct (converted_row_cells _ _ _ _ _ Hc Hr)
      as (h & hid & a & aid & play & c1 & c2 & c3 & c4 & c5 & c6 & c7 & c8
          & c9 & c10 & c11 & c12 & c13 & c14 & c15 & c16 & c17 & c18
          & _ & _ & _ & _ & Hp & ->).
    inversion Hp as [? ? ? ? ? ? ? ? ? ? ? ? ? ? ? ? ? ? ? _ _ _ _ Hs]; subst.
    destruct (seconds_elapsed_int _ _ Hs) as (z & ->).
    exists z. reflexivity.
  - intros out player_out r c Hm Hr Hcin.
    destruct (main_converts _ _ _ _ Hm) as (_ & _ & _ & _ & _ & ->).
    destruct (written_row_origin _ _ _ _ _ _ _ Hc Hm Hr) as (l & Hl & _ & Hcells).
    rewrite (Hcells c (cols_in_pbp_columns c Hcin)).
    now apply (converted_cell_filled pbp_dict pbp_df player_df team_df).
Qed.

Lemma parsed_cells_are_filled_witness :
  Forall (fun r =>
            exists z,
              row_get (columns Samples.pbp_table) r "seconds_elapsed"
              = Some (PyInt z))
         (rows Samples.pbp_table)
  /\ Forall (fun r =>
               exists v,
                 row_get (columns Samples.pbp_written) r "x_coord" = Some v
                 /\ v <> PyNone
                 /\ (~ In "x_coord" player_id_columns -> is_null v = false))
            (rows Samples.pbp_written).
Proof.
  destruct (parsed_cells_are_filled _ _ _ _ game_converts) as (_ & Hs & Hout).
  split; apply Forall_forall.
  - exact Hs.
  - intros r Hr. apply (Hout _ _ r "x_coord" game_runs Hr).
    cbn [cols In]. auto 20.
Defined.

Lemma converted_row_play d pbp pl tm l :
  convert_pbp_dict d = Ok (pbp, pl, tm) -> In l (rows pbp) ->
  exists plays play row h hid a aid,
    (exists pbp_list, d.["plays"] = Ok pbp_list /\ py_iter pbp_list = Ok plays)
    /\ In play plays /\ parse_play play = Ok row
    /\ l = finish_row h hid a aid row.
Proof.
  intros Hc Hin. apply convert_pbp_dict_converted in Hc.
  destruct (converted_rows _ _ _ _ Hc)
    as (plays & parsed & h & hid & a & aid & Hplays & HF & _ & _ & _ & _
        & _ & Hrows & _).
  rewrite Hrows in Hin.
  destruct (sorted_row_origin _ _ _ _ _ _ _ HF Hin) as (play & er & Hp & Hprod & ->).
  exists plays, play, er, h, hid, a, aid.
  repeat (split; [assumption |]). split; [| reflexivity].
  now apply parse_play_produces.
Qed.

(** X12.  The five identifier cells of a converted row: the value the play
    gave, first filled ([fillna(0)]: null becomes 0), then coerced
    ([to_numeric(errors='coerce')]).  So a participant the play leaves out or
    gives as null reads 0, an integer stays what it was, and the cell is a
    number or [NaN], never [None] or a text. *)
Theorem identifier_cells_are_coerced (pbp_dict : pyval)
        (pbp_df player_df team_df : frame) (r : list pyval) (c : string) :
  convert_pbp_dict pbp_dict = Ok (pbp_df, player_df, team_df) ->
  In r (rows pbp_df) ->
  In c player_id_columns ->
  exists plays play row raw cell,
    (exists pbp_list,
        pbp_dict.["plays"] = Ok pbp_list /\ py_iter pbp_list = Ok plays)
    /\ In play plays
    /\ parse_play play = Ok row
    /\ row_get cols row c = Some raw
    /\ row_get (columns pbp_df) r c = Some cell
    /\ cell = to_numeric_coerce (fill0 raw)
    /\ (is_null raw = true -> cell = PyInt 0)
    /\ (forall z, raw = PyInt z -> cell = PyInt z)
    /\ (cell = PyNaN \/ num_of cell <> None).
Proof.
  intros Hc Hr Hcin.
  destruct (converted_row_play _ _ _ _ _ Hc Hr)
    as (plays & play & row & h & hid & a & aid & Hplays & Hplay & Hrow & ->).
  pose proof Hc as Hconv. apply convert_pbp_dict_converted in Hconv.
  destruct (converted_well_formed _ _ _ _ Hconv) as (_ & Hcols).
  rewrite Hcols.
  pose proof Hrow as Hp. apply parse_play_produces in Hp. destruct Hp.
  rewrite finish_row_cells.
  assert (Hfacts : forall raw,
             (is_null raw = true -> to_numeric_coerce (fill0 raw) = PyInt 0)
             /\ (forall z, raw = PyInt z -> to_numeric_coerce (fill0 raw) = PyInt z)
             /\ (to_numeric_coerce (fill0 raw) = PyNaN
                 \/ num_of (to_numeric_coerce (fill0 raw)) <> None)).
  { intros raw. split; [| split].
    - destruct raw; try discriminate; reflexivity.
    - now intros z ->.
    - apply coerce_number_or_nan. }
  exists plays, play.
  cbn [player_id_columns In] in Hcin.
  destruct Hcin as [<- | [<- | [<- | [<- | [<- | []]]]]];
    eexists; eexists; eexists;
    (split; [exact Hplays |]); (split; [exact Hplay |]);
    (split; [exact Hrow |]); (split; [reflexivity |]);
    (split; [reflexivity |]); (split; [reflexivity |]); apply Hfacts.
Qed.

Lemma identifier_cells_are_coerced_witness :
  Forall (fun r =>
            exists plays play row raw cell,
              (exists pbp_list,
                  (Samples.game [Samples.goal; Samples.faceoff]).["plays"]
                  = Ok pbp_list
                  /\ py_iter pbp_list = Ok plays)
              /\ In play plays
              /\ parse_play play = Ok row
              /\ row_get cols row "event_p3" = Some raw
              /\ row_get (columns Samples.pbp_table) r "event_p3" = Some cell
              /\ cell = to_numeric_coerce (fill0 raw)
              /\ (is_null raw = true -> cell = PyInt 0)
              /\ (forall z, raw = PyInt z -> cell = PyInt z)
              /\ (cell = PyNaN \/ num_of cell <> None))
         (rows Samples.pbp_table).
Proof.
  apply Forall_forall. intros r Hr.
  apply (identifier_cells_are_coerced _ _ _ _ r "event_p3" game_converts Hr).
  cbn [player_id_columns In]. auto.
Defined.

(* ===================================================================== *)
(** ** How many rows are written *)
(* ===================================================================== *)

Lemma key_match_euclid a p q :
  key_match a p = true -> key_match a q = true -> key_match p q = true.
Proof.
  unfold key_match.
  destruct (num_of a) as [x|], (num_of p) as [y|], (num_of q) as [z|];
    try discriminate.
  - rewrite !Z.eqb_eq. congruence.
  - rewrite !andb_true_iff. intros (_ & Hp) (_ & Hq). auto.
Qed.

Lemma filter_none {A} (P : A -> bool) l :
  (forall x, In x l -> P x = false) -> filter P l = [].
Proof.
  induction l as [|x l IH]; intros H; cbn [filter]; [reflexivity |].
  rewrite (H x (in_eq _ _)). apply IH. intros y Hy. apply H. now right.
Qed.

Lemma unique_keys_one {A} (f : A -> pyval) key l :
  unique_keys (map f l) = true ->
  (List.length (filter (fun p => key_match key (f p)) l) <= 1)%nat.
Proof.
  induction l as [|a r IH]; cbn [map unique_keys filter]; [cbn; lia |].
  intros H. apply andb_true_iff in H. destruct H as (Hno & Hr).
  apply negb_true_iff in Hno.
  destruct (key_match key (f a)) eqn:Ea; [| auto].
  rewrite filter_none; [cbn; lia |].
  intros x Hx. destruct (key_match key (f x)) eqn:Ex; [| reflexivity].
  exfalso. pose proof (key_match_euclid _ _ _ Ea Ex) as Hm.
  assert (Hex : existsb (key_match (f a)) (map f r) = true).
  { apply existsb_exists. exists (f x). split; [now apply in_map | assumption]. }
  congruence.
Qed.

Lemma filter_map_swap {A B} (g : A -> B) (P : B -> bool) l :
  filter P (map g l) = map g (filter (fun x => P (g x)) l).
Proof.
  induction l as [|x l IH]; cbn [map filter]; [reflexivity |].
  destruct (P (g x)); cbn [map]; now rewrite IH.
Qed.

Lemma tails_of_count pl key :
  List.length (tails_of (directory pl) key)
  = match key with
    | Some a => Nat.max 1 (List.length (matching pl a))
    | None => 1%nat
    end.
Proof.
  unfold tails_of, directory. cbn [rows columns].
  rewrite filter_map_swap.
  destruct key as [a|].
  - cbn [row_get String.eqb Ascii.eqb Bool.eqb].
    fold (matching pl a).
    destruct (matching pl a) as [|m ms]; cbn [map List.length]; [reflexivity |].
    rewrite length_map. lia.
  - rewrite filter_none by reflexivity. reflexivity.
Qed.

Lemma list_sum_const {A} (f : A -> nat) k l :
  (forall x, In x l -> f x = k) ->
  list_sum (map f l) = (List.length l * k)%nat.
Proof.
  induction l as [|x l IH]; intros H; cbn [map List.length]; [reflexivity |].
  change (list_sum (f x :: map f l)) with (f x + list_sum (map f l))%nat.
  rewrite (H x (in_eq _ _)), IH; [lia |]. intros y Hy. apply H. now right.
Qed.

(** The number of rows after the joins on [cs]: each row counts once per
    combination of the rows the directory offers for its keys. *)
Lemma enriched_count dir base :
  Forall plain_label base ->
  forall cs extra rs,
    (forall c, In c cs -> In c base) ->
    (forall r0, In r0 rs -> (List.length base <= List.length r0)%nat) ->
    List.length (rows (fold_left (enrich dir) cs (mkFrame (base ++ extra) rs)))
    = list_sum
        (map (fun r0 =>
                fold_right
                  (fun c n =>
                     (List.length
                        (tails_of dir (row_get base (firstn (List.length base) r0) c))
                      * n)%nat)
                  1%nat cs)
             rs).
Proof.
  intros Hplain. induction cs as [|c cs IH]; intros extra rs Hcs Hlen.
  - cbn [fold_left rows fold_right].
    rewrite (list_sum_const _ 1%nat) by reflexivity. lia.
  - cbn [fold_left]. unfold enrich at 2. cbn [columns rows].
    destruct (enrich_columns_prefix base extra c Hplain) as (extra' & ->).
    rewrite IH; clear IH.
    + induction rs as [|r0 rs IHrs]; [reflexivity |].
      cbn [flat_map map]. rewrite map_app, list_sum_app.
      match goal with
      | |- _ = list_sum (?a :: ?b) =>
          change (list_sum (a :: b)) with (a + list_sum b)%nat
      end.
      rewrite IHrs by (intros r1 H1; apply Hlen; now right).
      f_equal. rewrite join_row_tails.
      rewrite row_get_prefix by (auto using in_eq).
      rewrite map_map.
      rewrite (list_sum_const _
                 (fold_right
                    (fun c0 n =>
                       (List.length
                          (tails_of dir
                             (row_get base (firstn (List.length base) r0) c0))
                        * n)%nat) 1%nat cs)).
      * cbn [fold_right]. reflexivity.
      * intros t _. rewrite firstn_app_left by auto using in_eq. reflexivity.
    + intros c' Hc'. apply Hcs. now right.
    + intros r1 Hin. apply in_flat_map in Hin.
      destruct Hin as (r0 & Hr0 & Hin).
      rewrite join_row_tails, in_map_iff in Hin.
      destruct Hin as (t & <- & _). rewrite length_app.
      specialize (Hlen r0 Hr0). lia.
Qed.

Lemma copies_tails pl l :
  fold_right
    (fun c n =>
       (List.length (tails_of (directory pl) (row_get pbp_columns l c)) * n)%nat)
    1%nat player_id_columns
  = copies pl l.
Proof.
  unfold copies, copies_at. cbn [player_id_columns fold_right].
  now rewrite !tails_of_count.
Qed.

Lemma copies_unique pl l : unique_ids pl = true -> copies pl l = 1%nat.
Proof.
  intros H.
  assert (Hone : forall c, copies_at pl l c = 1%nat).
  { intros c. unfold copies_at. destruct (row_get pbp_columns l c) as [key|];
      [| reflexivity].
    pose proof (unique_keys_one (id_cell (columns pl)) key (rows pl) H) as Hle.
    unfold matching. lia. }
  unfold copies. cbn [player_id_columns fold_right]. rewrite !Hone. reflexivity.
Qed.

(** X13.  How many rows are written.  The converted table has one row per
    play.  Each left join keeps every row once per roster player whose [id]
    matches the row's key (once if none does), so the written table has, for
    each converted row, the product of these counts over the five identifier
    columns; with a roster whose ids never match one another that is one row
    per play. *)
Theorem row_count (pbp_dict : pyval) (plays : list pyval)
        (pbp_df player_df team_df : frame) :
  pbp_dict.["plays"] = Ok (PyList plays) ->
  convert_pbp_dict pbp_dict = Ok (pbp_df, player_df, team_df) ->
  List.length (rows pbp_df) = List.length plays
  /\ forall out player_out,
       main pbp_dict = Ok (out, player_out, team_df) ->
       List.length (rows out)
       = list_sum (map (copies player_df) (rows pbp_df))
       /\ (unique_ids player_df = true ->
           List.length (rows out) = List.length plays).
Proof.
  intros Hplays Hc. pose proof Hc as Hconv.
  apply convert_pbp_dict_converted in Hconv.
  assert (Hn : List.length (rows pbp_df) = List.length plays).
  { destruct Hconv as [roster pl teams tm pbp_list plays' parsed h hid a aid
                         _ _ _ _ R5 R6 R7 _ _ _ _ _].
    rewrite Hplays in R5. injection R5 as <-.
    cbn [py_iter] in R6. injection R6 as <-.
    cbn [rows].
    rewrite (Permutation_length (stable_sort_perm row_key _)), length_map.
    apply parse_plays_produces in R7. symmetry.
    now apply (Forall2_length R7). }
  split; [assumption |].
  intros out player_out Hm.
  assert (Hcount : List.length (rows out)
                   = list_sum (map (copies player_df) (rows pbp_df))).
  { apply main_ran in Hm. destruct Hm as [pbp0 pl0 tm Hc0 Hok].
    destruct (converted_unique _ _ _ _ _ _ _ Hconv Hc0) as (-> & -> & _).
    cbn [rows]. rewrite length_map.
    destruct (converted_well_formed _ _ _ _ Hconv) as (_ & Hcols).
    assert (Hlen : forall l, In l (rows pbp_df) ->
                             List.length l = List.length pbp_columns)
      by (intros l; now apply (converted_row_length pbp_dict pbp_df player_df tm)).
    destruct pbp_df as [cs0 rs0]. cbn [columns rows] in *. subst cs0.
    pose proof (enriched_count (directory player_df) pbp_columns
                  pbp_columns_plain player_id_columns [] rs0
                  player_id_columns_present) as HE.
    rewrite app_nil_r in HE. rewrite HE.
    - f_equal. apply map_ext_in. intros l Hl.
      rewrite <- (Hlen l Hl), firstn_all. apply copies_tails.
    - intros l Hl. rewrite (Hlen l Hl). lia. }
  split; [assumption |].
  intros Hu. rewrite Hcount, <- Hn.
  rewrite (list_sum_const _ 1%nat); [lia |].
  intros l _. now apply copies_unique.
Qed.

Lemma row_count_witness :
  List.length (rows Samples.pbp_table) = 2%nat
  /\ forall out player_out,
       main (Samples.game [Samples.goal; Samples.faceoff])
       = Ok (out, player_out, Samples.team_table) ->
       List.length (rows out)
       = list_sum (map (copies Samples.player_table) (rows Samples.pbp_table))
       /\ (unique_ids Samples.player_table = true ->
           List.length (rows out) = 2%nat).
Proof.
  exact (row_count (Samples.game [Samples.goal; Samples.faceoff])
           [Samples.goal; Samples.faceoff] _ _ _ eq_refl game_converts).
Defined.

(* ===================================================================== *)
(** ** [pull_player_names], call by call *)
(* ===================================================================== *)

Lemma select_named pl :
  has_column "id" (columns pl) = true ->
  exists right,
    select (with_full_name pl) ["id"; "full_name"] = Ok right
    /\ has_column "id" (columns right) = true.
Proof.
  intros Hid. unfold select. cbn [forallb].
  rewrite (with_full_name_keeps pl "id" Hid), (with_full_name_has pl).
  cbn [andb]. eexists. split; [reflexivity |].
  cbn [columns flat_map]. apply has_column_In, in_or_app. left.
  apply filter_In. split; [| apply String.eqb_refl].
  apply has_column_In. now apply with_full_name_keeps.
Qed.

Lemma pull_player_names_raises pbp pl c :
  has_column "first_name" (columns pl) = false
  \/ has_column "last_name" (columns pl) = false
  \/ has_column "id" (columns pl) = false
  \/ has_column c (columns pbp) = false ->
  pull_player_names pbp pl c = Raise KeyError.
Proof.
  intros H. unfold pull_player_names.
  destruct (has_column "first_name" (columns pl)) eqn:H1; [| reflexivity].
  destruct (has_column "last_name" (columns pl)) eqn:H2; [| reflexivity].
  cbn [andb].
  change (set_computed pl "full_name" (full_name (columns pl)))
    with (with_full_name pl).
  destruct (has_column "id" (columns pl)) eqn:H3.
  - destruct (select_named pl H3) as (right & -> & Hright). cbn [bind].
    destruct H as [H | [H | [H | H]]]; try discriminate.
    unfold merge_left. now rewrite H.
  - unfold select. cbn [forallb].
    destruct (has_column "id" (columns (with_full_name pl))) eqn:H3';
      [| reflexivity].
    apply with_full_name_had in H3'; [congruence | reflexivity].
Qed.

(** X14.  [pull_player_names] reads four columns by label: [first_name],
    [last_name] and [id] of the player table and [id_column] of the play
    table.  When one of them is absent the call raises [KeyError]. *)
Theorem pull_player_names_key_errors (pbp_df player_df : frame)
        (id_column : string) :
  has_column "first_name" (columns player_df) = false
  \/ has_column "last_name" (columns player_df) = false
  \/ has_column "id" (columns player_df) = false
  \/ has_column id_column (columns pbp_df) = false ->
  pull_player_names pbp_df player_df id_column = Raise KeyError.
Proof. apply pull_player_names_raises. Qed.

Lemma pull_player_names_key_errors_witness :
  pull_player_names Samples.pbp_table Samples.player_table "shooter"
  = Raise KeyError.
Proof.
  apply (pull_player_names_key_errors Samples.pbp_table Samples.player_table
           "shooter").
  right. right. right. reflexivity.
Defined.

(** X15.  Without the columns [id], [first_name] and [last_name] in the roster
    the run cannot finish: after a conversion that succeeded, [main] raises
    [KeyError] in the first [pull_player_names].  A record whose roster is the
    empty list is such a case. *)
Theorem roster_columns_needed (pbp_dict : pyval)
        (pbp_df player_df team_df : frame) :
  convert_pbp_dict pbp_dict = Ok (pbp_df, player_df, team_df) ->
  (has_column "first_name" (columns player_df) = false
   \/ has_column "last_name" (columns player_df) = false
   \/ has_column "id" (columns player_df) = false ->
   main pbp_dict = Raise KeyError)
  /\ (pbp_dict.["roster_player"] = Ok (PyList []) ->
      main pbp_dict = Raise KeyError).
Proof.
  intros Hc.
  assert (Hmain : has_column "first_name" (columns player_df) = false
                  \/ has_column "last_name" (columns player_df) = false
                  \/ has_column "id" (columns player_df) = false ->
                  main pbp_dict = Raise KeyError).
  { intros H. unfold main. rewrite Hc. cbn [bind].
    unfold player_id_columns. cbn [name_loop].
    rewrite pull_player_names_raises; [reflexivity |].
    destruct H as [H | [H | H]]; auto. }
  split; [assumption |].
  intros Hroster. apply Hmain.
  apply convert_pbp_dict_converted in Hc.
  destruct Hc as [roster pl teams tm pbp_list plays parsed h hid a aid R1 R2].
  rewrite Hroster in R1. injection R1 as <-.
  cbn in R2. injection R2 as <-. now left.
Qed.

Lemma roster_columns_needed_witness :
  main (PyDict (dict_set "roster_player" (PyList [])
                  (Samples.game_fields [Samples.goal; Samples.faceoff])))
  = Raise KeyError.
Proof.
  apply (proj2 (roster_columns_needed
                  (PyDict (dict_set "roster_player" (PyList [])
                             (Samples.game_fields [Samples.goal; Samples.faceoff])))
                  Samples.pbp_table (mkFrame [] []) Samples.team_table
                  eq_refl)).
  reflexivity.
Defined.

(** X16.  Calling [pull_player_names] again changes nothing more in the player
    table: the first call leaves it with its [full_name] column, and any later
    call, on any play table and column, returns that same player table and
    joins against the same identifiers and names as it would have with the
    table as first read. *)
Theorem pull_player_names_settles (pbp_df player_df : frame) (id_column : string)
        (pbp1 player1 : frame) :
  well_formed player_df ->
  pull_player_names pbp_df player_df id_column = Ok (pbp1, player1) ->
  player1 = with_full_name player_df
  /\ well_formed player1
  /\ forall pbp' column' pbp2 player2,
       pull_player_names pbp' player1 column' = Ok (pbp2, player2) ->
       player2 = player1
       /\ pull_player_names pbp' player_df column' = Ok (pbp2, player1).
Proof.
  intros Hwf H.
  destruct (pull_player_names_inv _ _ _ _ _ Hwf H) as (Hok & Hc & -> & ->).
  split; [reflexivity |].
  pose proof (with_full_name_well_formed _ Hwf) as Hwf1.
  split; [assumption |].
  intros pbp' c' pbp2 pl2 H2.
  destruct (pull_player_names_inv _ _ _ _ _ Hwf1 H2) as (_ & Hc' & -> & ->).
  rewrite with_full_name_idempotent, directory_with_full_name by assumption.
  split; [reflexivity |].
  now apply pull_player_names_enrich.
Qed.

Lemma player_table_well_formed : well_formed Samples.player_table.
Proof.
  apply (from_dict_well_formed Samples.roster). reflexivity.
Qed.

Lemma pull_player_names_settles_witness :
  Samples.player_written = with_full_name Samples.player_table
  /\ well_formed Samples.player_written
  /\ forall pbp' column' pbp2 player2,
       pull_player_names pbp' Samples.player_written column' = Ok (pbp2, player2) ->
       player2 = Samples.player_written
       /\ pull_player_names pbp' Samples.player_table column'
          = Ok (pbp2, Samples.player_written).
Proof.
  exact (pull_player_names_settles Samples.pbp_table Samples.player_table
           "event_p1"
           (enrich (directory Samples.player_table) Samples.pbp_table "event_p1")
           Samples.player_written player_table_well_formed eq_refl).
Defined.

Lemma plain_columns_kept left c :
  Forall plain_label left ->
  enrich_columns left c = left ++ ["id"; (c ++ "_name")%string].
Proof.
  intros Hplain. unfold enrich_columns. rewrite map_app. f_equal.
  - rewrite map_map. rewrite <- (map_id left) at 2.
    apply map_ext_in. intros x Hx. rewrite Forall_forall in Hplain.
    destruct (Hplain x Hx) as [Hid Hfn].
    unfold suffixed. cbn [has_column existsb].
    apply String.eqb_neq in Hid. apply String.eqb_neq in Hfn.
    rewrite Hid, Hfn. cbn [orb]. now rewrite Hfn.
  - assert (Hid : has_column "id" left = false).
    { apply has_column_not_In. intros Hin. rewrite Forall_forall in Hplain.
      now destruct (Hplain _ Hin). }
    assert (Hfn : has_column "full_name" left = false).
    { apply has_column_not_In. intros Hin. rewrite Forall_forall in Hplain.
      now destruct (Hplain _ Hin). }
    cbn [map]. unfold suffixed. rewrite Hid, Hfn. reflexivity.
Qed.

Lemma offers_tails pl key i n :
  offers pl key i n -> In [i; n] (tails_of (directory pl) key).
Proof.
  unfold tails_of.
  intros [(a & p & -> & Hp & Hm & -> & ->) | (Hno & -> & ->)].
  - assert (Hin : In [id_cell (columns pl) p; full_name (columns pl) p]
                     (filter (fun r =>
                                match row_get (columns (directory pl)) r "id" with
                                | Some b => key_match a b
                                | None => false
                                end) (rows (directory pl)))).
    { apply filter_In. split; [| exact Hm].
      unfold directory. cbn [rows]. apply in_map_iff. exists p. now split. }
    destruct (filter _ (rows (directory pl))); [destruct Hin | exact Hin].
  - rewrite filter_none; [now left |].
    intros r Hr. unfold directory in Hr. cbn [rows] in Hr.
    apply in_map_iff in Hr. destruct Hr as (p & <- & Hp).
    destruct key as [a|]; [| reflexivity].
    exact (Hno a p eq_refl Hp).
Qed.

(** X17.  One call of [pull_player_names] on a play table that has no column
    [id] or [full_name] yet.  The result has the columns of the play table
    followed by [id] and [<id_column>_name].  Its rows are exactly the rows of
    the play table, each followed by the identifier and full name of a player
    whose [id] matches the row's key, or by two [NaN] when no player matches;
    so every row is there at least once, and none is dropped. *)
Theorem pull_player_names_appends (pbp_df player_df : frame) (id_column : string)
        (pbp1 player1 : frame) :
  well_formed player_df ->
  Forall plain_label (columns pbp_df) ->
  pull_player_names pbp_df player_df id_column = Ok (pbp1, player1) ->
  columns pbp1 = columns pbp_df ++ ["id"; (id_column ++ "_name")%string]
  /\ (forall r1,
         In r1 (rows pbp1)
         <-> exists r i n,
            In r (rows pbp_df)
            /\ offers player_df (row_get (columns pbp_df) r id_column) i n
            /\ r1 = r ++ [i; n])
  /\ (forall r, In r (rows pbp_df) -> exists i n, In (r ++ [i; n]) (rows pbp1))
  /\ (List.length (rows pbp_df) <= List.length (rows pbp1))%nat.
Proof.
  intros Hwf Hplain H.
  destruct (pull_player_names_inv _ _ _ _ _ Hwf H) as (Hok & Hc & -> & ->).
  unfold enrich. cbn [columns rows].
  split; [now apply plain_columns_kept |].
  assert (Hrows : forall r1,
             In r1 (flat_map (join_row (columns pbp_df) (directory player_df)
                                       id_column "id") (rows pbp_df))
             <-> exists r i n,
                In r (rows pbp_df)
                /\ offers player_df (row_get (columns pbp_df) r id_column) i n
                /\ r1 = r ++ [i; n]).
  { intros r1. rewrite in_flat_map. split.
    - intros (r & Hr & Hin). rewrite join_row_tails, in_map_iff in Hin.
      destruct Hin as (t & <- & Ht).
      destruct (tails_offers _ _ _ Ht) as (i & n & -> & Hoff). eauto 6.
    - intros (r & i & n & Hr & Hoff & ->). exists r. split; [assumption |].
      rewrite join_row_tails. apply in_map. now apply offers_tails. }
  split; [exact Hrows |]. split.
  - intros r Hr.
    destruct (tails_of (directory player_df) (row_get (columns pbp_df) r id_column))
      as [|t ts] eqn:E; [now destruct (tails_of_nonempty _ _ E) |].
    assert (Ht : In t (tails_of (directory player_df)
                                (row_get (columns pbp_df) r id_column)))
      by (rewrite E; now left).
    destruct (tails_offers _ _ _ Ht) as (i & n & -> & Hoff).
    exists i, n. apply Hrows. eauto 6.
  - apply join_keeps_count.
Qed.

Lemma pull_player_names_appends_witness :
  columns (enrich (directory Samples.player_table) Samples.pbp_table "event_p1")
  = columns Samples.pbp_table ++ ["id"; "event_p1_name"].
Proof.
  refine (proj1 (pull_player_names_appends Samples.pbp_table
                   Samples.player_table "event_p1"
                   (enrich (directory Samples.player_table) Samples.pbp_table
                           "event_p1")
                   Samples.player_written player_table_well_formed _ eq_refl)).
  apply pbp_columns_plain.
Defined.

(* ===================================================================== *)
(** ** The files of a run *)
(* ===================================================================== *)

Lemma append_injective (a x y : string) :
  (a ++ x)%string = (a ++ y)%string -> x = y.
Proof.
  induction a as [|c a IH]; cbn [String.append]; [auto |].
  intros [= H]. auto.
Qed.

Lemma append_differs (a x y : string) :
  x <> y -> String.eqb (a ++ x) (a ++ y) = false.
Proof.
  intros H. apply String.eqb_neq. intros E. now apply append_injective in E.
Qed.

(** X18.  A run that succeeds leaves three files, one per table, under three
    names that differ whatever the game id is, so no table overwrites another:
    reading each name back gives the table written to it, pipe separated and
    without index, and every other file is as it was.  A run that raises, in
    the request or in the conversion, writes nothing. *)
Theorem run_writes_three_files (site : string -> result pyval)
        (game_id : string) (fs : Run.disk) :
  (forall pbp_dict out player_out team_df,
      site ("https://www.nwhl.zone/game/get_play_by_plays?id=" ++ game_id)%string
      = Ok pbp_dict ->
      main pbp_dict = Ok (out, player_out, team_df) ->
      exists fs',
        Run.main site game_id fs = (Ok tt, fs')
        /\ Run.read (game_id ++ "_pbp_df.txt") fs'
           = Some (Run.mkCsv out "|" false)
        /\ Run.read (game_id ++ "_player_df.txt") fs'
           = Some (Run.mkCsv player_out "|" false)
        /\ Run.read (game_id ++ "_team_df.txt") fs'
           = Some (Run.mkCsv team_df "|" false)
        /\ forall path,
             path <> (game_id ++ "_pbp_df.txt")%string ->
             path <> (game_id ++ "_player_df.txt")%string ->
             path <> (game_id ++ "_team_df.txt")%string ->
             Run.read path fs' = Run.read path fs)
  /\ (forall e,
         (pbp_dict <- Run.get_pbp_dict site game_id ;; main pbp_dict) = Raise e ->
         Run.main site game_id fs = (Raise e, fs)).
Proof.
  split.
  - intros pbp_dict out player_out team_df Hsite Hmain.
    unfold Run.main, Run.get_pbp_dict. rewrite Hsite. cbn [bind].
    rewrite Hmain. eexists. split; [reflexivity |].
    unfold Run.to_csv. cbn [Run.read].
    rewrite !String.eqb_refl.
    rewrite !append_differs by discriminate.
    repeat (split; [reflexivity |]).
    intros path H1 H2 H3.
    apply String.eqb_neq in H1, H2, H3. now rewrite H1, H2, H3.
  - intros e H. unfold Run.main. now rewrite H.
Qed.

Lemma run_writes_three_files_witness :
  exists fs',
    Run.main (fun _ => Ok (Samples.game [Samples.goal; Samples.faceoff]))
             "18507472" []
    = (Ok tt, fs')
    /\ Run.read "18507472_player_df.txt" fs'
       = Some (Run.mkCsv Samples.player_written "|" false).
Proof.
  destruct (proj1 (run_writes_three_files
                     (fun _ => Ok (Samples.game [Samples.goal; Samples.faceoff]))
                     "18507472" [])
                  _ _ _ _ eq_refl game_runs)
    as (fs' & Hrun & _ & Hpl & _).
  exists fs'. split; [exact Hrun | exact Hpl].
Defined.

(* ===================================================================== *)
(** ** The period-end test, exactly *)
(* ===================================================================== *)

(** X19.  The period-end test holds for exactly one shape of [special_tags]: a
    list whose first element is the text "ends_time_interval".  A text (even
    that very text), an empty or null value and a list that carries the tag
    further back all fail it. *)
Theorem period_end_test_exact (play : pyval) :
  ends_time_interval play = Ok true
  <-> exists rest,
      play.["special_tags"] = Ok (PyList (PyStr "ends_time_interval" :: rest)).
Proof.
  split.
  - unfold ends_time_interval. intros H. bind_inv H.
    destruct (truthy v); [| discriminate].
    rewrite Hstep in H. cbn [bind] in H. bind_inv H. injection H as H.
    destruct v0 as [| | | |s| |]; try discriminate.
    apply String.eqb_eq in H. subst s.
    destruct v as [| | | |t|l|]; try discriminate.
    + destruct t as [|c t]; [discriminate |].
      cbn [py_first] in Hstep0. discriminate.
    + destruct l as [|x l]; [discriminate |].
      cbn [py_first] in Hstep0. injection Hstep0 as ->. eauto.
  - intros (rest & H). now apply (ends_time_interval_tagged play rest).
Qed.

(* ===================================================================== *)
(** ** The team table written out *)
(* ===================================================================== *)

(** X20.  The team table comes out as it was read: what [main] hands to
    [to_csv] is the table built from [team_instance], with no column or row
    added, removed or changed on the way (unlike the player table, which gains
    [full_name]). *)
Theorem team_file_is_raw (pbp_dict : pyval) (out player_out team_df : frame) :
  main pbp_dict = Ok (out, player_out, team_df) ->
  exists teams,
    pbp_dict.["team_instance"] = Ok teams
    /\ from_dict teams = Ok team_df
    /\ forall pbp_df player_df team_df',
         convert_pbp_dict pbp_dict = Ok (pbp_df, player_df, team_df') ->
         team_df' = team_df.
Proof.
  intros Hm. apply main_ran in Hm. destruct Hm as [pbp0 pl0 tm Hc Hok].
  pose proof Hc as Hc'.
  destruct Hc' as [roster pl teams tm pbp_list plays parsed h hid a aid
                     _ _ R3 R4 _ _ _ _ _ _ _ _].
  exists teams. repeat (split; [assumption |]).
  intros pbp_df player_df team_df' Hconv.
  apply convert_pbp_dict_converted in Hconv.
  now destruct (converted_unique _ _ _ _ _ _ _ Hc Hconv) as (_ & _ & ->).
Qed.

Lemma team_file_is_raw_witness :
  exists teams,
    (Samples.game [Samples.goal; Samples.faceoff]).["team_instance"] = Ok teams
    /\ from_dict teams = Ok Samples.team_table
    /\ forall pbp_df player_df team_df',
         convert_pbp_dict (Samples.game [Samples.goal; Samples.faceoff])
         = Ok (pbp_df, player_df, team_df') ->
         team_df' = Samples.team_table.
Proof.
  exact (team_file_is_raw _ _ _ _ game_runs).
Defined.

(* ===================================================================== *)
(** ** Clocks written as decimal numerals *)
(* ===================================================================== *)

Lemma numeral_chars d c :
  In c (list_ascii_of_string (NilEmpty.string_of_uint d)) ->
  is_space c = false /\ Ascii.eqb c ":" = false.
Proof.
  induction d; cbn [NilEmpty.string_of_uint list_ascii_of_string In];
    try (intros [<- | H]; [split; reflexivity | auto]).
  intros [].
Qed.

Lemma rstrip_fixed s :
  (forall c, In c (list_ascii_of_string s) -> is_space c = false) ->
  rstrip s = s.
Proof.
  induction s as [|x r IH]; intros H; [reflexivity |].
  cbn [rstrip]. rewrite IH.
  - destruct r; [| reflexivity]. now rewrite (H x (in_eq _ _)).
  - intros c Hc. apply H. now right.
Qed.

Lemma strip_fixed s :
  (forall c, In c (list_ascii_of_string s) -> is_space c = false) ->
  strip s = s.
Proof.
  intros H. unfold strip. rewrite lstrip_fixed.
  - now apply rstrip_fixed.
  - intros c Hc. apply H. destruct s; [discriminate |].
    injection Hc as ->. now left.
Qed.

Ltac numeral_digit IH :=
  cbn [int_digits];
  match goal with
  | |- context [digit_of ?c] =>
      let v := eval vm_compute in (digit_of c) in
      change (digit_of c) with v
  end;
  match goal with
  | |- _ = Some (Z.of_nat (Nat.of_uint_acc _ ?acc')) =>
      rewrite <- (IH acc' true) by now right
  end;
  f_equal; rewrite Nat.tail_mul_spec; lia.

Lemma int_digits_numeral d : forall acc b,
  d <> Decimal.Nil \/ b = true ->
  int_digits (Z.of_nat acc) b (NilEmpty.string_of_uint d)
  = Some (Z.of_nat (Nat.of_uint_acc d acc)).
Proof.
  induction d; intros acc b Hb;
    cbn [NilEmpty.string_of_uint Nat.of_uint_acc];
    [destruct Hb as [Hb | ->]; [contradiction | reflexivity] | ..];
    numeral_digit IHd.
Qed.

(** [int] reads a decimal numeral as its value, leading zeros included. *)
Lemma py_int_numeral d :
  d <> Decimal.Nil ->
  py_int (NilEmpty.string_of_uint d) = Ok (Z.of_nat (Nat.of_uint d)).
Proof.
  intros Hd. unfold py_int.
  rewrite strip_fixed by (intros c Hc; now apply (numeral_chars d)).
  pose proof (int_digits_numeral d 0 false (or_introl Hd)) as H.
  change (Z.of_nat 0) with 0 in H. unfold Nat.of_uint.
  destruct d; try contradiction;
    cbn [NilEmpty.string_of_uint] in H |- *; now rewrite H.
Qed.

Lemma split_on_numeral d tail :
  split_on ":" (NilEmpty.string_of_uint d ++ String ":" tail)
  = NilEmpty.string_of_uint d :: split_on ":" tail.
Proof.
  assert (H : forall s,
             (forall c, In c (list_ascii_of_string s) -> Ascii.eqb c ":" = false) ->
             split_on ":" (s ++ String ":" tail) = s :: split_on ":" tail).
  { induction s as [|x r IH]; intros Hs; cbn [String.append split_on].
    - reflexivity.
    - rewrite (Hs x (in_eq _ _)). rewrite IH; [reflexivity |].
      intros c Hc. apply Hs. now right. }
  apply H. intros c Hc. now apply (numeral_chars d).
Qed.

Lemma split_on_numeral_end d :
  split_on ":" (NilEmpty.string_of_uint d) = [NilEmpty.string_of_uint d].
Proof.
  assert (H : forall s,
             (forall c, In c (list_ascii_of_string s) -> Ascii.eqb c ":" = false) ->
             split_on ":" s = [s]).
  { induction s as [|x r IH]; intros Hs; cbn [split_on]; [reflexivity |].
    rewrite (Hs x (in_eq _ _)). rewrite IH; [reflexivity |].
    intros c Hc. apply Hs. now right. }
  apply H. intros c Hc. now apply (numeral_chars d).
Qed.

(** X21.  The clock need not be two digits a side.  For a play without the
    period-end tag that is not a shootout, a clock made of two decimal
    numerals with a colon between them, of any length and with or without
    leading zeros, gives the first times 60 plus the second; whatever follows
    a second colon is ignored. *)
Theorem clock_of_numerals (play play_type : pyval) (a b : Decimal.uint)
        (tail : string) :
  a <> Decimal.Nil ->
  b <> Decimal.Nil ->
  tail = EmptyString \/ (exists rest, tail = String ":" rest) ->
  play.["clock_time_string"]
  = Ok (PyStr (NilEmpty.string_of_uint a ++ ":"
               ++ NilEmpty.string_of_uint b ++ tail)) ->
  ends_time_interval play = Ok false ->
  play.["play_type"] = Ok play_type ->
  py_eq_str play_type "Shootout" = false ->
  seconds_elapsed play
  = Ok (PyInt (Z.of_nat (Nat.of_uint a) * 60 + Z.of_nat (Nat.of_uint b))).
Proof.
  intros Ha Hb Htail Hclock He Hpt Hns.
  unfold seconds_elapsed. rewrite He. cbn [bind]. rewrite Hpt. cbn [bind].
  rewrite Hns. unfold clock_seconds. rewrite Hclock.
  cbn [bind py_split_colon].
  change (NilEmpty.string_of_uint a ++ ":" ++ NilEmpty.string_of_uint b ++ tail)%string
    with (NilEmpty.string_of_uint a
          ++ String ":" (NilEmpty.string_of_uint b ++ tail))%string.
  rewrite split_on_numeral.
  assert (Hsplit : exists more,
             split_on ":" (NilEmpty.string_of_uint b ++ tail)
             = NilEmpty.string_of_uint b :: more).
  { destruct Htail as [-> | (rest & ->)].
    - exists []. replace (NilEmpty.string_of_uint b ++ "")%string
        with (NilEmpty.string_of_uint b).
      + apply split_on_numeral_end.
      + generalize (NilEmpty.string_of_uint b). intros s.
        induction s as [|x r IH]; cbn [String.append]; [reflexivity |].
        now rewrite <- IH.
    - eexists. apply split_on_numeral. }
  destruct Hsplit as (more & ->).
  cbn [list_item nth_error bind].
  rewrite (py_int_numeral a Ha). cbn [bind].
  rewrite (py_int_numeral b Hb). cbn [bind try_except]. reflexivity.
Qed.

Lemma clock_of_numerals_witness :
  seconds_elapsed (Samples.faceoff_at (PyStr "5:07:99") [Samples.first_action])
  = Ok (PyInt 307).
Proof.
  apply (clock_of_numerals
           (Samples.faceoff_at (PyStr "5:07:99") [Samples.first_action])
           (PyStr "Faceoff")
           (Decimal.D5 Decimal.Nil) (Decimal.D0 (Decimal.D7 Decimal.Nil))
           ":99").
  - discriminate.
  - discriminate.
  - right. now exists "99".
  - reflexivity.
  - reflexivity.
  - reflexivity.
  - reflexivity.
Defined.

(* ===================================================================== *)
(** ** The cells copied from the play *)
(* ===================================================================== *)

Lemma action_get_ok play k x :
  action_get play k = Ok x ->
  exists action rest,
    play.["play_actions"] = Ok (PyList (PyDict action :: rest))
    /\ x = get_or k action PyNone.
Proof.
  unfold action_get. intros H. bind_inv H. bind_inv H.
  destruct (py_get_ok _ _ _ _ H) as (action & ->).
  rewrite py_get_dict in H. injection H as <-.
  destruct v as [| | | |s|l|]; try discriminate.
  - destruct s; discriminate.
  - destruct l as [|y l]; [discriminate |].
    injection Hstep0 as ->. eauto.
Qed.

(** X22.  The cells that are copied from the play.  Every row of the converted
    table comes from a play of the record: [event_index], [time], [game_id],
    [period] and [event_team] are the play's [play_index],
    [clock_time_string], [game_id], [time_interval] and [team_id]; the
    coordinates are the summary's; the goalies and scores are those of the
    first action of [play_actions], later actions are not consulted.  Each
    goes through [fillna(0)], the goalies through [to_numeric] as well, and a
    field the summary or the action lacks counts as null. *)
Theorem cells_from_the_play (pbp_dict : pyval)
        (pbp_df player_df team_df : frame) (r : list pyval) :
  convert_pbp_dict pbp_dict = Ok (pbp_df, player_df, team_df) ->
  In r (rows pbp_df) ->
  exists plays play idx clock gid period team summary action later,
    (exists pbp_list,
        pbp_dict.["plays"] = Ok pbp_list /\ py_iter pbp_list = Ok plays)
    /\ In play plays
    /\ play.["play_index"] = Ok idx
    /\ play.["clock_time_string"] = Ok clock
    /\ play.["game_id"] = Ok gid
    /\ play.["time_interval"] = Ok period
    /\ play.["team_id"] = Ok team
    /\ play.["play_summary"] = Ok (PyDict summary)
    /\ play.["play_actions"] = Ok (PyList (PyDict action :: later))
    /\ row_get (columns pbp_df) r "event_index" = Some (fill0 idx)
    /\ row_get (columns pbp_df) r "time" = Some (fill0 clock)
    /\ row_get (columns pbp_df) r "game_id" = Some (fill0 gid)
    /\ row_get (columns pbp_df) r "period" = Some (fill0 period)
    /\ row_get (columns pbp_df) r "event_team" = Some (fill0 team)
    /\ row_get (columns pbp_df) r "x_coord"
       = Some (fill0 (get_or "x_coord" summary PyNone))
    /\ row_get (columns pbp_df) r "y_coord"
       = Some (fill0 (get_or "y_coord" summary PyNone))
    /\ row_get (columns pbp_df) r "away_goalie"
       = Some (to_numeric_coerce (fill0 (get_or "away_team_goalie" action PyNone)))
    /\ row_get (columns pbp_df) r "home_goalie"
       = Some (to_numeric_coerce (fill0 (get_or "home_team_goalie" action PyNone)))
    /\ row_get (columns pbp_df) r "away_score"
       = Some (fill0 (get_or "away_team_score" action PyNone))
    /\ row_get (columns pbp_df) r "home_score"
       = Some (fill0 (get_or "home_team_score" action PyNone)).
Proof.
  intros Hc Hr.
  destruct (converted_row_play _ _ _ _ _ Hc Hr)
    as (plays & play & row & h & hid & a & aid & Hplays & Hplay & Hrow & ->).
  pose proof Hc as Hconv. apply convert_pbp_dict_converted in Hconv.
  destruct (converted_well_formed _ _ _ _ Hconv) as (_ & Hcols).
  rewrite Hcols. apply parse_play_produces in Hrow.
  destruct Hrow as [idx created date clock secs gid ev dsc period p1 p2 p3
                      team x y ag hg asc hsc
                      H1 H2 H3 H4 H5 H6 H7 H8 H9 H10 H11 H12 H13 H14 H15 H16 H17].
  destruct (summary_get_ok _ _ _ _ H12) as (summary & Hsum & ->).
  destruct (summary_get_ok _ _ _ _ H13) as (summary' & Hsum' & ->).
  rewrite Hsum in Hsum'. injection Hsum' as <-.
  destruct (action_get_ok _ _ _ H14) as (action & later & Hact & ->).
  destruct (action_get_ok _ _ _ H15) as (action1 & later1 & Hact1 & ->).
  destruct (action_get_ok _ _ _ H16) as (action2 & later2 & Hact2 & ->).
  destruct (action_get_ok _ _ _ H17) as (action3 & later3 & Hact3 & ->).
  rewrite Hact in Hact1, Hact2, Hact3.
  injection Hact1 as <- _. injection Hact2 as <- _. injection Hact3 as <- _.
  exists plays, play, idx, clock, gid, period, team, summary, action, later.
  rewrite finish_row_cells.
  repeat (split; [first [assumption | reflexivity] |]). reflexivity.
Qed.

Lemma cells_from_the_play_witness :
  Forall (fun r =>
            exists plays play idx clock gid period team summary action later,
              (exists pbp_list,
                  (Samples.game [Samples.goal; Samples.faceoff]).["plays"]
                  = Ok pbp_list
                  /\ py_iter pbp_list = Ok plays)
              /\ In play plays
              /\ play.["play_index"] = Ok idx
              /\ play.["clock_time_string"] = Ok clock
              /\ play.["game_id"] = Ok gid
              /\ play.["time_interval"] = Ok period
              /\ play.["team_id"] = Ok team
              /\ play.["play_summary"] = Ok (PyDict summary)
              /\ play.["play_actions"] = Ok (PyList (PyDict action :: later))
              /\ row_get (columns Samples.pbp_table) r "event_index"
                 = Some (fill0 idx)
              /\ row_get (columns Samples.pbp_table) r "time" = Some (fill0 clock)
              /\ row_get (columns Samples.pbp_table) r "game_id" = Some (fill0 gid)
              /\ row_get (columns Samples.pbp_table) r "period"
                 = Some (fill0 period)
              /\ row_get (columns Samples.pbp_table) r "event_team"
                 = Some (fill0 team)
              /\ row_get (columns Samples.pbp_table) r "x_coord"
                 = Some (fill0 (get_or "x_coord" summary PyNone))
              /\ row_get (columns Samples.pbp_table) r "y_coord"
                 = Some (fill0 (get_or "y_coord" summary PyNone))
              /\ row_get (columns Samples.pbp_table) r "away_goalie"
                 = Some (to_numeric_coerce
                           (fill0 (get_or "away_team_goalie" action PyNone)))
              /\ row_get (columns Samples.pbp_table) r "home_goalie"
                 = Some (to_numeric_coerce
                           (fill0 (get_or "home_team_goalie" action PyNone)))
              /\ row_get (columns Samples.pbp_table) r "away_score"
                 = Some (fill0 (get_or "away_team_score" action PyNone))
              /\ row_get (columns Samples.pbp_table) r "home_score"
                 = Some (fill0 (get_or "home_team_score" action PyNone)))
         (rows Samples.pbp_table).
Proof.
  apply Forall_forall. intros r.
  exact (cells_from_the_play _ _ _ _ r game_converts).
Defined.

(* ===================================================================== *)
(** ** The keys of the record *)
(* ===================================================================== *)

(** X23.  The record is subscripted with [roster_player], [team_instance] and
    [plays].  Without one of them the run ends with an exception, in
    [convert_pbp_dict] and so in [main]; it is the [KeyError] of that
    subscript when what is read before it succeeds (nothing, for
    [roster_player]). *)
Theorem record_keys_needed (d : list (string * pyval)) (k : string) :
  In k ["roster_player"; "team_instance"; "plays"] ->
  dict_get k d = None ->
  (exists e, convert_pbp_dict (PyDict d) = Raise e /\ main (PyDict d) = Raise e)
  /\ (k = "roster_player" -> convert_pbp_dict (PyDict d) = Raise KeyError)
  /\ (forall roster player_df,
         k = "team_instance" ->
         (PyDict d).["roster_player"] = Ok roster ->
         from_dict roster = Ok player_df ->
         convert_pbp_dict (PyDict d) = Raise KeyError)
  /\ (forall roster player_df teams team_df,
         k = "plays" ->
         (PyDict d).["roster_player"] = Ok roster ->
         from_dict roster = Ok player_df ->
         (PyDict d).["team_instance"] = Ok teams ->
         from_dict teams = Ok team_df ->
         convert_pbp_dict (PyDict d) = Raise KeyError).
Proof.
  intros Hk Hnone. pose proof (getitem_missing d k Hnone) as Hraise.
  split; [| split; [| split]].
  - destruct (convert_pbp_dict (PyDict d)) as [[[pbp pl] tm]|e] eqn:E.
    + exfalso. apply convert_pbp_dict_converted in E.
      destruct E as [roster pl teams tm pbp_list plays parsed h hid a aid
                       R1 _ R3 _ R5 _ _ _ _ _ _ _].
      cbn [In] in Hk. destruct Hk as [<- | [<- | [<- | []]]]; congruence.
    + exists e. split; [reflexivity | now apply main_raises_with_convert].
  - intros ->. unfold convert_pbp_dict. now rewrite Hraise.
  - intros roster pl -> R1 R2. unfold convert_pbp_dict.
    rewrite R1; cbn [bind]. rewrite R2; cbn [bind]. now rewrite Hraise.
  - intros roster pl teams tm -> R1 R2 R3 R4. unfold convert_pbp_dict.
    rewrite R1; cbn [bind]. rewrite R2; cbn [bind].
    rewrite R3; cbn [bind]. rewrite R4; cbn [bind]. now rewrite Hraise.
Qed.

Lemma record_keys_needed_witness :
  exists e,
    convert_pbp_dict
      (PyDict (dict_remove "plays"
                 (Samples.game_fields [Samples.goal; Samples.faceoff])))
    = Raise e
    /\ main
         (PyDict (dict_remove "plays"
                    (Samples.game_fields [Samples.goal; Samples.faceoff])))
       = Raise e.
Proof.
  apply (record_keys_needed
           (dict_remove "plays"
              (Samples.game_fields [Samples.goal; Samples.faceoff]))
           "plays").
  - right. right. now left.
  - reflexivity.
Defined.

(* ===================================================================== *)
(** ** The play that ends the run *)
(* ===================================================================== *)

(** X24.  The loop stops at the first play that raises.  With the two tables
    read, the plays before it converting and that play raising [e], the
    conversion raises [e], and so does [main]: the plays after it are not
    looked at, and the team lookups, which come after the loop, are never
    reached, whatever the team table holds. *)
Theorem first_failing_play_decides (pbp_dict roster teams : pyval)
        (player_df team_df : frame) (before after : list pyval)
        (play : pyval) (e : exn) :
  pbp_dict.["roster_player"] = Ok roster ->
  from_dict roster = Ok player_df ->
  pbp_dict.["team_instance"] = Ok teams ->
  from_dict teams = Ok team_df ->
  pbp_dict.["plays"] = Ok (PyList (before ++ play :: after)) ->
  (forall p, In p before -> exists row, parse_play p = Ok row) ->
  parse_play play = Raise e ->
  convert_pbp_dict pbp_dict = Raise e /\ main pbp_dict = Raise e.
Proof.
  intros R1 R2 R3 R4 R5 Hbefore Hplay.
  assert (Hc : convert_pbp_dict pbp_dict = Raise e).
  { unfold convert_pbp_dict.
    rewrite R1; cbn [bind]. rewrite R2; cbn [bind].
    rewrite R3; cbn [bind]. rewrite R4; cbn [bind].
    rewrite R5; cbn [bind py_iter].
    now rewrite (parse_plays_raise before play after e Hbefore Hplay). }
  split; [assumption | now apply main_raises_with_convert].
Qed.

Lemma first_failing_play_decides_witness :
  convert_pbp_dict
    (Samples.game ([Samples.goal]
                     ++ Samples.faceoff_at (PyStr "0523") [Samples.first_action]
                     :: [Samples.penalty_without_details]))
  = Raise IndexError
  /\ main
       (Samples.game ([Samples.goal]
                        ++ Samples.faceoff_at (PyStr "0523") [Samples.first_action]
                        :: [Samples.penalty_without_details]))
     = Raise IndexError.
Proof.
  apply (first_failing_play_decides
           (Samples.game ([Samples.goal]
                            ++ Samples.faceoff_at (PyStr "0523")
                                 [Samples.first_action]
                            :: [Samples.penalty_without_details]))
           Samples.roster Samples.teams Samples.player_table Samples.team_table
           [Samples.goal] [Samples.penalty_without_details]
           (Samples.faceoff_at (PyStr "0523") [Samples.first_action])
           IndexError); try reflexivity.
  intros p [<- | []]. exists Samples.goal_row. reflexivity.
Defined.
